(** * Verification of the experimenter repository

    A shallow embedding of the four Python sources
    ([app.py], [temporal.py], [semantic_search.py], [sciencetree.py])
    and the properties of their specification.

    Conventions of the embedding.
    - Python [str] values are modelled by [string]; the text is taken to be
      ASCII (the regular-expression classes [\d] and [\s] and case folding are
      the ASCII ones).
    - A Python exception is a value of [exn]; a computation that may raise
      returns [result A].  Calls to the external clients, to the retriever and
      to the clock go through the monad [Eff], which threads a [World] holding
      the log of external calls.
    - [print] calls are diagnostics and are left out. *)

From Stdlib Require Import ZArith String Ascii List Lia Bool DecimalString.
From Stdlib Require QArith.
From stdpp Require Import base option list strings gmap sorting.

Local Open Scope Z_scope.

(** * Python primitives *)

Module Py.

(** The exceptions the embedded code can raise.  [APIError] stands for the
    failures of the external clients, and [SyntaxError] for the refusal of a
    text by the builtin [eval]. *)
Inductive exn : Type :=
  | IndexError
  | KeyError (key : string)
  | AttributeError (attr : string)
  | TypeError
  | ValueError
  | APIError (msg : string)
  | RecursionError
  | SyntaxError (text : string).

Definition result (A : Type) : Type := (exn + A)%type.

Definition raise {A} (e : exn) : result A := inl e.

#[export] Instance result_ret : MRet result := fun A x => inr x.
#[export] Instance result_bind : MBind result := fun A B f m =>
  match m with
  | inl e => inl e
  | inr x => f x
  end.

(** ** Sequences: [l[i]] and [l[:k]] *)

(** [l[i]]: a negative index counts from the end, an index out of range
    raises [IndexError]. *)
Definition getitem {A} (l : list A) (i : Z) : result A :=
  let len := Z.of_nat (length l) in
  let j := if i <? 0 then i + len else i in
  if (j <? 0) || (len <=? j) then raise IndexError
  else match l !! Z.to_nat j with
       | Some x => mret x
       | None => raise IndexError
       end.

(** [l[:k]]: a negative bound counts from the end; bounds are clipped. *)
Definition slice_to {A} (l : list A) (k : Z) : list A :=
  if k <? 0 then take (Z.to_nat (Z.of_nat (length l) + k)) l
  else take (Z.to_nat k) l.

(** ** [sorted(l, key=key, reverse=True)]

    Python's sort is stable, also with [reverse=True]: elements with equal
    keys keep their original order.  The stable sort of a list is a function
    of the list alone; it is written here as a stable insertion. *)

Section Sorted.
Context {A K : Type} (key : A → K) (lt : K → K → bool).

(** [x] stood before every element of [l]: it goes after the elements with
    a greater key and before the others. *)
Fixpoint insert_reverse (x : A) (l : list A) : list A :=
  match l with
  | [] => [x]
  | y :: l' => if lt (key x) (key y) then y :: insert_reverse x l' else x :: l
  end.

Definition sorted_reverse (l : list A) : list A := foldr insert_reverse [] l.
End Sorted.

(** ** Dictionaries that are iterated: insertion-ordered association lists *)

Fixpoint dict_set {V} (k : string) (v : V) (d : list (string * V)) : list (string * V) :=
  match d with
  | [] => [(k, v)]
  | (k', v') :: d' => if String.eqb k k' then (k, v) :: d' else (k', v') :: dict_set k v d'
  end.

(** [{k: v for (k, v) in pairs}] *)
Definition dict_comp {V} (pairs : list (string * V)) : list (string * V) :=
  fold_left (λ d kv, dict_set kv.1 kv.2 d) pairs [].

(** ** Strings *)

(** [s.startswith(p)] *)
Fixpoint startswith (s p : string) : bool :=
  match p, s with
  | EmptyString, _ => true
  | String _ _, EmptyString => false
  | String a p', String b s' => if Ascii.eqb a b then startswith s' p' else false
  end.

(** [sub in s] *)
Fixpoint contains (sub s : string) : bool :=
  startswith s sub ||
  match s with
  | EmptyString => false
  | String _ s' => contains sub s'
  end.

Definition cons_head (c : ascii) (pieces : list string) : list string :=
  match pieces with
  | [] => [String c ""]
  | p :: ps => String c p :: ps
  end.

(** The left-to-right scan of [s.split(sep)] for a non-empty [sep]; [skip] is
    the number of characters of a separator just matched that are still to be
    passed over. *)
Fixpoint split_go (sep : string) (skip : nat) (s : string) : list string :=
  match s with
  | EmptyString => [""]
  | String c s' =>
      match skip with
      | S k => split_go sep k s'
      | O =>
          if startswith s sep
          then "" :: split_go sep (String.length sep - 1) s'
          else cons_head c (split_go sep 0 s')
      end
  end.

(** [s.split(sep)]; an empty separator raises [ValueError]. *)
Definition split (sep s : string) : result (list string) :=
  match sep with
  | EmptyString => raise ValueError
  | String _ _ => mret (split_go sep 0 s)
  end.

(** [s.replace('', new)] puts [new] before every character and at the end. *)
Fixpoint interleave (new s : string) : string :=
  match s with
  | EmptyString => new
  | String c s' => new +:+ String c (interleave new s')
  end.

Fixpoint replace_go (old new : string) (skip : nat) (s : string) : string :=
  match s with
  | EmptyString => ""
  | String c s' =>
      match skip with
      | S k => replace_go old new k s'
      | O =>
          if startswith s old
          then new +:+ replace_go old new (String.length old - 1) s'
          else String c (replace_go old new 0 s')
      end
  end.

(** [s.replace(old, new)] *)
Definition replace (old new s : string) : string :=
  match old with
  | EmptyString => interleave new s
  | String _ _ => replace_go old new 0 s
  end.

(** [str(z)] for an integer *)
Definition str (z : Z) : string := NilZero.string_of_int (Z.to_int z).

(** ** Tokens

    A fragment of Python's lexical grammar: braces, parentheses, colon, comma,
    minus, comparison operators, string literals without escapes, decimal
    integers and names. *)

Inductive token : Type :=
  | TLBrace | TRBrace | TLParen | TRParen | TColon | TComma | TMinus
  | TOp (op : string)
  | TStr (s : string)
  | TInt (z : Z)
  | TName (s : string).

Inductive lex_state : Type :=
  | LIdle
  | LStr (quote : ascii) (acc : string)
  | LNum (digits : string)
  | LName (acc : string)
  | LOp (c : ascii).

Definition code (c : ascii) : nat := nat_of_ascii c.

Definition is_blank (c : ascii) : bool :=
  (code c =? 32)%nat || (code c =? 9)%nat || (code c =? 10)%nat || (code c =? 13)%nat.

Definition is_decimal (c : ascii) : bool := (48 <=? code c)%nat && (code c <=? 57)%nat.

Definition is_name_start (c : ascii) : bool :=
  ((65 <=? code c)%nat && (code c <=? 90)%nat) ||
  ((97 <=? code c)%nat && (code c <=? 122)%nat) || (code c =? 95)%nat.

Definition digit_value (c : ascii) : Z := Z.of_nat (code c - 48).

Definition decimal_value (digits : string) : Z :=
  fold_left (λ acc c, 10 * acc + digit_value c) (list_ascii_of_string digits) 0.

(** A decimal integer literal is [0] or starts with a non-zero digit. *)
Definition int_of_digits (digits : string) : option Z :=
  match digits with
  | String c rest =>
      if (code c =? 48)%nat && negb (String.eqb rest "") then None
      else Some (decimal_value digits)
  | EmptyString => None
  end.

Definition snoc (s : string) (c : ascii) : string := s +:+ String c "".

Definition flush (st : lex_state) : option (list token) :=
  match st with
  | LIdle => Some []
  | LStr _ _ => None
  | LNum d => z ← int_of_digits d; Some [TInt z]
  | LName n => Some [TName n]
  | LOp c => if (code c =? 60)%nat || (code c =? 62)%nat
             then Some [TOp (String c "")] else None
  end.

Definition lex_idle (c : ascii) : option (list token * lex_state) :=
  if is_blank c then Some ([], LIdle)
  else if (code c =? 123)%nat then Some ([TLBrace], LIdle)
  else if (code c =? 125)%nat then Some ([TRBrace], LIdle)
  else if (code c =? 40)%nat then Some ([TLParen], LIdle)
  else if (code c =? 41)%nat then Some ([TRParen], LIdle)
  else if (code c =? 58)%nat then Some ([TColon], LIdle)
  else if (code c =? 44)%nat then Some ([TComma], LIdle)
  else if (code c =? 45)%nat then Some ([TMinus], LIdle)
  else if (code c =? 39)%nat || (code c =? 34)%nat then Some ([], LStr c "")
  else if (code c =? 60)%nat || (code c =? 62)%nat || (code c =? 61)%nat || (code c =? 33)%nat
       then Some ([], LOp c)
  else if is_decimal c then Some ([], LNum (String c ""))
  else if is_name_start c then Some ([], LName (String c ""))
  else None.

Definition lex_flush_then (st : lex_state) (c : ascii) : option (list token * lex_state) :=
  pre ← flush st;
  '(toks, st') ← lex_idle c;
  Some (pre ++ toks, st').

Definition lex_step (st : lex_state) (c : ascii) : option (list token * lex_state) :=
  match st with
  | LIdle => lex_idle c
  | LStr q acc =>
      if Ascii.eqb c q then Some ([TStr acc], LIdle)
      else if (code c =? 92)%nat || (code c =? 10)%nat || (code c =? 13)%nat then None
      else Some ([], LStr q (snoc acc c))
  | LNum d =>
      if is_decimal c then Some ([], LNum (snoc d c)) else lex_flush_then st c
  | LName n =>
      if is_name_start c || is_decimal c then Some ([], LName (snoc n c))
      else lex_flush_then st c
  | LOp o =>
      if (code c =? 61)%nat then Some ([TOp (String o (String c ""))], LIdle)
      else lex_flush_then st c
  end.

Fixpoint lex (st : lex_state) (s : string) : option (list token) :=
  match s with
  | EmptyString => flush st
  | String c s' =>
      '(toks, st') ← lex_step st c;
      rest ← lex st' s';
      Some (toks ++ rest)
  end.

(** ** Values and the builtin [eval] *)

Inductive PyAtom : Type :=
  | PyNone
  | PyBool (b : bool)
  | PyInt (z : Z)
  | PyStr (s : string).

Inductive PyValue : Type :=
  | Atom (a : PyAtom)
  | Dict (items : gmap string PyAtom).

Definition parse_atom (toks : list token) : option (PyAtom * list token) :=
  match toks with
  | TStr s :: rest => Some (PyStr s, rest)
  | TInt z :: rest => Some (PyInt z, rest)
  | TMinus :: TInt z :: rest => Some (PyInt (- z), rest)
  | TName n :: rest =>
      if String.eqb n "None" then Some (PyNone, rest)
      else if String.eqb n "True" then Some (PyBool true, rest)
      else if String.eqb n "False" then Some (PyBool false, rest)
      else None
  | _ => None
  end.

(** The items of a dict display after its opening brace, in the order they
    are written; a trailing comma is allowed. *)
Fixpoint parse_items (fuel : nat) (toks : list token) : option (list (string * PyAtom)) :=
  match fuel with
  | O => None
  | S fuel' =>
      match toks with
      | [TRBrace] => Some []
      | TStr k :: TColon :: rest =>
          '(v, rest') ← parse_atom rest;
          match rest' with
          | [TRBrace] => Some [(k, v)]
          | TComma :: rest'' => items ← parse_items fuel' rest''; Some ((k, v) :: items)
          | _ => None
          end
      | _ => None
      end
  end.

(** A dict display binds its keys from left to right: a repeated key keeps
    its last value. *)
Definition dict_of_items (items : list (string * PyAtom)) : gmap string PyAtom :=
  fold_left (λ m kv, <[kv.1 := kv.2]> m) items ∅.

(** A tab or a printable ASCII character. *)
Definition is_plain (c : ascii) : bool :=
  (code c =? 9)%nat || ((32 <=? code c)%nat && (code c <=? 126)%nat).

(** A text of one line: tabs and printable ASCII characters only. *)
Definition one_line (text : string) : bool :=
  forallb is_plain (list_ascii_of_string text).

(** The last character of the text is a closing brace. *)
Fixpoint ends_with_brace (text : string) : bool :=
  match text with
  | EmptyString => false
  | String c EmptyString => (code c =? 125)%nat
  | String _ rest => ends_with_brace rest
  end.

(** A text that closes with a brace and holds tabs, printable ASCII
    characters and line feeds only.  Where such a text is a dict display from
    its first character on, its line feeds stand between the two braces,
    where Python joins the lines. *)
Definition braced (text : string) : bool :=
  forallb (λ c, is_plain c || (code c =? 10)%nat) (list_ascii_of_string text) &&
  ends_with_brace text.

(** The literal displays whose value is fixed here: [None], [True], [False],
    an integer, a string without escapes, written on one line without leading
    blanks, or a dict display with string keys and such values, from its
    opening to its closing brace.  The texts are of at most 4300 characters,
    so that no integer literal exceeds the number of digits that CPython
    converts.  On every other text [parse_literal] is [None]: the fragment
    says nothing about it. *)
Definition parse_literal (text : string) : option PyValue :=
  match text with
  | EmptyString => None
  | String c _ =>
      if is_blank c then None
      else if negb (Z.of_nat (String.length text) <=? 4300) then None
      else if (code c =? 123)%nat then
        if braced text then
          toks ← lex LIdle text;
          match toks with
          | TLBrace :: rest =>
              items ← parse_items (length rest) rest;
              Some (Dict (dict_of_items items))
          | _ => None
          end
        else None
      else if one_line text then
        toks ← lex LIdle text;
        match parse_atom toks with
        | Some (a, []) => Some (Atom a)
        | _ => None
        end
      else None
  end.

(** [eval(text)].  On a literal display the value is the one displayed.  Any
    other text Python evaluates as an arbitrary expression, calls and
    attribute accesses included: its outcome, a value or an exception, is the
    interpreter's, given by [interpreter]. *)
Definition eval (interpreter : string → result PyValue) (text : string) : result PyValue :=
  match parse_literal text with
  | Some v => mret v
  | None => interpreter text
  end.

(** [v[key]] for a string key. *)
Definition subscript (v : PyValue) (key : string) : result PyAtom :=
  match v with
  | Dict items =>
      match items !! key with
      | Some a => mret a
      | None => raise (KeyError key)
      end
  | Atom _ => raise TypeError
  end.

Definition dquote : string := String (ascii_of_nat 34) "".

End Py.

Import Py.

(** * External calls *)

Module Effects.

(** A request to [client.messages.create]. *)
Record GenRequest : Type := mkGenRequest {
  req_model : string;
  req_max_tokens : Z;
  req_temperature : option QArith_base.Q;
  req_system : option string;
  req_user : string
}.

(** The external calls a run can make. *)
Inductive Event : Type :=
  | EvGenerate (req : GenRequest)      (* generation client, messages.create *)
  | EvEmbed (query : string)           (* embedding client, embed *)
  | EvRetrieve (query : string)        (* a retriever's retrieve *)
  | EvTexts (ids : list string).       (* a retriever's get_document_texts *)

(** The world outside the program: the log of external calls made so far
    (most recent first), the clock, given by its successive readings, and the
    Python interpreter, given by what [eval] yields on the texts that are no
    literal displays: an exception, or a value among those of [PyValue].  The
    evaluation of a text is taken to leave the log and the clock as they
    are. *)
Record World : Type := mkWorld {
  calls : list Event;
  ticks : nat;
  clock : nat → Z;
  interpreter : string → result PyValue
}.

Definition Eff (A : Type) : Type := World → result A * World.

#[export] Instance eff_ret : MRet Eff := fun A x w => (inr x, w).
#[export] Instance eff_bind : MBind Eff := fun A B f m w =>
  match m w with
  | (inl e, w') => (inl e, w')
  | (inr x, w') => f x w'
  end.

Definition throw {A} (e : exn) : Eff A := fun w => (inl e, w).

(** A pure computation that may raise, run inside [Eff]. *)
Definition lift {A} (r : result A) : Eff A := fun w => (r, w).

Definition log (ev : Event) (w : World) : World :=
  mkWorld (ev :: calls w) (ticks w) (clock w) (interpreter w).

(** [time.time()] *)
Definition time_time : Eff Z := fun w =>
  (inr (clock w (ticks w)), mkWorld (calls w) (S (ticks w)) (clock w) (interpreter w)).

(** [eval(text)], by the interpreter of the world. *)
Definition evaluate (text : string) : Eff PyValue := fun w =>
  (eval (interpreter w) text, w).

(** A generation client ([anthropic.Anthropic]).  Its answer may depend on
    everything that happened before the call; the value is the text of the
    first content block, [message.content[0].text], or the exception the call
    or the projection raises. *)
Definition GenerationClient : Type := list Event → GenRequest → result string.

(** [client.messages.create(...).content[0].text] *)
Definition messages_create (client : GenerationClient) (req : GenRequest) : Eff string :=
  fun w => (client (calls w) req, log (EvGenerate req) w).

(** The number of generation calls in a log. *)
Definition is_generation (ev : Event) : bool :=
  match ev with EvGenerate _ => true | _ => false end.

Definition generation_calls (evs : list Event) : nat :=
  length (List.filter is_generation evs).

End Effects.

Import Effects.

(** * temporal.py *)

Module Temporal.

(** ** Regular expressions

    The fragment of Python's [re] syntax that the pattern of
    [is_temporal_query] uses, under the flag [re.IGNORECASE]. *)

Definition is_digit (c : ascii) : bool :=
  let n := nat_of_ascii c in (48 <=? n)%nat && (n <=? 57)%nat.

(** [\s] on ASCII text: tab, line feed, vertical tab, form feed, carriage
    return, the separators 28-31 and the space. *)
Definition is_space (c : ascii) : bool :=
  let n := nat_of_ascii c in
  ((9 <=? n)%nat && (n <=? 13)%nat) || ((28 <=? n)%nat && (n <=? 32)%nat).

Definition lower (c : ascii) : ascii :=
  let n := nat_of_ascii c in
  if (65 <=? n)%nat && (n <=? 90)%nat then ascii_of_nat (n + 32) else c.

Inductive regex : Type :=
  | Void                       (* matches nothing *)
  | Eps                        (* the empty string *)
  | Chr (c : ascii)            (* a literal character, case ignored *)
  | Digit                      (* \d *)
  | Space                      (* \s *)
  | Seq (r1 r2 : regex)
  | Alt (r1 r2 : regex)
  | Star (r : regex).

Fixpoint nullable (r : regex) : bool :=
  match r with
  | Void | Chr _ | Digit | Space => false
  | Eps | Star _ => true
  | Seq r1 r2 => nullable r1 && nullable r2
  | Alt r1 r2 => nullable r1 || nullable r2
  end.

Definition seq (r1 r2 : regex) : regex :=
  match r1, r2 with
  | Void, _ | _, Void => Void
  | Eps, _ => r2
  | _, _ => Seq r1 r2
  end.

Definition alt (r1 r2 : regex) : regex :=
  match r1, r2 with
  | Void, _ => r2
  | _, Void => r1
  | _, _ => Alt r1 r2
  end.

(** The residual of [r] after reading the character [c]. *)
Fixpoint deriv (c : ascii) (r : regex) : regex :=
  match r with
  | Void | Eps => Void
  | Chr a => if Ascii.eqb (lower a) (lower c) then Eps else Void
  | Digit => if is_digit c then Eps else Void
  | Space => if is_space c then Eps else Void
  | Seq r1 r2 =>
      alt (seq (deriv c r1) r2) (if nullable r1 then deriv c r2 else Void)
  | Alt r1 r2 => alt (deriv c r1) (deriv c r2)
  | Star r1 => seq (deriv c r1) (Star r1)
  end.

(** Some prefix of [s] matches [r]: [pattern.match(s)] is not [None]. *)
Fixpoint match_prefix (r : regex) (s : string) : bool :=
  nullable r ||
  match s with
  | EmptyString => false
  | String c s' => match_prefix (deriv c r) s'
  end.

(** Some substring of [s] matches [r]: [bool(pattern.search(s))]. *)
Fixpoint search (r : regex) (s : string) : bool :=
  match_prefix r s ||
  match s with
  | EmptyString => false
  | String _ s' => search r s'
  end.

Fixpoint lit (s : string) : regex :=
  match s with
  | EmptyString => Eps
  | String c s' => Seq (Chr c) (lit s')
  end.

Definition seqs (rs : list regex) : regex := foldr Seq Eps rs.
Definition alts (rs : list regex) : regex := foldr Alt Void rs.
Definition words (ws : list string) : regex := alts (lit <$> ws).
Definition opt (r : regex) : regex := Alt r Eps.           (* r? *)
Definition plus (r : regex) : regex := Seq r (Star r).     (* r+ *)
Definition rep (n : nat) (r : regex) : regex := seqs (replicate n r). (* r{n} *)

(** The pattern of [is_temporal_query], temporal.py lines 20-33, one
    alternative per line of the source ([re.VERBOSE] drops the blanks and the
    comments of the pattern). *)
Definition temporal_pattern : regex :=
  alts [
    seqs [rep 4 Digit; opt (seqs [Star Space; lit "-"; Star Space; rep 4 Digit])];
    seqs [Digit; opt Digit; words ["st"; "nd"; "rd"; "th"]; plus Space; lit "century"];
    seqs [words ["last"; "past"; "next"; "coming"; "future"]; plus Space; plus Digit;
          plus Space; words ["year"; "decade"; "century"]];
    words ["recent"; "latest"; "current"; "ongoing"; "future"; "past"; "historical"; "ancient"];
    alts [lit "evolution"; seqs [lit "change"; opt (lit "s")];
          seqs [lit "advancement"; opt (lit "s")];
          seqs [lit "development"; opt (lit "s")]; lit "progress"];
    alts [seqs [lit "solar"; plus Space; lit "eclipse"]; lit "equinox"; lit "solstice"];
    words ["mission"; "probe"; "telescope"; "spacecraft"];
    alts [seqs [lit "nobel"; plus Space; lit "prize"]; lit "discovery"; lit "detection"];
    alts [seqs [lit "before"; plus Space; lit "and"; plus Space; lit "after"];
          seqs [lit "compared"; plus Space; lit "with"];
          seqs [lit "vs"; opt (lit ".")]];
    alts [lit "since"; lit "until"; seqs [lit "prior"; plus Space; lit "to"];
          lit "post-"; lit "pre-"];
    words ["AD"; "BC"];
    words ["release"; "launch"]
  ].

(** [is_temporal_query], temporal.py lines 19-35. *)
Definition is_temporal_query (query : string) : bool :=
  search temporal_pattern query.

(** ** [analyze_temporal_query] *)

(** The dictionary [analyze_temporal_query] returns. *)
Record TimeResult : Type := mkTimeResult {
  has_temporal_aspect : bool;
  expected_year_filter : PyAtom;
  expected_recency_weight : PyAtom
}.

(** The f-string of temporal.py lines 51-73. *)
Definition prompt (query : string) : string :=
  "Analyze the following query for its temporal aspects. Provide your analysis in a Python dictionary format with the following keys:
    - 'expected_year_filter': A string representing a Boolean expression for filtering years, or None if not applicable. Use 'year' as the variable name. Use lowercase 'and', 'or', 'not' for logical operators. Only use simple comparisons with years (e.g., 'year >= 2000', 'year < 1990', 'year == 2019', 'year != 2020'). Do not include any string comparisons or references to the query itself.
    - 'expected_recency_weight': An integer from 0 to 10 representing the importance of recency (0 for no recency bias, 10 for extreme recency bias), or None if not applicable.

    Here are two examples of correct output:

    1. Query: " +:+ dquote +:+
  "What are the latest developments in exoplanet detection since 2015?" +:+ dquote +:+
  "
    {
        'expected_year_filter': 'year >= 2015',
        'expected_recency_weight': 8
    }

    2. Query: " +:+ dquote +:+
  "Compare galaxy formation theories from the 1990s and 2020s." +:+ dquote +:+
  "
    {
        'expected_year_filter': '(year >= 1990 and year < 2000) or (year >= 2020 and year < 2030)',
        'expected_recency_weight': 5
    }

    Now, analyze the following query:
    Query: " +:+ dquote +:+ query +:+ dquote +:+
  "

    Respond only with the Python dictionary, no other text.
    ".

Definition haiku_request (query : string) : GenRequest :=
  {| req_model := "claude-3-haiku-20240307";
     req_max_tokens := 300;
     req_temperature := None;
     req_system := None;
     req_user := prompt query |}.

(** [analyze_temporal_query], temporal.py lines 37-91.  The client is the
    caller's [anthropic_client] attribute, which may be [None]. *)
Definition analyze_temporal_query (query : string) (client : option GenerationClient)
    : Eff (TimeResult * Z) :=
  start_time ← time_time;
  let has_temporal_aspect := is_temporal_query query in
  if negb has_temporal_aspect then
    end_time ← time_time;
    mret ({| has_temporal_aspect := false;
             expected_year_filter := PyNone;
             expected_recency_weight := PyNone |}, end_time - start_time)
  else
    response ←
      match client with
      | Some c => messages_create c (haiku_request query)
      | None => throw (AttributeError "messages")
      end;
    (* Extract the dictionary from the response *)
    claude_result ← evaluate response;
    year_filter ← lift (subscript claude_result "expected_year_filter");
    recency_weight ← lift (subscript claude_result "expected_recency_weight");
    let result := {| has_temporal_aspect := true;
                     expected_year_filter := year_filter;
                     expected_recency_weight := recency_weight |} in
    end_time ← time_time;
    mret (result, end_time - start_time).

End Temporal.

(** * semantic_search.py *)

Module SemanticSearch.

(** A similarity: an entry of the float32 array [similarities], or [-np.inf]
    for a section that is not embedded.  The rows of the matrix are normalised
    and the query embedding is finite, so the entries are finite floats,
    neither NaN nor infinite; a finite float32 is an integer multiple of
    2^-149 and [Fin z] stands for the one of value z * 2^-149.  The float
    comparison is then the comparison of the integers. *)
Inductive sim : Type :=
  | NegInf
  | Fin (z : Z).

#[global] Instance sim_eq_dec : EqDecision sim.
Proof. solve_decision. Defined.

(** [a < b] *)
Definition sim_lt (a b : sim) : bool :=
  match a, b with
  | _, NegInf => false
  | NegInf, Fin _ => true
  | Fin x, Fin y => x <? y
  end.

(** [a > b] *)
Definition sim_gt (a b : sim) : bool := sim_lt b a.

Record Document : Type := mkDocument {
  document_id : string;
  document_abstract : string;
  document_conclusions : string;
  document_arxiv_id : string
}.

(** An entry of [get_document_texts]: the keys [id], [abstract] and
    [conclusions]. *)
Record DocText : Type := mkDocText {
  text_id : string;
  text_abstract : string;
  text_conclusions : string
}.

(** An entry of [results]: [[doc_id, section, score]]. *)
Record Candidate : Type := mkCandidate {
  c_id : string;
  c_section : string;
  c_score : sim
}.

(** What [retrieve] returns: the ranked ids, or with [return_scores] the
    dictionary from id to score. *)
Inductive Retrieved : Type :=
  | Ids (ids : list string)
  | Scores (scores : list (string * sim)).

Definition no_temporal_aspect : Temporal.TimeResult :=
  {| Temporal.has_temporal_aspect := false;
     Temporal.expected_year_filter := PyNone;
     Temporal.expected_recency_weight := PyNone |}.

Section Retrieval.

(** Arrays of floats and their product are numpy's; the date of an arXiv id
    is computed by [parse_date] of the base class [RetrievalSystem]. *)
Variables Vec Mat Date : Type.
Variable np_dot : Mat → Vec → result (list Z).
Variable parse_date : option string → result Date.

(** [EmbeddingClient]: [embed] and the conversion [np.array(.., float32)]. *)
Definition EmbeddingClient : Type := list Event → string → result Vec.

(** The attributes of [EmbeddingRetrievalSystem] that the retrieval reads.
    [index_mapping] is a dictionary that is iterated, in insertion order;
    [keyword_filter] is set by [init_filters] only. *)
Record EmbeddingRetrievalSystem : Type := mkSystem {
  weight_citation : bool;
  weight_date : bool;
  weight_keywords : bool;
  embeddings : Mat;
  documents : list Document;
  index_mapping : list (string * gmap string Z);
  client : option EmbeddingClient;
  anthropic_client : option GenerationClient;
  keyword_filter : option (string → result (list string))
}.

(** [similarities[mappings[section]] if section in mappings else -np.inf] *)
Definition section_sim (similarities : list Z) (mappings : gmap string Z)
    (section : string) : result sim :=
  match mappings !! section with
  | Some row => z ← getitem similarities row; mret (Fin z)
  | None => mret NegInf
  end.

(** The body of the loop of [rank_and_filter], lines 132-138. *)
Definition score_document (similarities : list Z) (item : string * gmap string Z)
    : result Candidate :=
  let '(doc_id, mappings) := item in
  abstract_sim ← section_sim similarities mappings "abstract";
  conclusions_sim ← section_sim similarities mappings "conclusions";
  if sim_gt abstract_sim conclusions_sim
  then mret (mkCandidate doc_id "abstract" abstract_sim)
  else mret (mkCandidate doc_id "conclusions" conclusions_sim).

(** The loop of [rank_and_filter], lines 127-138. *)
Fixpoint score_documents (similarities : list Z) (items : list (string * gmap string Z))
    : result (list Candidate) :=
  match items with
  | [] => mret []
  | item :: rest =>
      entry ← score_document similarities item;
      results ← score_documents similarities rest;
      mret (entry :: results)
  end.

(** [sorted(filtered_results, key=lambda x: x[2], reverse=True)[:top_k]] *)
Definition top_results (filtered_results : list Candidate) (top_k : Z) : list Candidate :=
  slice_to (sorted_reverse c_score sim_lt filtered_results) top_k.

(** [rank_and_filter], lines 118-158. *)
Definition rank_and_filter (self : EmbeddingRetrievalSystem) (query : string)
    (query_embedding : Vec) (query_date : Date) (top_k : Z) (return_scores : bool)
    (time_result : option Temporal.TimeResult) : result Retrieved :=
  (* Calculate similarities *)
  similarities ← np_dot (embeddings self) query_embedding;
  (* Filter and rank results *)
  keyword_matches ←
    (if weight_keywords self then
       match keyword_filter self with
       | Some filter => filter query
       | None => raise (AttributeError "keyword_filter")
       end
     else mret []);
  results ← score_documents similarities (index_mapping self);
  let filtered_results := results in
  let top := top_results filtered_results top_k in
  if return_scores then
    mret (Scores (dict_comp ((λ doc, (c_id doc, c_score doc)) <$> top)))
  else
    (* Only keep the document IDs *)
    mret (Ids (c_id <$> top)).

(** [get_query_embedding], lines 160-162. *)
Definition get_query_embedding (self : EmbeddingRetrievalSystem) (query : string)
    : Eff Vec :=
  match client self with
  | Some c => fun w => (c (calls w) query, log (EvEmbed query) w)
  | None => throw (AttributeError "embed")
  end.

(** [retrieve], lines 105-116. *)
Definition retrieve (self : EmbeddingRetrievalSystem) (query : string)
    (arxiv_id : option string) (top_k : Z) (return_scores : bool)
    (time_result : option Temporal.TimeResult) : Eff Retrieved :=
  query_date ← lift (parse_date arxiv_id);
  query_embedding ← get_query_embedding self query;
  (* Judge time relevance *)
  time_result ←
    match time_result with
    | None =>
        if weight_date self then
          analysis ← Temporal.analyze_temporal_query query (anthropic_client self);
          mret analysis.1
        else mret no_temporal_aspect
    | Some given => mret given
    end;
  lift (rank_and_filter self query query_embedding query_date top_k return_scores
          (Some time_result)).

(** [get_document_texts], lines 164-176. *)
Fixpoint get_document_texts (self : EmbeddingRetrievalSystem) (doc_ids : list string)
    : list DocText :=
  match doc_ids with
  | [] => []
  | doc_id :: rest =>
      match List.find (λ d, String.eqb (document_id d) doc_id) (documents self) with
      | Some doc =>
          mkDocText (document_id doc) (document_abstract doc) (document_conclusions doc)
            :: get_document_texts self rest
      | None => get_document_texts self rest
      end
  end.

End Retrieval.

Arguments EmbeddingClient Vec : clear implicits.
Arguments EmbeddingRetrievalSystem Vec Mat : clear implicits.
Arguments mkSystem {Vec Mat}.
Arguments weight_citation {Vec Mat} self : rename.
Arguments weight_date {Vec Mat} self : rename.
Arguments weight_keywords {Vec Mat} self : rename.
Arguments embeddings {Vec Mat} self : rename.
Arguments documents {Vec Mat} self : rename.
Arguments index_mapping {Vec Mat} self : rename.
Arguments client {Vec Mat} self : rename.
Arguments anthropic_client {Vec Mat} self : rename.
Arguments keyword_filter {Vec Mat} self : rename.
Arguments rank_and_filter {Vec Mat Date} np_dot self query query_embedding query_date
  top_k return_scores time_result.
Arguments get_query_embedding {Vec Mat} self query.
Arguments retrieve {Vec Mat Date} np_dot parse_date self query arxiv_id top_k
  return_scores time_result.
Arguments get_document_texts {Vec Mat} self doc_ids.

End SemanticSearch.

(** * sciencetree.py *)

Module ScienceTree.

Import SemanticSearch.

Definition newline : string := String (ascii_of_nat 10) "".

Definition modes : list string :=
  ["Science Goal"; "Science Objective"; "Physical Parameter"; "Astronomical Observable"].

(** The instructions of [generate], lines 65-74, with [n] formatted in. *)
Definition systems (n : Z) : list string :=
  [ "Given the following over-arching science goal and related astrophysics papers, brainstorm exactly " +:+ str n +:+
    " focused science objectives that contribute towards the science goal.
                        Be concise. Return each science objective on a separate line, enclosed in curly braces.
                        ";
    "Given the following science objective and related astrophysics research papers, identify exactly " +:+ str n +:+
    " astrophysical parameters that would help answer the science objective.
                        Be detailed and specific (ex. type of astrophysical systems). Return each astrophysical parameter on a separate line, enclosed in curly braces.
                        ";
    "Given the following astrophysical parameter and related research papers, identify exactly " +:+ str n +:+
    " concrete observables that would help measure the physical parameter.
                        Ensure the observables are directly related to potential telescope observations.
                        Be concise and specific (ex. wavelength band, resolution, precision, types of observation targets, etc.). Be as quantitative as possible, but make sure numbers are derived from the research papers. Return each observable on a separate line, enclosed in curly braces.
                        " ].

Definition default_background : string :=
  "You are an expert astronomer trying to understand the science case for a future observatory.".

Definition default_model : string := "claude-3-5-sonnet-20240620".
Definition default_config_path : string := "../config.yaml".
Definition default_temperature : option QArith_base.Q := Some (QArith_base.Qmake 5 10).

(** What [sciencetree.py] asks of its [retriever]: the two methods it
    calls. *)
Class Retriever (R : Type) : Type := {
  retrieve : R → string → string → Z → Eff (list string);
  get_document_texts : R → list string → Eff (list DocText)
}.

(** The attributes of a node; [generation_client] is [None] when the
    attribute was never set. *)
#[warnings="-register-all"]
Inductive scienceTreeNode : Type := mkNode {
  text : string;
  docs : list string;
  year : Z;
  generation_model : string;
  mode : Z;
  n : Z;
  temperature : option QArith_base.Q;
  generation_client : option GenerationClient;
  background : string;
  children : list scienceTreeNode
}.

(** [bool(s)] for a string *)
Definition truthy (s : string) : bool := negb (String.eqb s "").

(** The test of line 94, ['{' and '}' in pair]: [in] binds tighter than
    [and], so this is ['{' and ('}' in pair)]. *)
Definition accepted (pair : string) : bool :=
  if truthy "{" then contains "}" pair else false.

(** Line 95: [pair.split('{')[1].replace('}', '')]. *)
Definition child_text (pair : string) : result string :=
  pieces ← split "{" pair;
  inner ← getitem pieces 1;
  mret (replace "}" "" inner).

Section Tree.

Context {R : Type} `{!Retriever R}.
Variable retriever : R.

(** The file system and the client library: [config_file path] is [None]
    when [os.path.exists(path)] is false, and otherwise the outcome of
    reading the key [anthropic_api_key] of the file; [Anthropic key] is
    [anthropic.Anthropic(api_key = key)]. *)
Variable config_file : string → option (result string).
Variable Anthropic : string → GenerationClient.

Definition call_retrieve (query yearstr : string) (top_k : Z) : Eff (list string) :=
  fun w => retrieve retriever query yearstr top_k (log (EvRetrieve query) w).

Definition call_get_document_texts (ids : list string) : Eff (list DocText) :=
  fun w => get_document_texts retriever ids (log (EvTexts ids) w).

(** Lines 27-36 of [__init__]. *)
Definition resolve_client (generation_client : option GenerationClient)
    (config_path : string) (api_key : option string) : result (option GenerationClient) :=
  match generation_client with
  | Some c => mret (Some c)
  | None =>
      match config_file config_path with
      | Some anthropic_key => key ← anthropic_key; mret (Some (Anthropic key))
      | None =>
          match api_key with
          | Some key => mret (Some (Anthropic key))
          | None => mret None
          end
      end
  end.

(** Lines 38-45 of [__init__]. *)
Definition resolve_background (background experiment : option string) : string :=
  match background with
  | Some b => b
  | None =>
      match experiment with
      | Some e => default_background +:+ e
      | None => default_background
      end
  end.

(** Lines 57-63 of [generate]: the retrieved ids and the input block. *)
Definition gather (text : string) (year mode : Z) : Eff (list string * string) :=
  let yearstr := str (year `div` 100) +:+ "01.0001" in
  docs ← call_retrieve text yearstr 10;
  doc_texts ← call_get_document_texts docs;
  let self_docs := text_id <$> doc_texts in
  label ← lift (getitem modes mode);
  let input_text :=
    fold_left (λ acc doc, acc +:+ text_id doc +:+ ": " +:+ text_abstract doc +:+ newline)
      doc_texts (label +:+ ": " +:+ text +:+ newline) in
  mret (self_docs, input_text).

(** The request of lines 79-87. *)
Definition request (generation_model background : string) (mode n : Z)
    (temperature : option QArith_base.Q) (input_text : string) : result GenRequest :=
  instruction ← getitem (systems n) mode;
  mret {| req_model := generation_model;
          req_max_tokens := 1000;
          req_temperature := temperature;
          req_system := Some (background +:+ newline +:+ instruction);
          req_user := input_text |}.

(** The loop of lines 92-97 over the lines of the message. *)
Fixpoint children_of_lines (make_child : string → Eff scienceTreeNode)
    (lines : list string) : Eff (list scienceTreeNode) :=
  match lines with
  | [] => mret []
  | line :: rest =>
      if accepted line then
        child ← lift (child_text line);
        node ← make_child child;
        others ← children_of_lines make_child rest;
        mret (node :: others)
      else children_of_lines make_child rest
  end.

(** [generate], lines 56-99.  It returns the children and sets
    [self.docs]: both are returned here. *)
Definition generate (make_child : string → Eff scienceTreeNode)
    (text : string) (year mode : Z) (generation_model background : string)
    (generation_client : option GenerationClient)
    (self_temperature temperature : option QArith_base.Q) (n : Z)
    : Eff (list string * list scienceTreeNode) :=
  '(self_docs, input_text) ← gather text year mode;
  let temperature :=
    match temperature with
    | None => self_temperature
    | Some t => Some t
    end in
  client ←
    match generation_client with
    | Some c => mret c
    | None => throw (AttributeError "generation_client")
    end;
  req ← lift (request generation_model background mode n temperature input_text);
  message ← messages_create client req;
  lines ← lift (split newline message);
  children ← children_of_lines make_child lines;
  mret (self_docs, children).

(** [scienceTreeNode.__init__], lines 17-50.  A child is built one mode
    higher and no node is expanded from mode 3 on, so the nesting of
    constructions is bounded; [fuel] is that bound.  With the bound [init]
    gives, the branch that reports [RecursionError] is never taken
    ([init_fuel_enough]). *)
Fixpoint init_fuel (fuel : nat) (text : string) (year n : Z)
    (temperature : option QArith_base.Q) (background experiment : option string)
    (mode : Z) (generation_model : string) (api_key : option string)
    (generation_client : option GenerationClient) (config_path : string)
    : Eff scienceTreeNode :=
  client ← lift (resolve_client generation_client config_path api_key);
  let background := resolve_background background experiment in
  let self children docs :=
    mkNode text docs year generation_model mode n temperature client background children in
  if mode <? 3 then
    match fuel with
    | O => throw RecursionError
    | S fuel' =>
        let make_child child :=
          init_fuel fuel' child year n default_temperature (Some background) None
            (mode + 1) default_model None client default_config_path in
        '(self_docs, children) ←
          generate make_child text year mode generation_model background client
            temperature temperature n;
        mret (self children self_docs)
    end
  else mret (self [] []).

Definition init (text : string) (year n : Z)
    (temperature : option QArith_base.Q) (background experiment : option string)
    (mode : Z) (generation_model : string) (api_key : option string)
    (generation_client : option GenerationClient) (config_path : string)
    : Eff scienceTreeNode :=
  init_fuel (Z.to_nat (3 - mode)) text year n temperature background experiment
    mode generation_model api_key generation_client config_path.

End Tree.

End ScienceTree.

(** * app.py *)

Module App.

Import SemanticSearch.

(** The retriever of app.py line 16 is an [EmbeddingRetrievalSystem]; the
    tree calls [retrieve(text, yearstr, top_k = 10)]. *)
#[export] Instance embedding_retriever {Vec Mat Date : Type}
    (np_dot : Mat → Vec → result (list Z)) (parse_date : option string → result Date)
    : ScienceTree.Retriever (EmbeddingRetrievalSystem Vec Mat) := {|
  ScienceTree.retrieve self query yearstr top_k :=
    found ← retrieve np_dot parse_date self query (Some yearstr) top_k false None;
    match found with
    | Ids ids => mret ids
    | Scores scores => mret (scores.*1)
    end;
  ScienceTree.get_document_texts self doc_ids :=
    mret (get_document_texts self doc_ids)
|}.

(** [format_paper_link], app.py lines 46-51. *)
Definition format_paper_link (paper_id : string) : result string :=
  if contains ".txt" paper_id then
    before ← split "_" paper_id ≫= (λ l, getitem l 0);
    arxiv_id ← split "astro-ph" before ≫= (λ l, getitem l (-1));
    mret ("https://arxiv.org/abs/astro-ph/" +:+ arxiv_id)
  else
    mret ("https://arxiv.org/abs/" +:+ paper_id).

End App.

(** * Notions of the specification

    Definitions that follow the words of the specification rather than the
    code; the theorems compare the code with them. *)

Module Spec.

(** ** The year-filter grammar

    A boolean expression over the single variable [year]: comparisons of
    [year] and integer constants, combined with [and], [or], [not] and
    parentheses. *)

Definition is_operand (t : token) : bool :=
  match t with
  | TName n => String.eqb n "year"
  | TInt _ => true
  | _ => false
  end.

Definition is_comparison (t : token) : bool :=
  match t with
  | TOp _ => true
  | _ => false
  end.

Definition is_word (w : string) (t : token) : bool :=
  match t with
  | TName n => String.eqb n w
  | _ => false
  end.

(** Each parser returns the tokens left after the phrase it recognises. *)
Fixpoint year_expr (fuel : nat) (toks : list token) : option (list token) :=
  match fuel with
  | O => None
  | S fuel' =>
      rest ← year_term fuel' toks;
      match rest with
      | t :: rest' => if is_word "or" t then year_expr fuel' rest' else Some rest
      | [] => Some rest
      end
  end
with year_term (fuel : nat) (toks : list token) : option (list token) :=
  match fuel with
  | O => None
  | S fuel' =>
      rest ← year_factor fuel' toks;
      match rest with
      | t :: rest' => if is_word "and" t then year_term fuel' rest' else Some rest
      | [] => Some rest
      end
  end
with year_factor (fuel : nat) (toks : list token) : option (list token) :=
  match fuel with
  | O => None
  | S fuel' =>
      match toks with
      | TLParen :: rest =>
          rest' ← year_expr fuel' rest;
          match rest' with
          | TRParen :: rest'' => Some rest''
          | _ => None
          end
      | a :: op :: b :: rest =>
          if is_word "not" a then year_factor fuel' (op :: b :: rest)
          else if is_operand a && is_comparison op && is_operand b then Some rest
          else None
      | _ => None
      end
  end.

(** The text is a year-filter expression. *)
Definition year_filter_grammar (text : string) : bool :=
  match lex LIdle text with
  | Some toks =>
      match year_expr (3 * length toks + 3) toks with
      | Some [] => true
      | _ => false
      end
  | None => false
  end.

(** ** Parts of a document id *)

(** The part of [s] before the first occurrence of the character [c]; the
    whole of [s] when [c] does not occur. *)
Fixpoint until (c : ascii) (s : string) : string :=
  match s with
  | EmptyString => ""
  | String a s' => if Ascii.eqb a c then "" else String a (until c s')
  end.

Fixpoint drop_chars (k : nat) (s : string) : string :=
  match k, s with
  | S k', String _ s' => drop_chars k' s'
  | _, _ => s
  end.

(** [s] without the prefix [p], if it starts with it. *)
Definition strip_prefix (p s : string) : string :=
  if startswith s p then drop_chars (String.length p) s else s.

(** The paper-id-to-URL rule in the words of the specification. *)
Definition paper_link (paper_id : string) : string :=
  if contains ".txt" paper_id
  then "https://arxiv.org/abs/astro-ph/" +:+ strip_prefix "astro-ph" (until "_" paper_id)
  else "https://arxiv.org/abs/" +:+ paper_id.

(** [tail] is what follows the last occurrence of [sep] in [s]; the whole of
    [s] when [sep] does not occur. *)
Definition after_last (sep s tail : string) : Prop :=
  contains sep tail = false ∧ (tail = s ∨ ∃ u, s = u +:+ sep +:+ tail).

(** ** Temporal intent *)


(** ** Scoring and ranking *)

(** The greater of two similarities. *)
Definition sim_max (a b : SemanticSearch.sim) : SemanticSearch.sim :=
  if SemanticSearch.sim_lt a b then b else a.

(** The ranking policy of the specification: [a] stands before [b] when its
    score is greater, or when the scores are equal and its id is smaller. *)
Definition precedes (a b : SemanticSearch.Candidate) : Prop :=
  SemanticSearch.sim_gt (SemanticSearch.c_score a) (SemanticSearch.c_score b) = true ∨
  (SemanticSearch.c_score a = SemanticSearch.c_score b ∧
   String.ltb (SemanticSearch.c_id a) (SemanticSearch.c_id b) = true).

(** [a] may stand before [b] in a descending order: its key is not
    smaller. *)
Definition not_below {A K} (key : A → K) (lt : K → K → bool) (a b : A) : Prop :=
  lt (key a) (key b) = false.

(** A row index that [similarities[row]] accepts. *)
Definition row_in_range (similarities : list Z) (row : Z) : Prop :=
  - Z.of_nat (length similarities) ≤ row < Z.of_nat (length similarities).

(** [ranked] is the stable descending ranking of [results]: the same entries,
    scores never increasing, and entries of equal score in the order they
    have in [results]. *)
Definition stable_ranking (results ranked : list SemanticSearch.Candidate) : Prop :=
  ranked ≡ₚ results ∧
  StronglySorted (not_below SemanticSearch.c_score SemanticSearch.sim_lt) ranked ∧
  ∀ s, filter (λ c, SemanticSearch.c_score c = s) ranked
       = filter (λ c, SemanticSearch.c_score c = s) results.

(** ** Entries of a generation response *)

(** What follows the first occurrence of the character [c] in [s]. *)
Fixpoint after_first (c : ascii) (s : string) : option string :=
  match s with
  | EmptyString => None
  | String a s' => if Ascii.eqb a c then Some s' else after_first c s'
  end.

(** A line with a complete delimited segment: an opening brace and, after
    it, a closing brace. *)
Definition well_formed_entry (line : string) : bool :=
  match after_first "{" line with
  | Some rest => contains "}" rest
  | None => false
  end.

(** The number of well-formed entries of a response. *)
Definition well_formed_entries (message : string) : nat :=
  length (List.filter well_formed_entry (split_go ScienceTree.newline 0 message)).

(** Every line of the response is a well-formed entry or has no closing
    brace at all. *)
Definition no_stray_brace (message : string) : Prop :=
  ∀ line, line ∈ split_go ScienceTree.newline 0 message →
    contains "}" line = true → well_formed_entry line = true.

(** What the expansion of a node at [mode] from the world [w] yields: the
    client is asked once, with the request built from the documents gathered
    for the node, and the node has one child, one mode higher, for every
    well-formed entry of the response. *)
Definition expanded {R : Type} `{!ScienceTree.Retriever R} (retriever : R)
    (client : GenerationClient) (text : string) (year mode n : Z)
    (generation_model background : string) (temperature : option QArith_base.Q)
    (w : World) (node : ScienceTree.scienceTreeNode) : Prop :=
  ∃ self_docs input_text w1 req message,
    ScienceTree.gather retriever text year mode w = (inr (self_docs, input_text), w1) ∧
    ScienceTree.request generation_model background mode n temperature input_text
      = inr req ∧
    client (calls w1) req = inr message ∧
    ScienceTree.docs node = self_docs ∧
    length (ScienceTree.children node) = well_formed_entries message ∧
    Forall (λ c, ScienceTree.mode c = mode + 1) (ScienceTree.children node).

(** ** The strings a regular expression matches *)

Inductive Matches : Temporal.regex → string → Prop :=
  | MatchEps : Matches Temporal.Eps ""
  | MatchChr a c :
      Temporal.lower a = Temporal.lower c → Matches (Temporal.Chr a) (String c "")
  | MatchDigit c : Temporal.is_digit c = true → Matches Temporal.Digit (String c "")
  | MatchSpace c : Temporal.is_space c = true → Matches Temporal.Space (String c "")
  | MatchSeq r1 r2 s1 s2 :
      Matches r1 s1 → Matches r2 s2 → Matches (Temporal.Seq r1 r2) (s1 +:+ s2)
  | MatchAltL r1 r2 s : Matches r1 s → Matches (Temporal.Alt r1 r2) s
  | MatchAltR r1 r2 s : Matches r2 s → Matches (Temporal.Alt r1 r2) s
  | MatchStarNil r : Matches (Temporal.Star r) ""
  | MatchStarMore r s1 s2 :
      Matches r s1 → Matches (Temporal.Star r) s2 → Matches (Temporal.Star r) (s1 +:+ s2).

(** Some substring of [s] matches [r]. *)
Definition found (r : Temporal.regex) (s : string) : Prop :=
  ∃ u m v, s = u +:+ m +:+ v ∧ Matches r m.

End Spec.

(** * Concrete inputs *)

Module Fixtures.

(** A response that is a call, not a literal display: Python evaluates it
    to the dictionary of its two keyword arguments. *)
Definition call_response : string :=
  "dict(expected_year_filter='year + 1', expected_recency_weight=8)".

(** An interpreter for the examples: it evaluates [call_response], and is
    not asked for any other text. *)
Definition interpreter0 (text : string) : result PyValue :=
  if String.eqb text call_response
  then inr (Dict {[ "expected_year_filter" := PyStr "year + 1";
                    "expected_recency_weight" := PyInt 8 ]})
  else inl (SyntaxError text).

(** A world with an empty log, whose clock reads 0, 1, 2, ... *)
Definition world0 : World := mkWorld [] 0 (λ k, Z.of_nat k) interpreter0.

(** A generation client that answers every request with [text]. *)
Definition answering (text : string) : GenerationClient := λ _ _, inr text.

(** A generation client whose calls all fail. *)
Definition failing : GenerationClient := λ _ _, inl (APIError "unavailable").

Definition stellar_mass_query : string := "what is the stellar mass of the Milky Way?".

Definition latest_query : string :=
  "What are the latest developments in exoplanet detection since 2015?".


(** ** A small corpus *)

Definition Vec : Type := list Z.
Definition Mat : Type := list (list Z).

(** An exact product, standing for [np.dot] on this corpus. *)
Definition dot (m : Mat) (v : Vec) : result (list Z) :=
  inr ((λ row, foldr Z.add 0 (zip_with Z.mul row v)) <$> m).

Definition parse_date (arxiv_id : option string) : result (option string) :=
  inr arxiv_id.

Definition embedder : SemanticSearch.EmbeddingClient Vec := λ _ _, inr [1; 0].

(** Five documents.  "b", "a" and "d" reach the same score 5, and "b" comes
    first in the index mapping; the two sections of "d" have the same
    similarity; "e" has no embedded section. *)
Definition corpus (weight_date : bool) (anthropic_client : option GenerationClient)
    : SemanticSearch.EmbeddingRetrievalSystem Vec Mat :=
  {| SemanticSearch.weight_citation := false;
     SemanticSearch.weight_date := weight_date;
     SemanticSearch.weight_keywords := false;
     SemanticSearch.embeddings := [[3; 0]; [5; 1]; [5; 2]; [-1; 0]];
     SemanticSearch.documents :=
       [ SemanticSearch.mkDocument "a" "abstract of a" "conclusions of a" "2301.00001";
         SemanticSearch.mkDocument "b" "abstract of b" "conclusions of b" "2301.00002";
         SemanticSearch.mkDocument "c" "abstract of c" "conclusions of c" "2301.00003";
         SemanticSearch.mkDocument "d" "abstract of d" "conclusions of d" "2301.00004" ];
     SemanticSearch.index_mapping :=
       [ ("b", {[ "abstract" := 1; "conclusions" := 0 ]});
         ("a", {[ "abstract" := 2 ]});
         ("c", {[ "conclusions" := 3 ]});
         ("d", {[ "abstract" := 1; "conclusions" := 2 ]});
         ("e", ∅) ];
     SemanticSearch.client := Some embedder;
     SemanticSearch.anthropic_client := anthropic_client;
     SemanticSearch.keyword_filter := None |}.

(** ** Trees *)

(** A generation client that gives its k-th call the k-th text of
    [responses], and the empty text from then on. *)
Definition scripted (responses : list string) : GenerationClient :=
  λ hist _, inr (nth (generation_calls hist) responses "").

(** No configuration file, and a client library whose clients answer
    nothing. *)
Definition no_config : string → option (result string) := λ _, None.
Definition silent : string → GenerationClient := λ _, answering "".

(** The construction of the root of a tree over the small corpus, from the
    goal [text] at mode 0, with the client [client]. *)
Definition tree (text : string) (n : Z) (client : GenerationClient)
    : Eff ScienceTree.scienceTreeNode :=
  ScienceTree.init (Retriever0 := App.embedding_retriever dot parse_date) (corpus false None)
    no_config silent text 2024 n ScienceTree.default_temperature None None 0
    ScienceTree.default_model None (Some client) ScienceTree.default_config_path.

Definition goal : string := "Map out nearby planetary systems".

(** Three well-formed entries. *)
Definition three_entries : string :=
  "{first objective}" +:+ ScienceTree.newline +:+
  "{second objective}" +:+ ScienceTree.newline +:+
  "{third objective}".

(** A well-formed entry, then a line with a closing brace and no opening
    one. *)
Definition stray_close : string :=
  "{first objective}" +:+ ScienceTree.newline +:+ "second objective}".

(** A line whose closing brace stands before its opening one. *)
Definition close_before_open : string := "} second objective {".

End Fixtures.

(** * semantic_search.py: [set_clients] and [retrieve_context] *)

Module Context.

Import SemanticSearch.

(** The [Document] that [retrieve_context] builds for a retrieved id; the
    values of a metadata row are of a type [Meta]. *)
Record ContextDocument (Meta : Type) : Type := mkContextDocument {
  cd_id : string;
  cd_abstract : string;
  cd_conclusions : string;
  cd_arxiv_id : string;
  cd_title : Meta;
  cd_score : sim;
  cd_n_citation : Meta;
  cd_keywords : Meta
}.

Arguments mkContextDocument {Meta}.
Arguments cd_id {Meta}.
Arguments cd_abstract {Meta}.
Arguments cd_conclusions {Meta}.
Arguments cd_arxiv_id {Meta}.
Arguments cd_title {Meta}.
Arguments cd_score {Meta}.
Arguments cd_n_citation {Meta}.
Arguments cd_keywords {Meta}.

(** [doctext[section]] for an entry of [get_document_texts]. *)
Definition doctext_get (doctext : DocText) (section : string) : result string :=
  if String.eqb section "id" then mret (text_id doctext)
  else if String.eqb section "abstract" then mret (text_abstract doctext)
  else if String.eqb section "conclusions" then mret (text_conclusions doctext)
  else raise (KeyError section).

(** [d[key]] for a dictionary *)
Definition dict_get {V} (d : gmap string V) (key : string) : result V :=
  match d !! key with
  | Some v => mret v
  | None => raise (KeyError key)
  end.

(** [docs[docid]] for the dictionary that [retrieve] returns *)
Definition scores_get (docs : list (string * sim)) (docid : string) : result sim :=
  match List.find (λ entry, String.eqb entry.1 docid) docs with
  | Some entry => mret entry.2
  | None => raise (KeyError docid)
  end.

Section RetrieveContext.

Context {Vec Mat Date Meta : Type}.
Variable np_dot : Mat → Vec → result (list Z).
Variable parse_date : option string → result Date.

(** [anthropic.Anthropic(api_key = key)], and
    [EmbeddingClient(OpenAI(api_key = key))], which may raise. *)
Variable Anthropic : string → GenerationClient.
Variable OpenAI : string → result (EmbeddingClient Vec).

(** [set_clients], lines 50-53: the system after the call.  When line 52
    raises, no attribute has been set. *)
Definition set_clients (self : EmbeddingRetrievalSystem Vec Mat)
    (openai_api_key anthropic_api_key : string)
    : result (EmbeddingRetrievalSystem Vec Mat) :=
  embedding_client ← OpenAI openai_api_key;
  mret (mkSystem (weight_citation self) (weight_date self) (weight_keywords self)
          (embeddings self) (documents self) (index_mapping self)
          (Some embedding_client) (Some (Anthropic anthropic_api_key))
          (keyword_filter self)).

(** Lines 186-187: the lines of one document. *)
Fixpoint section_lines (docid : string) (doctext : DocText) (sections : list string)
    (context_str : string) : result string :=
  match sections with
  | [] => mret context_str
  | section :: rest =>
      body ← doctext_get doctext section;
      section_lines docid doctext rest
        (context_str +:+ docid +:+ ": " +:+ body +:+ ScienceTree.newline)
  end.

(** Lines 189-191; [self.metadata] is [None] until [generate_metadata] has
    run. *)
Definition context_document (metadata : option (gmap string (gmap string Meta)))
    (docs : list (string * sim)) (docid : string) (doctext : DocText)
    : result (ContextDocument Meta) :=
  meta_row ←
    match metadata with
    | Some rows => dict_get rows docid
    | None => raise TypeError
    end;
  title ← dict_get meta_row "title";
  score ← scores_get docs docid;
  n_citation ← dict_get meta_row "citation_count";
  keywords ← dict_get meta_row "keyword_search";
  mret (mkContextDocument docid (text_abstract doctext) (text_conclusions doctext) docid
          title score n_citation keywords).

(** The loop of lines 185-191 over [zip(docids, doctexts)]. *)
Fixpoint context_loop (metadata : option (gmap string (gmap string Meta)))
    (docs : list (string * sim)) (sections : list string)
    (pairs : list (string * DocText)) (context_str : string)
    (doclist : list (ContextDocument Meta))
    : result (string * list (ContextDocument Meta)) :=
  match pairs with
  | [] => mret (context_str, doclist)
  | (docid, doctext) :: rest =>
      context_str ← section_lines docid doctext sections context_str;
      document ← context_document metadata docs docid doctext;
      context_loop metadata docs sections rest context_str (doclist ++ [document])
  end.

(** [retrieve_context], lines 178-193; [arxiv_id] and [time_result] are the
    keyword arguments passed on to [retrieve]. *)
Definition retrieve_context (self : EmbeddingRetrievalSystem Vec Mat)
    (metadata : option (gmap string (gmap string Meta)))
    (query : string) (top_k : Z) (sections : list string)
    (arxiv_id : option string) (time_result : option Temporal.TimeResult)
    : Eff (string * list (ContextDocument Meta)) :=
  found ← retrieve np_dot parse_date self query arxiv_id top_k true time_result;
  docs ←
    match found with
    | Scores docs => mret docs
    | Ids _ => throw (AttributeError "keys")
    end;
  let docids := docs.*1 in
  let doctexts := get_document_texts self docids in
  lift (context_loop metadata docs sections (zip docids doctexts) "" []).

End RetrieveContext.

End Context.

(** * app.py: the structure of a tree *)

Module AppTree.

Import SemanticSearch ScienceTree.

(** [[f(x) for x in xs]] *)
Fixpoint list_comp {A B} (f : A → result B) (xs : list A) : result (list B) :=
  match xs with
  | [] => mret []
  | x :: rest => y ← f x; ys ← list_comp f rest; mret (y :: ys)
  end.

(** The dictionary [build_tree_structure] returns; [td_children] is the
    value of the key "children", which only a node with children gets. *)
#[warnings="-register-all"]
Inductive TreeDict : Type := mkTreeDict {
  td_text : string;
  td_papers : list string;
  td_children : option (list TreeDict)
}.

(** [build_tree_structure], app.py lines 32-39. *)
Fixpoint build_tree_structure (node : scienceTreeNode) : result TreeDict :=
  match node with
  | mkNode text docs _ _ _ _ _ _ _ children =>
      papers ← list_comp App.format_paper_link docs;
      match children with
      | [] => mret (mkTreeDict text papers None)
      | _ :: _ =>
          below ←
            (fix each (nodes : list scienceTreeNode) : result (list TreeDict) :=
               match nodes with
               | [] => mret []
               | child :: rest =>
                   first ← build_tree_structure child;
                   others ← each rest;
                   mret (first :: others)
               end) children;
          mret (mkTreeDict text papers (Some below))
      end
  end.

(** The link of line 79 of [create_tree_html]: the anchor of a paper. *)
Definition paper_anchor (paper : string) : result string :=
  label ← split "/" paper ≫= (λ l, getitem l (-1));
  mret ("<a href='" +:+ paper +:+ "' target='_blank'>" +:+ label +:+ "</a>").

Section App.

Context {Vec Mat Date : Type}.
Variable np_dot : Mat → Vec → result (list Z).
Variable parse_date : option string → result Date.
Variable config_file : string → option (result string).
Variable Anthropic : string → GenerationClient.
Variable OpenAI : string → result (EmbeddingClient Vec).

(** [generate_science_tree], app.py lines 18-44.  The module-level
    [retriever] is given and returned: [set_clients] changes it, and a
    failure of [set_clients] is caught and leaves it as it was. *)
Definition generate_science_tree (retriever : EmbeddingRetrievalSystem Vec Mat)
    (science_objective openai_api_key anthropic_api_key : string)
    (branching_factor year_cutoff : Z) (temperature : QArith_base.Q)
    : EmbeddingRetrievalSystem Vec Mat * Eff TreeDict :=
  let retriever :=
    match Context.set_clients Anthropic OpenAI retriever openai_api_key anthropic_api_key with
    | inr updated => updated
    | inl _ => retriever
    end in
  (retriever,
   tree ← init (Retriever0 := App.embedding_retriever np_dot parse_date) retriever
             config_file Anthropic science_objective year_cutoff branching_factor
             (Some temperature) None None 0 default_model (Some anthropic_api_key) None
             default_config_path;
   lift (build_tree_structure tree)).

End App.

End AppTree.

(** * Variants of a retrieval system *)

Module Variants.

Import SemanticSearch.


(** [query.lower()] on ASCII text. *)
Fixpoint lower_case (query : string) : string :=
  match query with
  | EmptyString => EmptyString
  | String c rest => String (Temporal.lower c) (lower_case rest)
  end.

End Variants.

(** * The nodes below the root of a tree *)

Module Below.

Import ScienceTree.

(** [inherits year n background client m node]: [node] stands at mode [m],
    at most 3, with the year, the branching factor, the background and the
    client given, with the model and the temperature that [__init__] has as
    defaults; at mode 3 it has no children and no documents, and its
    children inherit the same one mode higher. *)
#[warnings="-register-all"]
Inductive inherits (year n : Z) (background : string) (client : option GenerationClient)
    : Z → scienceTreeNode → Prop :=
  | inherits_node m node :
      ScienceTree.mode node = m → m ≤ 3 →
      ScienceTree.year node = year →
      ScienceTree.n node = n →
      ScienceTree.background node = background →
      ScienceTree.generation_client node = client →
      ScienceTree.generation_model node = default_model →
      ScienceTree.temperature node = default_temperature →
      (m = 3 → children node = [] ∧ docs node = []) →
      Forall (inherits year n background client (m + 1)) (children node) →
      inherits year n background client m node.

(** [every P node]: [P] holds of [node] and of every node below it. *)
#[warnings="-register-all"]
Inductive every (P : scienceTreeNode → Prop) : scienceTreeNode → Prop :=
  | every_node node : P node → Forall (every P) (children node) → every P node.

(** The number of nodes of a tree that stand below mode 3: the nodes that
    [__init__] expands. *)
Fixpoint expansions (node : scienceTreeNode) : nat :=
  match node with
  | mkNode _ _ _ _ mode _ _ _ _ children =>
      (if (mode <? 3)%Z then 1%nat else 0%nat) +
      (fix total (nodes : list scienceTreeNode) : nat :=
         match nodes with
         | [] => 0%nat
         | child :: rest => (expansions child + total rest)%nat
         end) children
  end.

(** The same for a list of trees. *)
Definition expansions_of (nodes : list scienceTreeNode) : nat :=
  foldr (λ child total, (expansions child + total)%nat) 0%nat nodes.

End Below.

(** * Further concrete inputs *)

Module Cases.

Import SemanticSearch.

(** The small corpus with an embeddings matrix of two rows, where the index
    mapping refers to four. *)
Definition truncated : EmbeddingRetrievalSystem Fixtures.Vec Fixtures.Mat :=
  mkSystem false false false [[3; 0]; [5; 1]]
    (documents (Fixtures.corpus false None)) (index_mapping (Fixtures.corpus false None))
    (Some Fixtures.embedder) None None.

(** The small corpus with [weight_keywords] on, and [keyword_filter] as
    given. *)
Definition keyword_corpus (keyword_filter : option (string → result (list string)))
    : EmbeddingRetrievalSystem Fixtures.Vec Fixtures.Mat :=
  mkSystem false false true (embeddings (Fixtures.corpus false None))
    (documents (Fixtures.corpus false None)) (index_mapping (Fixtures.corpus false None))
    (Some Fixtures.embedder) None keyword_filter.

(** A keyword filter that matches the document "a" only. *)
Definition only_a : string → result (list string) := λ _, inr ["a"].

(** A system whose best-ranked id, "ghost", has no document. *)
Definition ghost_first : EmbeddingRetrievalSystem Fixtures.Vec Fixtures.Mat :=
  mkSystem false false false [[3; 0]; [9; 9]]
    [mkDocument "a" "abstract of a" "conclusions of a" "2301.00001"]
    [("ghost", {[ "abstract" := 1 ]}); ("a", {[ "abstract" := 0 ]})]
    (Some Fixtures.embedder) None None.

(** Metadata with a row for "ghost". *)
Definition ghost_metadata : option (gmap string (gmap string string)) :=
  Some {[ "ghost" := {[ "title" := "A title"; "citation_count" := "3";
                        "keyword_search" := "keywords" ]} ]}.

(** A file system in which every configuration file holds a key, and a
    client library whose embedding clients are the one of the small
    corpus. *)
Definition with_config : string → option (result string) := λ _, Some (inr "key of the file").
Definition openai : string → result (EmbeddingClient Fixtures.Vec) :=
  λ _, inr Fixtures.embedder.

End Cases.

(** * Tactics *)

(** Steps of the exception monad. *)
Ltac result_simpl :=
  cbn [mbind mret result_bind result_ret raise].

(** Unfolding of the two monads. *)
Ltac monad_unfold :=
  unfold mbind, mret, eff_bind, eff_ret, result_bind, result_ret, lift, throw, raise,
    time_time, messages_create, evaluate;
  cbn beta iota;
  cbn [log calls ticks clock interpreter].

(** * Properties *)

(** ** Strings *)

Section StringFacts.

Implicit Types (s t u p sep : string) (c : ascii).

Lemma app_cons c s t : String c s +:+ t = String c (s +:+ t).
Proof. reflexivity. Qed.

Lemma app_nil_r s : s +:+ "" = s.
Proof. induction s as [|c s IH]; [done|]. by rewrite app_cons, IH. Qed.

Lemma app_assoc s t u : (s +:+ t) +:+ u = s +:+ t +:+ u.
Proof. induction s as [|c s IH]; [done|]. by rewrite !app_cons, IH. Qed.

Lemma app_length s t : String.length (s +:+ t) = (String.length s + String.length t)%nat.
Proof. induction s as [|c s IH]; [done|]. rewrite app_cons. simpl. by rewrite IH. Qed.

(** Two ways of cutting one string: one cut is inside a part of the other. *)
Lemma app_eq_app s t s' t' :
  s +:+ t = s' +:+ t' →
  (∃ z, s' = s +:+ z ∧ t = z +:+ t') ∨ (∃ z, s = s' +:+ z ∧ t' = z +:+ t).
Proof.
  revert s'. induction s as [|c s IH]; intros s' Heq.
  - left. by exists s'.
  - destruct s' as [|c' s'].
    + right. by exists (String c s).
    + rewrite !app_cons in Heq. injection Heq as -> Heq.
      destruct (IH _ Heq) as [[z [-> ->]]|[z [-> ->]]]; [left|right]; by exists z.
Qed.

Lemma startswith_spec s p : startswith s p = true ↔ ∃ r, s = p +:+ r.
Proof.
  revert s. induction p as [|a p IH]; intros s.
  - split; [by exists s | by destruct s].
  - destruct s as [|b s]; simpl.
    + split; [done | intros [r Hr]; discriminate].
    + destruct (Ascii.eqb_spec a b) as [->|Hne].
      * rewrite IH. split; intros [r Hr]; exists r.
        -- by rewrite Hr.
        -- rewrite app_cons in Hr. by injection Hr.
      * split; [done | intros [r Hr]]. rewrite app_cons in Hr. congruence.
Qed.

Lemma startswith_app p r : startswith (p +:+ r) p = true.
Proof. apply startswith_spec. by exists r. Qed.

Lemma contains_spec sub s : contains sub s = true ↔ ∃ u r, s = u +:+ sub +:+ r.
Proof.
  induction s as [|c s IH]; cbn [contains].
  - rewrite orb_false_r, startswith_spec. split.
    + intros [r Hr]. by exists "", r.
    + intros [u [r Hr]]. destruct u; [by exists r|discriminate].
  - rewrite orb_true_iff, startswith_spec, IH. split.
    + intros [[r Hr]|[u [r Hr]]].
      * by exists "", r.
      * exists (String c u), r. by rewrite Hr.
    + intros [u [r Hr]]. destruct u as [|c' u].
      * left. by exists r.
      * right. exists u, r. rewrite app_cons in Hr. by injection Hr.
Qed.

Lemma contains_app sub u r : contains sub (u +:+ sub +:+ r) = true.
Proof. apply contains_spec. by exists u, r. Qed.

Lemma not_contains_cons sub c s :
  contains sub (String c s) = false →
  startswith (String c s) sub = false ∧ contains sub s = false.
Proof. simpl. by intros [??]%orb_false_iff. Qed.

(** *** [split] *)

Lemma split_go_nonempty sep k s : split_go sep k s ≠ [].
Proof.
  revert k. induction s as [|c s IH]; intros k; cbn [split_go]; [done|].
  destruct k; [|apply IH]. destruct (startswith (String c s) sep); [done|].
  specialize (IH 0%nat). by destruct (split_go sep 0 s).
Qed.

Lemma split_go_skip sep u r :
  split_go sep (String.length u) (u +:+ r) = split_go sep 0 r.
Proof. induction u as [|c u IH]; [done|]. by rewrite app_cons. Qed.

(** At an occurrence of the separator a piece ends. *)
Lemma split_go_sep a sep' r :
  split_go (String a sep') 0 (String a sep' +:+ r) = "" :: split_go (String a sep') 0 r.
Proof.
  rewrite app_cons. cbn [split_go]. rewrite <- app_cons, startswith_app.
  replace (String.length (String a sep') - 1)%nat with (String.length sep')
    by (cbn [String.length]; lia).
  by rewrite split_go_skip.
Qed.

Lemma split_go_other sep c s :
  startswith (String c s) sep = false →
  split_go sep 0 (String c s) = cons_head c (split_go sep 0 s).
Proof. intros Hs. cbn [split_go]. by rewrite Hs. Qed.

(** Without an occurrence of the separator the string is the only piece. *)
Lemma split_go_absent sep s :
  sep ≠ "" → contains sep s = false → split_go sep 0 s = [s].
Proof.
  intros Hsep. induction s as [|c s IH]; intros Hc.
  - done.
  - apply not_contains_cons in Hc as [Hs Hc].
    rewrite split_go_other, IH by done. done.
Qed.

(** The first piece of a split at a character. *)
Lemma split_go_char_head c before rest :
  contains (String c "") before = false →
  split_go (String c "") 0 (before +:+ String c rest)
    = before :: split_go (String c "") 0 rest.
Proof.
  induction before as [|b before IH]; intros Hc.
  - apply (split_go_sep c "" rest).
  - apply not_contains_cons in Hc as [Hs Hc].
    rewrite app_cons, split_go_other, IH; [done|done|].
    cbn [startswith] in *. by destruct (Ascii.eqb c b), before.
Qed.

Lemma cons_head_app c pieces t :
  pieces ≠ [] → cons_head c (pieces ++ [t]) = cons_head c pieces ++ [t].
Proof. by destruct pieces. Qed.

Lemma cons_head_nonempty c pieces : cons_head c pieces ≠ [].
Proof. by destruct pieces. Qed.

(** The last piece of a split, for a separator whose first character does
    not occur in it again (two of its occurrences then never overlap): it is
    what follows the last occurrence. *)
Lemma split_go_last a sep' tail :
  contains (String a "") sep' = false →
  contains (String a sep') tail = false →
  ∀ u, ∃ pieces, pieces ≠ [] ∧
    split_go (String a sep') 0 (u +:+ String a sep' +:+ tail) = pieces ++ [tail].
Proof.
  intros Hfirst Htail u.
  remember (String.length u) as len eqn:Hlen. revert u Hlen.
  induction len as [len IH] using lt_wf_ind. intros u ->.
  destruct u as [|c u].
  - exists [""]. split; [done|].
    change ("" +:+ String a sep' +:+ tail) with (String a sep' +:+ tail).
    rewrite split_go_sep, split_go_absent; done.
  - destruct (startswith (String c u +:+ String a sep' +:+ tail) (String a sep')) eqn:Hs.
    + apply startswith_spec in Hs as [r Hr].
      apply app_eq_app in Hr as [[z [Hu Hz]]|[z [Hsep Hz]]].
      * (* the separator at the front reaches into the one after [u] *)
        destruct z as [|a' z].
        -- rewrite app_nil_r in Hu. rewrite <- Hu.
           destruct (IH 0%nat) with (u := "") as [pieces [Hne Hp]];
             [cbn; lia | done |].
           exists ("" :: pieces). split; [done|].
           rewrite split_go_sep.
           change (String a sep' +:+ tail) with ("" +:+ String a sep' +:+ tail).
           by rewrite Hp.
        -- rewrite !app_cons in Hz. injection Hz as Ha Hz. subst a'.
           rewrite app_cons in Hu. injection Hu as Hc Hu. subst c sep'.
           change (String a z) with (String a "" +:+ z) in Hfirst.
           by rewrite contains_app in Hfirst.
      * destruct (IH (String.length z)) with (u := z) as [pieces [Hne Hp]];
          [rewrite Hsep, app_length; cbn; lia | done |].
        exists ("" :: pieces). split; [done|].
        rewrite Hsep, app_assoc, split_go_sep. by rewrite Hp.
    + destruct (IH (String.length u)) with (u := u) as [pieces [Hne Hp]];
        [cbn; lia | done |].
      exists (cons_head c pieces). split; [apply cons_head_nonempty|].
      rewrite (app_cons c u) in Hs |- *. rewrite split_go_other, Hp by done.
      by apply cons_head_app.
Qed.

Lemma contains_suffix sub u s : contains sub s = true → contains sub (u +:+ s) = true.
Proof.
  rewrite !contains_spec. intros [v [r ->]]. exists (u +:+ v), r.
  by rewrite app_assoc.
Qed.

(** An occurrence of the separator has a last one. *)
Lemma last_occurrence a sep' s :
  contains (String a sep') s = true →
  ∃ u tail, s = u +:+ String a sep' +:+ tail ∧ contains (String a sep') tail = false.
Proof.
  induction s as [|c s IH]; intros Hc.
  - by destruct sep'.
  - destruct (contains (String a sep') s) eqn:Hs.
    + destruct (IH eq_refl) as [u [tail [-> Ht]]]. by exists (String c u), tail.
    + cbn [contains] in Hc. rewrite Hs, orb_false_r in Hc.
      apply startswith_spec in Hc as [r Hr]. exists "", r. split; [done|].
      rewrite app_cons in Hr. injection Hr as _ ->.
      destruct (contains (String a sep') r) eqn:Hcr; [|done].
      by rewrite (contains_suffix _ sep' r Hcr) in Hs.
Qed.

Lemma split_go_until c s :
  ∃ rest, split_go (String c "") 0 s = Spec.until c s :: rest.
Proof.
  induction s as [|a s [rest IH]]; [by exists []|].
  cbn [split_go Spec.until startswith]. rewrite (Ascii.eqb_sym c a).
  destruct (Ascii.eqb a c).
  - destruct s; eauto.
  - rewrite IH. by exists rest.
Qed.

End StringFacts.

(** ** Sequences *)

Lemma getitem_first {A} (x : A) (l : list A) : getitem (x :: l) 0 = inr x.
Proof.
  unfold getitem. cbn [length]. 
  destruct (Z.ltb_spec 0 0); [lia|].
  destruct (Z.leb_spec (Z.of_nat (S (length l))) 0); [lia|]. done.
Qed.

Lemma getitem_last {A} (l : list A) (x : A) : getitem (l ++ [x]) (-1) = inr x.
Proof.
  unfold getitem. rewrite length_app. cbn [length].
  destruct (Z.ltb_spec (-1) 0); [|lia].
  destruct (Z.ltb_spec (-1 + Z.of_nat (length l + 1)) 0); [lia|].
  destruct (Z.leb_spec (Z.of_nat (length l + 1)) (-1 + Z.of_nat (length l + 1))); [lia|].
  cbn [orb].
  replace (Z.to_nat (-1 + Z.of_nat (length l + 1))) with (length l + 0)%nat by lia.
  by rewrite lookup_app_r, Nat.add_comm, Nat.add_sub by lia.
Qed.

Example split_examples :
  split "_" "a_b__c" = inr ["a"; "b"; ""; "c"] ∧
  split "ab" "xabyab" = inr ["x"; "y"; ""] ∧
  split "_" "" = inr [""] ∧
  split "" "abc" = inl ValueError ∧
  replace "}" "" "a}b}" = "ab" ∧
  replace "" "-" "ab" = "-a-b-" ∧
  contains ".txt" "astro-ph0001_sec2.txt" = true ∧
  str (2024 `div` 100) = "20" ∧ str (-7) = "-7" ∧ str 0 = "0".
Proof. repeat split; reflexivity. Qed.

Example getitem_examples :
  getitem ["a"; "b"; "c"] 0 = inr "a" ∧
  getitem ["a"; "b"; "c"] (-1) = inr "c" ∧
  getitem ["a"; "b"; "c"] 3 = inl IndexError ∧
  getitem ["a"; "b"; "c"] (-4) = inl IndexError ∧
  slice_to ["a"; "b"; "c"] 2 = ["a"; "b"] ∧
  slice_to ["a"; "b"; "c"] (-1) = ["a"; "b"] ∧
  slice_to ["a"; "b"; "c"] 10 = ["a"; "b"; "c"].
Proof. repeat split; reflexivity. Qed.

(** ** app.py: the link of a paper *)

Lemma format_paper_link_txt_tail paper_id :
  contains ".txt" paper_id = true →
  ∃ tail, Spec.after_last "astro-ph" (Spec.until "_" paper_id) tail ∧
    App.format_paper_link paper_id = inr ("https://arxiv.org/abs/astro-ph/" +:+ tail).
Proof.
  intros Htxt. unfold App.format_paper_link. rewrite Htxt.
  cbn [split]. result_simpl.
  destruct (split_go_until "_" paper_id) as [rest ->].
  rewrite getitem_first. result_simpl.
  set (before := Spec.until "_" paper_id).
  destruct (contains "astro-ph" before) eqn:Hc.
  - apply last_occurrence in Hc as [u [tail [Hu Ht]]].
    destruct (split_go_last "a" "stro-ph" tail eq_refl Ht u) as [pieces [_ Hp]].
    exists tail. split; [split; [done | right; by exists u]|].
    rewrite Hu, Hp, getitem_last. done.
  - exists before. split; [split; [done | by left]|].
    rewrite split_go_absent by done.
    pose proof (getitem_last [] before) as Hlast.
    change ([] ++ [before]) with [before] in Hlast. by rewrite Hlast.
Qed.

(** C8, as amended: for an id that contains ".txt" the link is
    "https://arxiv.org/abs/astro-ph/" followed by what follows the last
    occurrence of "astro-ph" in the part of the id before its first underscore
    (that whole part when "astro-ph" does not occur in it); for any other id it
    is "https://arxiv.org/abs/" followed by the id.  In particular the two ids
    of the specification map to the two links it gives. *)
Theorem format_paper_link_rule :
  (∀ paper_id,
     (contains ".txt" paper_id = false →
      App.format_paper_link paper_id = inr ("https://arxiv.org/abs/" +:+ paper_id)) ∧
     (contains ".txt" paper_id = true →
      ∃ tail, Spec.after_last "astro-ph" (Spec.until "_" paper_id) tail ∧
        App.format_paper_link paper_id = inr ("https://arxiv.org/abs/astro-ph/" +:+ tail))) ∧
  App.format_paper_link "2301.00001" = inr "https://arxiv.org/abs/2301.00001" ∧
  App.format_paper_link "astro-ph0001_sec2.txt" = inr "https://arxiv.org/abs/astro-ph/0001".
Proof.
  split; [|split; reflexivity].
  intros paper_id. split.
  - intros Htxt. unfold App.format_paper_link. by rewrite Htxt.
  - apply format_paper_link_txt_tail.
Qed.

Lemma format_paper_link_rule_witness :
  App.format_paper_link "2301.00001" = inr ("https://arxiv.org/abs/" +:+ "2301.00001") ∧
  ∃ tail, Spec.after_last "astro-ph" (Spec.until "_" "astro-ph0001_sec2.txt") tail ∧
    App.format_paper_link "astro-ph0001_sec2.txt"
      = inr ("https://arxiv.org/abs/astro-ph/" +:+ tail).
Proof.
  split.
  - apply (proj1 (proj1 format_paper_link_rule "2301.00001")). reflexivity.
  - apply (proj2 (proj1 format_paper_link_rule "astro-ph0001_sec2.txt")). reflexivity.
Defined.

(** C8 as stated fails: where "astro-ph" occurs in the id other than as a
    prefix, the code drops everything up to its last occurrence, which is not
    the id with a prefix "astro-ph" stripped. *)
Lemma format_paper_link_not_prefix_strip :
  App.format_paper_link "12astro-ph34_x.txt" = inr "https://arxiv.org/abs/astro-ph/34" ∧
  Spec.paper_link "12astro-ph34_x.txt" = "https://arxiv.org/abs/astro-ph/12astro-ph34" ∧
  App.format_paper_link "12astro-ph34_x.txt" ≠ inr (Spec.paper_link "12astro-ph34_x.txt").
Proof. split; [reflexivity|]. split; [reflexivity|]. vm_compute. discriminate. Qed.

(** ** The matcher of [is_temporal_query] *)

Section RegexFacts.

Import Temporal.
Implicit Types (r : regex) (s : string) (c : ascii).

Local Hint Constructors Spec.Matches : core.

Lemma app_eq_nil s t : s +:+ t = "" → s = "" ∧ t = "".
Proof. by destruct s. Qed.

Lemma matches_void s : ¬ Spec.Matches Void s.
Proof. inversion 1. Qed.

Lemma matches_eps s : Spec.Matches Eps s → s = "".
Proof. by inversion 1. Qed.

Lemma matches_seq_inv r1 r2 s :
  Spec.Matches (Seq r1 r2) s →
  ∃ s1 s2, s = s1 +:+ s2 ∧ Spec.Matches r1 s1 ∧ Spec.Matches r2 s2.
Proof. inversion 1; subst; eauto. Qed.

Lemma matches_alt_inv r1 r2 s :
  Spec.Matches (Alt r1 r2) s → Spec.Matches r1 s ∨ Spec.Matches r2 s.
Proof. inversion 1; subst; eauto. Qed.

Lemma matches_seq_eps r s : Spec.Matches r s → Spec.Matches (Seq Eps r) s.
Proof. intros H. change s with ("" +:+ s). by constructor. Qed.

Lemma nullable_spec r : nullable r = true ↔ Spec.Matches r "".
Proof.
  induction r as [| |a| | |r1 IH1 r2 IH2|r1 IH1 r2 IH2|r IH]; cbn [nullable].
  - split; [done|inversion 1].
  - split; [constructor|done].
  - split; [done|inversion 1].
  - split; [done|inversion 1].
  - split; [done|inversion 1].
  - rewrite andb_true_iff, IH1, IH2. split.
    + intros [H1 H2]. change "" with ("" +:+ ""). by constructor.
    + intros (s1 & s2 & Heq & H1 & H2)%matches_seq_inv.
      symmetry in Heq. by apply app_eq_nil in Heq as [-> ->].
  - rewrite orb_true_iff, IH1, IH2. split.
    + intros [?|?]; auto.
    + apply matches_alt_inv.
  - split; [constructor|done].
Qed.

Lemma seq_spec r1 r2 s : Spec.Matches (seq r1 r2) s ↔ Spec.Matches (Seq r1 r2) s.
Proof.
  assert (Spec.Matches r2 s ↔ Spec.Matches (Seq Eps r2) s) as Heps.
  { split; [apply matches_seq_eps|].
    by intros (s1 & s2 & -> & ->%matches_eps & H2)%matches_seq_inv. }
  assert (∀ r, Spec.Matches Void s ↔ Spec.Matches (Seq Void r) s) as Hvoid1.
  { intros r. split; [by intros ?%matches_void|].
    by intros (s1 & s2 & _ & ?%matches_void & _)%matches_seq_inv. }
  assert (∀ r, Spec.Matches Void s ↔ Spec.Matches (Seq r Void) s) as Hvoid2.
  { intros r. split; [by intros ?%matches_void|].
    by intros (s1 & s2 & _ & _ & ?%matches_void)%matches_seq_inv. }
  destruct r1, r2; cbn [seq]; try done; try apply Hvoid1; try apply Hvoid2;
    try apply Heps.
Qed.

Lemma alt_spec r1 r2 s : Spec.Matches (alt r1 r2) s ↔ Spec.Matches (Alt r1 r2) s.
Proof.
  assert (Spec.Matches r2 s ↔ Spec.Matches (Alt Void r2) s) as Hl.
  { split; [auto|]. by intros [?%matches_void|?]%matches_alt_inv. }
  assert (Spec.Matches r1 s ↔ Spec.Matches (Alt r1 Void) s) as Hr.
  { split; [auto|]. by intros [?|?%matches_void]%matches_alt_inv. }
  destruct r1, r2; cbn [alt]; try done; try apply Hl; try apply Hr.
Qed.

(** A non-empty match of a starred expression starts with a non-empty match
    of the expression. *)
Lemma matches_star_cons r c s :
  Spec.Matches (Star r) (String c s) →
  ∃ s1 s2, s = s1 +:+ s2 ∧ Spec.Matches r (String c s1) ∧ Spec.Matches (Star r) s2.
Proof.
  intros H. remember (Star r) as r' eqn:Hr. remember (String c s) as t eqn:Ht.
  revert s Ht. induction H as [| | | | | | | |r0 s1 s2 H1 _ H2 IH2]; try done.
  injection Hr as ->. intros s Ht. destruct s1 as [|c1 s1].
  - by apply IH2.
  - rewrite app_cons in Ht. injection Ht as -> <-. by exists s1, s2.
Qed.

Lemma matches_chr_inv a s :
  Spec.Matches (Chr a) s → ∃ c, s = String c "" ∧ lower a = lower c.
Proof. inversion 1; subst; eauto. Qed.

Lemma matches_digit_inv s :
  Spec.Matches Digit s → ∃ c, s = String c "" ∧ is_digit c = true.
Proof. inversion 1; subst; eauto. Qed.

Lemma matches_space_inv s :
  Spec.Matches Space s → ∃ c, s = String c "" ∧ is_space c = true.
Proof. inversion 1; subst; eauto. Qed.

Lemma deriv_spec c r s : Spec.Matches (deriv c r) s ↔ Spec.Matches r (String c s).
Proof.
  revert s. induction r as [| |a| | |r1 IH1 r2 IH2|r1 IH1 r2 IH2|r IH]; intros s;
    cbn [deriv].
  - split; inversion 1.
  - split; inversion 1.
  - destruct (Ascii.eqb_spec (lower a) (lower c)) as [Heq|Hne]; split.
    + intros ->%matches_eps. by constructor.
    + intros (c' & [= <- ->] & _)%matches_chr_inv. constructor.
    + by intros ?%matches_void.
    + by intros (c' & [= <- ->] & ?)%matches_chr_inv.
  - destruct (is_digit c) eqn:Hd; split.
    + intros ->%matches_eps. by constructor.
    + intros (c' & [= <- ->] & _)%matches_digit_inv. constructor.
    + by intros ?%matches_void.
    + intros (c' & [= <- ->] & ?)%matches_digit_inv. congruence.
  - destruct (is_space c) eqn:Hd; split.
    + intros ->%matches_eps. by constructor.
    + intros (c' & [= <- ->] & _)%matches_space_inv. constructor.
    + by intros ?%matches_void.
    + intros (c' & [= <- ->] & ?)%matches_space_inv. congruence.
  - rewrite alt_spec. split.
    + intros [Hl|Hr]%matches_alt_inv.
      * apply seq_spec, matches_seq_inv in Hl as (s1 & s2 & -> & H1 & H2).
        apply IH1 in H1. rewrite <- app_cons. by constructor.
      * destruct (nullable r1) eqn:Hn; [|by apply matches_void in Hr].
        apply IH2 in Hr. apply nullable_spec in Hn.
        change (String c s) with ("" +:+ String c s). by constructor.
    + intros (s1 & s2 & Heq & H1 & H2)%matches_seq_inv.
      destruct s1 as [|c1 s1].
      * change ("" +:+ s2) with s2 in Heq. subst s2. apply Spec.MatchAltR.
        apply nullable_spec in H1. rewrite H1. by apply IH2.
      * rewrite app_cons in Heq. injection Heq as <- ->.
        apply Spec.MatchAltL, seq_spec. constructor; [by apply IH1|done].
  - rewrite alt_spec. split.
    + intros [?|?]%matches_alt_inv;
        [apply Spec.MatchAltL; by apply IH1|apply Spec.MatchAltR; by apply IH2].
    + intros [?|?]%matches_alt_inv;
        [apply Spec.MatchAltL; by apply IH1|apply Spec.MatchAltR; by apply IH2].
  - rewrite seq_spec. split.
    + intros (s1 & s2 & -> & H1 & H2)%matches_seq_inv.
      apply IH in H1. rewrite <- app_cons. by constructor.
    + intros (s1 & s2 & -> & H1 & H2)%matches_star_cons.
      constructor; [by apply IH|done].
Qed.

Lemma match_prefix_spec r s :
  match_prefix r s = true ↔ ∃ m v, s = m +:+ v ∧ Spec.Matches r m.
Proof.
  revert r. induction s as [|c s IH]; intros r; cbn [match_prefix].
  - rewrite orb_false_r, nullable_spec. split.
    + intros H. by exists "", "".
    + intros (m & v & Heq & H). symmetry in Heq. by apply app_eq_nil in Heq as [-> _].
  - rewrite orb_true_iff, nullable_spec, IH. split.
    + intros [H|(m & v & -> & H)].
      * by exists "", (String c s).
      * exists (String c m), v. split; [done|]. by apply deriv_spec.
    + intros (m & v & Heq & H). destruct m as [|c' m].
      * by left.
      * right. rewrite app_cons in Heq. injection Heq as <- ->.
        exists m, v. split; [done|]. by apply deriv_spec.
Qed.

Lemma search_spec r s : search r s = true ↔ Spec.found r s.
Proof.
  unfold Spec.found. induction s as [|c s IH]; cbn [search].
  - rewrite orb_false_r, match_prefix_spec. split.
    + intros (m & v & Heq & H). by exists "", m, v.
    + intros (u & m & v & Heq & H). symmetry in Heq.
      apply app_eq_nil in Heq as [-> Heq]. by exists m, v.
  - rewrite orb_true_iff, match_prefix_spec, IH. split.
    + intros [(m & v & Heq & H)|(u & m & v & -> & H)].
      * by exists "", m, v.
      * by exists (String c u), m, v.
    + intros (u & m & v & Heq & H). destruct u as [|c' u].
      * left. by exists m, v.
      * right. rewrite app_cons in Heq. injection Heq as <- ->. by exists u, m, v.
Qed.

(** [is_temporal_query] holds exactly when some substring of the query
    matches the pattern. *)
Lemma is_temporal_query_found query :
  is_temporal_query query = true ↔ Spec.found temporal_pattern query.
Proof. apply search_spec. Qed.

End RegexFacts.

(** ** temporal.py *)

Import Temporal.

Example is_temporal_query_examples :
  Temporal.is_temporal_query "what is the stellar mass of the Milky Way?" = false ∧
  Temporal.is_temporal_query
    "What are the latest developments in exoplanet detection since 2015?" = true ∧
  Temporal.is_temporal_query "galaxies in 1998 - 2003" = true ∧
  Temporal.is_temporal_query "the 19th  Century" = true ∧
  Temporal.is_temporal_query "gradient of metallicity" = true ∧
  Temporal.is_temporal_query "a b c 123" = false.
Proof. repeat split; vm_compute; reflexivity. Qed.

Example eval_examples (interpreter : string → result PyValue) :
  eval interpreter
    "{'expected_year_filter': 'year >= 2015', 'expected_recency_weight': 8}"
    = inr (Dict {[ "expected_year_filter" := PyStr "year >= 2015";
                   "expected_recency_weight" := PyInt 8 ]}) ∧
  eval interpreter "None" = inr (Atom PyNone) ∧
  eval interpreter "- 8 " = inr (Atom (PyInt (-8))) ∧
  eval interpreter "{'a': 1, 'a': -2,}" = inr (Dict {[ "a" := PyInt (-2) ]}) ∧
  eval interpreter "{
    'expected_year_filter': None,
    'expected_recency_weight': -
      8
}" = inr (Dict {[ "expected_year_filter" := PyNone;
                  "expected_recency_weight" := PyInt (-8) ]}) ∧
  eval interpreter "__import__('os').system('id')"
    = interpreter "__import__('os').system('id')" ∧
  lex LIdle "(year >= 1990 and year<2000)"
    = Some [TLParen; TName "year"; TOp ">="; TInt 1990; TName "and"; TName "year";
            TOp "<"; TInt 2000; TRParen].
Proof. repeat split; vm_compute; reflexivity. Qed.

(** Texts that are left to the interpreter: a line feed outside the braces
    of a display, before or after it, a text that starts with a blank, a
    carriage return, and a character of a string literal that is not plain. *)
Example parse_literal_examples :
  parse_literal ("{}" +:+ String (ascii_of_nat 10) " ") = None ∧
  parse_literal ("{}" +:+ String (ascii_of_nat 10) "") = None ∧
  parse_literal ("-" +:+ String (ascii_of_nat 10) "8") = None ∧
  parse_literal ("8" +:+ String (ascii_of_nat 10) "") = None ∧
  parse_literal " {}" = None ∧
  parse_literal ("{" +:+ String (ascii_of_nat 13) "}") = None ∧
  parse_literal ("'" +:+ String (ascii_of_nat 0) "'") = None ∧
  parse_literal "08" = None ∧
  parse_literal "'a' 'b'" = None ∧
  parse_literal "{'a': {}}" = None ∧
  parse_literal Fixtures.call_response = None.
Proof. repeat split; vm_compute; reflexivity. Qed.

Example year_filter_grammar_examples :
  Spec.year_filter_grammar "year >= 2015" = true ∧
  Spec.year_filter_grammar
    "(year >= 1990 and year < 2000) or (year >= 2020 and year < 2030)" = true ∧
  Spec.year_filter_grammar "not (year == 2019) and not year != 2020" = true ∧
  Spec.year_filter_grammar "year + 1" = false ∧
  Spec.year_filter_grammar "year >= 2015 and" = false ∧
  Spec.year_filter_grammar "open('/etc/passwd').read()" = false.
Proof. repeat split; vm_compute; reflexivity. Qed.

(** C7: when the pattern finds no temporal cue in the query,
    [analyze_temporal_query] returns has_temporal_aspect = False with no year
    filter and no recency weight, whatever the client is, and the log of
    external calls is unchanged: the client is not invoked.  The query about
    the stellar mass of the Milky Way is such a query. *)
Theorem analyze_without_cue_skips_client :
  (∀ query client w,
     is_temporal_query query = false →
     ∃ elapsed w',
       analyze_temporal_query query client w
         = (inr ({| has_temporal_aspect := false;
                    expected_year_filter := PyNone;
                    expected_recency_weight := PyNone |}, elapsed), w') ∧
       calls w' = calls w) ∧
  is_temporal_query "what is the stellar mass of the Milky Way?" = false.
Proof.
  split; [|vm_compute; reflexivity].
  intros query client w Hq.
  unfold analyze_temporal_query. rewrite Hq.
  eexists _, _. split; reflexivity.
Qed.

Lemma analyze_without_cue_skips_client_witness :
  ∃ elapsed w',
    analyze_temporal_query Fixtures.stellar_mass_query (Some Fixtures.failing) Fixtures.world0
      = (inr ({| has_temporal_aspect := false;
                 expected_year_filter := PyNone;
                 expected_recency_weight := PyNone |}, elapsed), w') ∧
    calls w' = calls Fixtures.world0.
Proof.
  apply (proj1 analyze_without_cue_skips_client). vm_compute. reflexivity.
Defined.

Import SemanticSearch.










(** ** The stable descending sort *)

Section SortedFacts.

Context {A K : Type} `{EqDecision K} (key : A → K) (lt : K → K → bool).

Hypothesis lt_irrefl : ∀ k, lt k k = false.
Hypothesis lt_asym : ∀ a b, lt a b = true → lt b a = false.
Hypothesis lt_neg_trans : ∀ a b c, lt a b = false → lt b c = false → lt a c = false.

Lemma insert_reverse_perm x l : insert_reverse key lt x l ≡ₚ x :: l.
Proof.
  induction l as [|y l IH]; cbn [insert_reverse]; [done|].
  destruct (lt (key x) (key y)); [|done].
  rewrite IH. apply Permutation_swap.
Qed.

Lemma sorted_reverse_perm l : sorted_reverse key lt l ≡ₚ l.
Proof.
  induction l as [|x l IH]; [done|].
  cbn [sorted_reverse foldr]. fold (sorted_reverse key lt l).
  by rewrite insert_reverse_perm, IH.
Qed.

Lemma insert_reverse_sorted x l :
  StronglySorted (Spec.not_below key lt) l → StronglySorted (Spec.not_below key lt) (insert_reverse key lt x l).
Proof.
  induction 1 as [|y l Hsorted IH Hall]; cbn [insert_reverse].
  - repeat constructor.
  - destruct (lt (key x) (key y)) eqn:Hxy.
    + constructor; [done|].
      rewrite insert_reverse_perm. constructor; [|done].
      by apply lt_asym.
    + constructor; [by constructor|].
      constructor; [done|].
      eapply Forall_impl; [exact Hall|].
      intros z Hz. by eapply lt_neg_trans.
Qed.

Lemma sorted_reverse_sorted l : StronglySorted (Spec.not_below key lt) (sorted_reverse key lt l).
Proof.
  induction l as [|x l IH]; [constructor|].
  cbn [sorted_reverse foldr]. by apply insert_reverse_sorted.
Qed.

(** Elements of equal key keep their order. *)
Lemma insert_reverse_filter k x l :
  filter (λ y, key y = k) (insert_reverse key lt x l)
  = filter (λ y, key y = k) (x :: l).
Proof.
  induction l as [|y l IH]; cbn [insert_reverse]; [done|].
  destruct (lt (key x) (key y)) eqn:Hxy; [|done].
  rewrite (filter_cons _ y), IH, !(filter_cons _ x), !(filter_cons _ y).
  destruct (decide (key y = k)) as [Hy|]; [|done].
  destruct (decide (key x = k)) as [Hx|]; [|done].
  rewrite Hx, Hy, lt_irrefl in Hxy. done.
Qed.

Lemma sorted_reverse_stable k l :
  filter (λ y, key y = k) (sorted_reverse key lt l) = filter (λ y, key y = k) l.
Proof.
  induction l as [|x l IH]; [done|].
  cbn [sorted_reverse foldr]. fold (sorted_reverse key lt l).
  by rewrite insert_reverse_filter, !(filter_cons _ x), IH.
Qed.

End SortedFacts.

Lemma slice_to_take {A} (l : list A) (k : Z) :
  0 ≤ k → slice_to l k = take (Z.to_nat k) l.
Proof. intros Hk. unfold slice_to. by destruct (Z.ltb_spec k 0); [lia|]. Qed.

(** ** semantic_search.py: scoring *)

Lemma sim_lt_irrefl a : sim_lt a a = false.
Proof. destruct a; cbn; [done|]. apply Z.ltb_irrefl. Qed.

Lemma sim_lt_asym a b : sim_lt a b = true → sim_lt b a = false.
Proof. destruct a, b; cbn; try done. intros ?%Z.ltb_lt. apply Z.ltb_ge. lia. Qed.

Lemma sim_lt_neg_trans a b c :
  sim_lt a b = false → sim_lt b c = false → sim_lt a c = false.
Proof.
  destruct a, b, c; cbn; try done.
  intros ?%Z.ltb_ge ?%Z.ltb_ge. apply Z.ltb_ge. lia.
Qed.

(** Neither is greater: the two similarities are equal. *)
Lemma sim_lt_total a b : sim_lt a b = false → sim_lt b a = false → a = b.
Proof.
  destruct a, b; cbn; try done.
  intros ?%Z.ltb_ge ?%Z.ltb_ge. f_equal. lia.
Qed.

Section Scoring.

Implicit Types (similarities : list Z) (item : string * gmap string Z).

(** What one turn of the loop appends. *)
Lemma score_document_inv similarities item c :
  score_document similarities item = inr c →
  ∃ abstract_sim conclusions_sim,
    section_sim similarities item.2 "abstract" = inr abstract_sim ∧
    section_sim similarities item.2 "conclusions" = inr conclusions_sim ∧
    c = if sim_gt abstract_sim conclusions_sim
        then mkCandidate item.1 "abstract" abstract_sim
        else mkCandidate item.1 "conclusions" conclusions_sim.
Proof.
  destruct item as [doc_id mappings]. unfold score_document. cbn [fst snd].
  unfold mbind, result_bind.
  destruct (section_sim similarities mappings "abstract") as [e|a]; [done|].
  destruct (section_sim similarities mappings "conclusions") as [e|b]; [done|].
  intros Hc. exists a, b. repeat split.
  destruct (sim_gt a b); by injection Hc.
Qed.

Lemma score_documents_inv similarities items results :
  score_documents similarities items = inr results →
  Forall2 (λ item c, score_document similarities item = inr c) items results.
Proof.
  revert results. induction items as [|item items IH]; intros results; cbn [score_documents].
  - intros [= <-]. constructor.
  - unfold mbind, result_bind.
    destruct (score_document similarities item) as [e|c] eqn:Hc; [done|].
    destruct (score_documents similarities items) as [e|rest]; [done|].
    intros [= <-]. constructor; [done|]. by apply IH.
Qed.

Lemma getitem_in_range {A} (l : list A) (i : Z) :
  - Z.of_nat (length l) ≤ i < Z.of_nat (length l) → ∃ x, getitem l i = inr x.
Proof.
  intros Hi. unfold getitem. cbn zeta.
  set (j := if i <? 0 then i + Z.of_nat (length l) else i).
  assert (0 ≤ j < Z.of_nat (length l)) as Hj.
  { subst j. destruct (Z.ltb_spec i 0); lia. }
  destruct (Z.ltb_spec j 0); [lia|].
  destruct (Z.leb_spec (Z.of_nat (length l)) j); [lia|]. cbn [orb].
  destruct (lookup_lt_is_Some_2 l (Z.to_nat j)) as [x Hx]; [lia|].
  rewrite Hx. by exists x.
Qed.

Lemma section_sim_total similarities (mappings : gmap string Z) section :
  (∀ row, mappings !! section = Some row → Spec.row_in_range similarities row) →
  ∃ s, section_sim similarities mappings section = inr s.
Proof.
  intros Hrange. unfold section_sim.
  destruct (mappings !! section) as [row|]; [|by exists NegInf].
  destruct (getitem_in_range similarities row) as [z Hz]; [by apply Hrange|].
  rewrite Hz. by exists (Fin z).
Qed.

Lemma score_documents_total similarities items :
  (∀ item section row,
     item ∈ items → item.2 !! section = Some row → Spec.row_in_range similarities row) →
  ∃ results, score_documents similarities items = inr results.
Proof.
  induction items as [|[doc_id mappings] items IH]; intros Hrange.
  - by exists [].
  - destruct IH as [rest Hrest].
    { intros item section row Hin. apply Hrange. by right. }
    destruct (section_sim_total similarities mappings "abstract") as [a Ha].
    { intros row. apply (Hrange (doc_id, mappings)). by left. }
    destruct (section_sim_total similarities mappings "conclusions") as [b Hb].
    { intros row. apply (Hrange (doc_id, mappings)). by left. }
    cbn [score_documents]. unfold score_document, mbind, result_bind.
    rewrite Ha, Hb. destruct (sim_gt a b); cbn; rewrite Hrest; eauto.
Qed.

End Scoring.

(** C5: the scoring loop appends exactly one entry per document of the index
    mapping, in the order of the mapping, and it does so whenever the rows the
    mapping names exist.  The score of the entry is the greater of the
    similarity of the abstract row and that of the conclusions row, a missing
    section counting as minus infinity, and the entry is tagged with the
    section whose similarity is greater; in particular so when both sections
    are embedded. *)
Theorem scoring_keeps_best_section :
  ∀ similarities items,
    ((∀ item section row,
        item ∈ items → item.2 !! section = Some row →
        Spec.row_in_range similarities row) →
     ∃ results, score_documents similarities items = inr results) ∧
    (∀ results,
       score_documents similarities items = inr results →
       Forall2 (λ item c,
         c_id c = item.1 ∧
         ∃ abstract_sim conclusions_sim,
           section_sim similarities item.2 "abstract" = inr abstract_sim ∧
           section_sim similarities item.2 "conclusions" = inr conclusions_sim ∧
           c_score c = Spec.sim_max abstract_sim conclusions_sim ∧
           (sim_gt abstract_sim conclusions_sim = true → c_section c = "abstract") ∧
           (sim_gt conclusions_sim abstract_sim = true → c_section c = "conclusions") ∧
           (∀ i j x y,
              item.2 !! "abstract" = Some i → item.2 !! "conclusions" = Some j →
              getitem similarities i = inr x → getitem similarities j = inr y →
              (y < x → c = mkCandidate item.1 "abstract" (Fin x)) ∧
              (x < y → c = mkCandidate item.1 "conclusions" (Fin y))))
         items results).
Proof.
  intros similarities items. split; [apply score_documents_total|].
  intros results Hres. apply score_documents_inv in Hres.
  eapply Forall2_impl; [exact Hres|]. clear.
  intros item c (a & b & Ha & Hb & ->)%score_document_inv.
  unfold Spec.sim_max, sim_gt.
  split; [by destruct (sim_lt b a)|].
  exists a, b. split; [done|]. split; [done|].
  split; [|split; [|split]].
  - destruct (sim_lt b a) eqn:Hba; cbn [c_score].
    + by rewrite (sim_lt_asym _ _ Hba).
    + destruct (sim_lt a b) eqn:Hab; [done|]. by apply sim_lt_total.
  - by intros ->.
  - intros Hab. by rewrite (sim_lt_asym _ _ Hab).
  - intros i j x y Hi Hj Hx Hy. unfold section_sim in Ha, Hb.
    rewrite Hi in Ha. rewrite Hj in Hb. rewrite Hx in Ha. rewrite Hy in Hb.
    injection Ha as <-. injection Hb as <-. cbn [sim_lt]. split; intros Hlt.
    + by destruct (Z.ltb_spec y x); [|lia].
    + by destruct (Z.ltb_spec y x); [lia|].
Qed.

Lemma scoring_keeps_best_section_witness :
  (∃ results,
     score_documents [3; 5; 5; -1] (index_mapping (Fixtures.corpus false None))
     = inr results) ∧
  Forall2 (λ item c,
    c_id c = item.1 ∧
    ∃ abstract_sim conclusions_sim,
      section_sim [3; 5; 5; -1] item.2 "abstract" = inr abstract_sim ∧
      section_sim [3; 5; 5; -1] item.2 "conclusions" = inr conclusions_sim ∧
      c_score c = Spec.sim_max abstract_sim conclusions_sim ∧
      (sim_gt abstract_sim conclusions_sim = true → c_section c = "abstract") ∧
      (sim_gt conclusions_sim abstract_sim = true → c_section c = "conclusions") ∧
      (∀ i j x y,
         item.2 !! "abstract" = Some i → item.2 !! "conclusions" = Some j →
         getitem [3; 5; 5; -1] i = inr x → getitem [3; 5; 5; -1] j = inr y →
         (y < x → c = mkCandidate item.1 "abstract" (Fin x)) ∧
         (x < y → c = mkCandidate item.1 "conclusions" (Fin y))))
    (index_mapping (Fixtures.corpus false None))
    [ mkCandidate "b" "abstract" (Fin 5);
      mkCandidate "a" "abstract" (Fin 5);
      mkCandidate "c" "conclusions" (Fin (-1));
      mkCandidate "d" "conclusions" (Fin 5);
      mkCandidate "e" "conclusions" NegInf ].
Proof.
  split.
  - apply (proj1 (scoring_keeps_best_section [3; 5; 5; -1]
                    (index_mapping (Fixtures.corpus false None)))).
    intros item section row Hin Hrow. unfold Spec.row_in_range. cbn [length].
    cbn [Fixtures.corpus index_mapping] in Hin.
    repeat (apply elem_of_cons in Hin as [->|Hin];
            [ cbn [snd] in Hrow;
              repeat (apply lookup_insert_Some in Hrow as [[_ <-]|[_ Hrow]]; [lia|]);
              try (apply lookup_singleton_Some in Hrow as [_ <-]; lia);
              try (rewrite lookup_empty in Hrow; discriminate) |]).
    by apply elem_of_nil in Hin.
  - apply (proj2 (scoring_keeps_best_section [3; 5; 5; -1]
                    (index_mapping (Fixtures.corpus false None)))).
    vm_compute. reflexivity.
Defined.

(** C9: when the abstract row and the conclusions row of a document have
    equal similarities, its entry is tagged "conclusions"; this covers the
    document with neither section embedded, whose entry is "conclusions" with
    score minus infinity.  The test on the abstract side is a strict
    greater-than. *)
Theorem section_tie_goes_to_conclusions :
  ∀ similarities items results,
    score_documents similarities items = inr results →
    Forall2 (λ item c,
      (∀ s,
         section_sim similarities item.2 "abstract" = inr s →
         section_sim similarities item.2 "conclusions" = inr s →
         c = mkCandidate item.1 "conclusions" s) ∧
      (item.2 !! "abstract" = None → item.2 !! "conclusions" = None →
       c = mkCandidate item.1 "conclusions" NegInf))
      items results.
Proof.
  intros similarities items results Hres. apply score_documents_inv in Hres.
  eapply Forall2_impl; [exact Hres|]. clear.
  intros item c (a & b & Ha & Hb & ->)%score_document_inv.
  assert (∀ s, section_sim similarities item.2 "abstract" = inr s →
               section_sim similarities item.2 "conclusions" = inr s →
               (if sim_gt a b then mkCandidate item.1 "abstract" a
                else mkCandidate item.1 "conclusions" b)
               = mkCandidate item.1 "conclusions" s) as Htie.
  { intros s Hs Hs'. rewrite Ha in Hs. rewrite Hb in Hs'.
    injection Hs as ->. injection Hs' as ->.
    unfold sim_gt. by rewrite sim_lt_irrefl. }
  split; [exact Htie|].
  intros Hna Hnc. apply Htie; unfold section_sim; by rewrite ?Hna, ?Hnc.
Qed.

Lemma section_tie_goes_to_conclusions_witness :
  Forall2 (λ item c,
    (∀ s,
       section_sim [3; 5; 5; -1] item.2 "abstract" = inr s →
       section_sim [3; 5; 5; -1] item.2 "conclusions" = inr s →
       c = mkCandidate item.1 "conclusions" s) ∧
    (item.2 !! "abstract" = None → item.2 !! "conclusions" = None →
     c = mkCandidate item.1 "conclusions" NegInf))
    (index_mapping (Fixtures.corpus false None))
    [ mkCandidate "b" "abstract" (Fin 5);
      mkCandidate "a" "abstract" (Fin 5);
      mkCandidate "c" "conclusions" (Fin (-1));
      mkCandidate "d" "conclusions" (Fin 5);
      mkCandidate "e" "conclusions" NegInf ].
Proof.
  apply (section_tie_goes_to_conclusions [3; 5; 5; -1]).
  vm_compute. reflexivity.
Defined.

(** ** semantic_search.py: ranking *)

Section Ranking.

Context {Vec Mat Date : Type}.
Variable np_dot : Mat → Vec → result (list Z).
Variable parse_date : option string → result Date.

Implicit Types (self : EmbeddingRetrievalSystem Vec Mat) (date : Date)
  (embedding : Vec).

Lemma rank_and_filter_inv self query embedding date top_k return_scores time_result r :
  rank_and_filter np_dot self query embedding date top_k return_scores time_result = inr r →
  ∃ similarities results,
    np_dot (embeddings self) embedding = inr similarities ∧
    score_documents similarities (index_mapping self) = inr results ∧
    r = if return_scores
        then Scores (dict_comp ((λ doc, (c_id doc, c_score doc))
                                  <$> top_results results top_k))
        else Ids (c_id <$> top_results results top_k).
Proof.
  unfold rank_and_filter, mbind, result_bind, mret, result_ret.
  destruct (np_dot (embeddings self) embedding) as [e|similarities]; [done|].
  destruct (if weight_keywords self then _ else _) as [e|matches]; [discriminate|].
  destruct (score_documents similarities (index_mapping self)) as [e|results] eqn:Hres;
    [done|].
  intros Hr. exists similarities, results. split; [done|]. split; [done|].
  destruct return_scores; by injection Hr.
Qed.

(** The date and the temporal intent are not read. *)
Lemma rank_and_filter_ignores self query embedding date (date' : Date) top_k return_scores
    time_result time_result' :
  rank_and_filter np_dot self query embedding date top_k return_scores time_result
  = rank_and_filter np_dot self query embedding date' top_k return_scores time_result'.
Proof. reflexivity. Qed.

(** What [retrieve] returns, [rank_and_filter] returned. *)
Lemma retrieve_inv self query arxiv_id top_k return_scores time_result w r w' :
  retrieve np_dot parse_date self query arxiv_id top_k return_scores time_result w
    = (inr r, w') →
  ∃ date embedding w1 intent,
    parse_date arxiv_id = inr date ∧
    get_query_embedding self query w = (inr embedding, w1) ∧
    rank_and_filter np_dot self query embedding date top_k return_scores intent = inr r.
Proof.
  unfold retrieve. unfold mbind at 1 2. unfold eff_bind, lift.
  destruct (parse_date arxiv_id) as [e|date]; [done|].
  destruct (get_query_embedding self query w) as [[e|embedding] w1]; [done|].
  unfold mbind, eff_bind.
  match goal with
  | |- context [match ?m w1 with _ => _ end] =>
      destruct (m w1) as [[e|intent] w2]; [discriminate|]
  end.
  intros [= Hr _]. by exists date, embedding, w1, (Some intent).
Qed.

Lemma top_results_ranked results top_k :
  0 ≤ top_k →
  ∃ ranked,
    ranked ≡ₚ results ∧
    StronglySorted (Spec.not_below c_score sim_lt) ranked ∧
    (∀ s, filter (λ c, c_score c = s) ranked = filter (λ c, c_score c = s) results) ∧
    top_results results top_k = take (Z.to_nat top_k) ranked ∧
    Z.of_nat (length (top_results results top_k)) ≤ top_k.
Proof.
  intros Hk. exists (sorted_reverse c_score sim_lt results).
  split; [apply sorted_reverse_perm|].
  split; [apply sorted_reverse_sorted; [apply sim_lt_asym | apply sim_lt_neg_trans]|].
  split; [intros s; apply sorted_reverse_stable, sim_lt_irrefl|].
  unfold top_results. rewrite slice_to_take by done. split; [done|].
  rewrite length_take. lia.
Qed.

End Ranking.

(** C3, as amended: for every k >= 0 the ids that [rank_and_filter], and so
    [retrieve], returns are at most k, and they are the first k entries of the
    stable descending ranking of the scored documents: scores never increase
    along the list, and documents of equal score keep the order they have in
    the index mapping.  The document id plays no part in the order. *)
Theorem rank_and_filter_stable_ranking :
  ∀ (Vec Mat Date : Type) (np_dot : Mat → Vec → result (list Z))
    (parse_date : option string → result Date)
    (self : EmbeddingRetrievalSystem Vec Mat) (query : string) (top_k : Z),
    0 ≤ top_k →
    (∀ (embedding : Vec) (date : Date) time_result ids,
       rank_and_filter np_dot self query embedding date top_k false time_result
         = inr (Ids ids) →
       ∃ similarities results ranked,
         np_dot (embeddings self) embedding = inr similarities ∧
         score_documents similarities (index_mapping self) = inr results ∧
         Spec.stable_ranking results ranked ∧
         ids = c_id <$> take (Z.to_nat top_k) ranked ∧
         Z.of_nat (length ids) ≤ top_k) ∧
    (∀ arxiv_id time_result w ids w',
       retrieve np_dot parse_date self query arxiv_id top_k false time_result w
         = (inr (Ids ids), w') →
       ∃ (embedding : Vec) similarities results ranked,
         np_dot (embeddings self) embedding = inr similarities ∧
         score_documents similarities (index_mapping self) = inr results ∧
         Spec.stable_ranking results ranked ∧
         ids = c_id <$> take (Z.to_nat top_k) ranked ∧
         Z.of_nat (length ids) ≤ top_k).
Proof.
  intros Vec Mat Date np_dot parse_date self query top_k Hk.
  assert (∀ (embedding : Vec) (date : Date) time_result ids,
    rank_and_filter np_dot self query embedding date top_k false time_result
      = inr (Ids ids) →
    ∃ similarities results ranked,
      np_dot (embeddings self) embedding = inr similarities ∧
      score_documents similarities (index_mapping self) = inr results ∧
      Spec.stable_ranking results ranked ∧
      ids = c_id <$> take (Z.to_nat top_k) ranked ∧
      Z.of_nat (length ids) ≤ top_k) as Hrank.
  { intros embedding date time_result ids Hr.
    apply rank_and_filter_inv in Hr as (similarities & results & Hdot & Hres & [= ->]).
    destruct (top_results_ranked results top_k Hk)
      as (ranked & Hperm & Hsorted & Hstable & Htop & Hlen).
    exists similarities, results, ranked.
    split; [done|]. split; [done|]. split; [done|].
    rewrite length_fmap, Htop. split; [done|]. by rewrite <- Htop. }
  split; [exact Hrank|].
  intros arxiv_id time_result w ids w' Hr.
  apply retrieve_inv in Hr as (date & embedding & w1 & intent & _ & _ & Hr).
  exists embedding. by eapply Hrank.
Qed.

Lemma rank_and_filter_stable_ranking_witness :
  (∃ similarities results ranked,
     Fixtures.dot (embeddings (Fixtures.corpus false None)) [1; 0] = inr similarities ∧
     score_documents similarities (index_mapping (Fixtures.corpus false None))
       = inr results ∧
     Spec.stable_ranking results ranked ∧
     ["b"; "a"] = c_id <$> take (Z.to_nat 2) ranked ∧
     Z.of_nat (length ["b"; "a"]) ≤ 2) ∧
  (∃ (embedding : Fixtures.Vec) similarities results ranked,
     Fixtures.dot (embeddings (Fixtures.corpus false None)) embedding = inr similarities ∧
     score_documents similarities (index_mapping (Fixtures.corpus false None))
       = inr results ∧
     Spec.stable_ranking results ranked ∧
     ["b"; "a"] = c_id <$> take (Z.to_nat 2) ranked ∧
     Z.of_nat (length ["b"; "a"]) ≤ 2).
Proof.
  split.
  - apply (proj1 (rank_and_filter_stable_ranking _ _ _ Fixtures.dot Fixtures.parse_date
                    (Fixtures.corpus false None) Fixtures.stellar_mass_query 2
                    ltac:(lia)) [1; 0] None None).
    vm_compute. reflexivity.
  - apply (proj2 (rank_and_filter_stable_ranking _ _ _ Fixtures.dot Fixtures.parse_date
                    (Fixtures.corpus false None) Fixtures.stellar_mass_query 2
                    ltac:(lia)) (Some "2301.00001") None Fixtures.world0 ["b"; "a"]
             (mkWorld [EvEmbed Fixtures.stellar_mass_query] 0 (clock Fixtures.world0)
               (interpreter Fixtures.world0))).
    vm_compute. reflexivity.
Defined.

(** C3 as stated fails: "b" and "a" have the same score and "b", which comes
    first in the index mapping, is ranked first although its id is the
    greater one. *)
Lemma rank_and_filter_keeps_mapping_order :
  rank_and_filter Fixtures.dot (Fixtures.corpus false None) Fixtures.stellar_mass_query
      [1; 0] (None : option string) 10 false None
    = inr (Ids ["b"; "a"; "d"; "c"; "e"]) ∧
  score_documents [3; 5; 5; -1] (index_mapping (Fixtures.corpus false None))
    = inr [ mkCandidate "b" "abstract" (Fin 5);
            mkCandidate "a" "abstract" (Fin 5);
            mkCandidate "c" "conclusions" (Fin (-1));
            mkCandidate "d" "conclusions" (Fin 5);
            mkCandidate "e" "conclusions" NegInf ] ∧
  ¬ Spec.precedes (mkCandidate "b" "abstract" (Fin 5)) (mkCandidate "a" "abstract" (Fin 5)).
Proof.
  split; [vm_compute; reflexivity|]. split; [vm_compute; reflexivity|].
  intros [Hgt|[_ Hid]]; vm_compute in *; discriminate.
Qed.

(** C10: the date-cutoff argument has no influence on what [retrieve]
    returns.  From one state of the world, two calls that differ only in that
    argument have the same outcome, provided [parse_date] accepts both
    arguments; and two calls in any two states of the world that obtain the
    same query embedding and both return, return the same value: the same
    ids, or the same scores, in the same order. *)
Theorem retrieve_ignores_date_cutoff :
  ∀ (Vec Mat Date : Type) (np_dot : Mat → Vec → result (list Z))
    (parse_date : option string → result Date)
    (self : EmbeddingRetrievalSystem Vec Mat) (query : string) (top_k : Z)
    (return_scores : bool) (time_result : option TimeResult)
    (arxiv_id1 arxiv_id2 : option string),
    (∀ date1 date2 w,
       parse_date arxiv_id1 = inr date1 → parse_date arxiv_id2 = inr date2 →
       retrieve np_dot parse_date self query arxiv_id1 top_k return_scores time_result w
       = retrieve np_dot parse_date self query arxiv_id2 top_k return_scores time_result w) ∧
    (∀ w1 w2 (embedding : Vec) wa wb r1 r2 w1' w2',
       get_query_embedding self query w1 = (inr embedding, wa) →
       get_query_embedding self query w2 = (inr embedding, wb) →
       retrieve np_dot parse_date self query arxiv_id1 top_k return_scores time_result w1
         = (inr r1, w1') →
       retrieve np_dot parse_date self query arxiv_id2 top_k return_scores time_result w2
         = (inr r2, w2') →
       r1 = r2).
Proof.
  intros. split.
  - intros date1 date2 w Hd1 Hd2. unfold retrieve.
    unfold mbind at 1 3. unfold eff_bind, lift. by rewrite Hd1, Hd2.
  - intros w1 w2 embedding wa wb r1 r2 w1' w2' He1 He2 Hr1 Hr2.
    apply retrieve_inv in Hr1 as (d1 & e1 & wa' & i1 & _ & He1' & Hr1).
    apply retrieve_inv in Hr2 as (d2 & e2 & wb' & i2 & _ & He2' & Hr2).
    rewrite He1 in He1'. rewrite He2 in He2'.
    injection He1' as <- _. injection He2' as <- _.
    rewrite (rank_and_filter_ignores np_dot self query embedding d1 d2 top_k
               return_scores i1 i2) in Hr1.
    congruence.
Qed.

Lemma retrieve_ignores_date_cutoff_witness :
  retrieve Fixtures.dot Fixtures.parse_date (Fixtures.corpus false None)
      Fixtures.stellar_mass_query (Some "2301.00001") 3 false None Fixtures.world0
  = retrieve Fixtures.dot Fixtures.parse_date (Fixtures.corpus false None)
      Fixtures.stellar_mass_query (Some "9901.00001") 3 false None Fixtures.world0 ∧
  Ids ["b"; "a"; "d"] = Ids ["b"; "a"; "d"].
Proof.
  split.
  - apply (proj1 (retrieve_ignores_date_cutoff _ _ _ Fixtures.dot Fixtures.parse_date
                    (Fixtures.corpus false None) Fixtures.stellar_mass_query 3 false None
                    (Some "2301.00001") (Some "9901.00001"))
             (Some "2301.00001") (Some "9901.00001")); reflexivity.
  - apply (proj2 (retrieve_ignores_date_cutoff _ _ _ Fixtures.dot Fixtures.parse_date
                    (Fixtures.corpus false None) Fixtures.stellar_mass_query 3 false None
                    (Some "2301.00001") None)
             Fixtures.world0
             (mkWorld [EvEmbed "earlier"] 4 (clock Fixtures.world0) (interpreter Fixtures.world0))
             [1; 0]
             (mkWorld [EvEmbed Fixtures.stellar_mass_query] 0 (clock Fixtures.world0)
               (interpreter Fixtures.world0))
             (mkWorld [EvEmbed Fixtures.stellar_mass_query; EvEmbed "earlier"] 4
                (clock Fixtures.world0) (interpreter Fixtures.world0))
             (Ids ["b"; "a"; "d"]) (Ids ["b"; "a"; "d"])
             (mkWorld [EvEmbed Fixtures.stellar_mass_query] 0 (clock Fixtures.world0)
               (interpreter Fixtures.world0))
             (mkWorld [EvEmbed Fixtures.stellar_mass_query; EvEmbed "earlier"] 4
                (clock Fixtures.world0) (interpreter Fixtures.world0)));
      vm_compute; reflexivity.
Defined.

(** ** sciencetree.py *)

Import ScienceTree.

Example tree_three_entries :
  match (Fixtures.tree Fixtures.goal 2 (Fixtures.scripted [Fixtures.three_entries])
           Fixtures.world0).1 with
  | inr node => text <$> children node = ["first objective"; "second objective"; "third objective"]
                ∧ docs node = ["b"; "a"; "d"; "c"]
  | inl _ => False
  end.
Proof. vm_compute. split; reflexivity. Qed.

(** C6: the construction of a node at mode 3 leaves the world as it is, so it
    calls neither the retriever nor the generation client, whatever the
    branching factor; the node it returns has no children and no retrieved
    documents.  The construction can only fail while reading the key of the
    configuration file, when no client was passed. *)
Theorem leaf_has_no_children :
  ∀ (R : Type) (H : Retriever R) (retriever : R)
    (config_file : string → option (result string)) (Anthropic : string → GenerationClient)
    text year n temperature background experiment generation_model api_key
    generation_client config_path w,
    ∃ outcome,
      init retriever config_file Anthropic text year n temperature background experiment
        3 generation_model api_key generation_client config_path w = (outcome, w) ∧
      match outcome with
      | inr node => children node = [] ∧ docs node = [] ∧ mode node = 3
                    ∧ ScienceTree.n node = n
      | inl e => generation_client = None ∧ config_file config_path = Some (inl e)
      end.
Proof.
  intros R H retriever config_file Anthropic text year n temperature background
    experiment generation_model api_key generation_client config_path w.
  unfold init. change (Z.to_nat (3 - 3)) with 0%nat.
  cbn [init_fuel]. unfold mbind, eff_bind, lift, resolve_client.
  destruct generation_client as [c|].
  - eexists. split; [reflexivity|]. done.
  - destruct (config_file config_path) as [[e|key]|].
    + eexists. split; [reflexivity|]. done.
    + eexists. split; [reflexivity|]. done.
    + destruct api_key; eexists; (split; [reflexivity|]); done.
Qed.

(** C4 fails on the code.  A response line with a closing brace and no
    opening one is not skipped: it passes the test of line 94, and line 95
    raises IndexError, which ends the construction of the whole tree.  A line
    whose closing brace stands before its opening one is accepted as a child
    although it has no complete delimited segment. *)
Theorem stray_brace_is_a_hard_failure :
  (Fixtures.tree Fixtures.goal 2 (Fixtures.scripted [Fixtures.stray_close])
     Fixtures.world0).1 = inl IndexError ∧
  Spec.well_formed_entry "second objective}" = false ∧
  accepted "second objective}" = true ∧
  child_text "second objective}" = inl IndexError ∧
  Spec.well_formed_entry Fixtures.close_before_open = false ∧
  accepted Fixtures.close_before_open = true ∧
  child_text Fixtures.close_before_open = inr "".
Proof. repeat split; vm_compute; reflexivity. Qed.

(** C2 as stated fails: the number of children is not bounded by the
    branching factor.  With n = 2 and a response of three well-formed
    entries the node gets three children. *)
Lemma children_can_exceed_branching_factor :
  match (Fixtures.tree Fixtures.goal 2 (Fixtures.scripted [Fixtures.three_entries])
           Fixtures.world0).1 with
  | inr node => ScienceTree.n node = 2 ∧ length (children node) = 3%nat
  | inl _ => False
  end.
Proof. vm_compute. split; reflexivity. Qed.

(** *** The lines of a response *)

Lemma getitem_second {A} (x y : A) (l : list A) : getitem (x :: y :: l) 1 = inr y.
Proof.
  unfold getitem. cbn [length].
  destruct (Z.ltb_spec 1 0); [lia|].
  destruct (Z.ltb_spec 1 0); [lia|].
  destruct (Z.leb_spec (Z.of_nat (S (S (length l)))) 1); [lia|]. done.
Qed.

Lemma accepted_contains line : accepted line = contains "}" line.
Proof. reflexivity. Qed.

Lemma after_first_spec c s rest :
  Spec.after_first c s = Some rest →
  ∃ before, s = before +:+ String c rest ∧ contains (String c "") before = false.
Proof.
  induction s as [|a s IH]; cbn [Spec.after_first]; [done|].
  destruct (Ascii.eqb_spec a c) as [->|Hne].
  - intros [= ->]. by exists "".
  - intros (before & -> & Hb)%IH. exists (String a before). split; [done|].
    cbn [contains startswith]. rewrite Hb.
    destruct (Ascii.eqb_spec c a); [congruence|done].
Qed.

Lemma well_formed_entry_inv line :
  Spec.well_formed_entry line = true →
  ∃ before rest,
    line = before +:+ String "{" rest ∧
    contains "{" before = false ∧ contains "}" rest = true.
Proof.
  unfold Spec.well_formed_entry.
  destruct (Spec.after_first "{" line) as [rest|] eqn:Hrest; [|done].
  apply after_first_spec in Hrest as (before & -> & Hb). intros Hc.
  by exists before, rest.
Qed.

Lemma well_formed_entry_accepted line :
  Spec.well_formed_entry line = true → accepted line = true.
Proof.
  intros (before & rest & -> & _ & Hc)%well_formed_entry_inv.
  rewrite accepted_contains.
  change (String "{" rest) with ("{" +:+ rest).
  rewrite <- app_assoc. by apply contains_suffix.
Qed.

(** Line 95 succeeds on a well-formed entry. *)
Lemma child_text_well_formed line :
  Spec.well_formed_entry line = true → ∃ child, child_text line = inr child.
Proof.
  intros (before & rest & -> & Hb & _)%well_formed_entry_inv.
  unfold child_text. cbn [split]. unfold mbind, mret, result_bind, result_ret.
  rewrite split_go_char_head by done.
  destruct (split_go "{" 0 rest) as [|inner pieces] eqn:Hp.
  { by apply split_go_nonempty in Hp. }
  rewrite getitem_second. eauto.
Qed.

(** Every line with a closing brace and no opening one passes the test of
    line 94 and makes line 95 raise. *)
Lemma closing_brace_alone_raises line :
  contains "}" line = true → contains "{" line = false →
  accepted line = true ∧ child_text line = inl IndexError.
Proof.
  intros Hclose Hopen. split; [by rewrite accepted_contains|].
  unfold child_text. cbn [split]. unfold mbind, mret, result_bind, result_ret.
  by rewrite split_go_absent.
Qed.

(** The loop of lines 92-97, on lines without a stray closing brace: one
    child for every well-formed entry. *)
Lemma children_of_lines_count (make_child : string → Eff scienceTreeNode) (m : Z) lines :
  (∀ child w, ∃ node w', make_child child w = (inr node, w') ∧ mode node = m) →
  (∀ line, line ∈ lines → contains "}" line = true → Spec.well_formed_entry line = true) →
  ∀ w, ∃ nodes w',
    children_of_lines make_child lines w = (inr nodes, w') ∧
    length nodes = length (List.filter Spec.well_formed_entry lines) ∧
    Forall (λ c, mode c = m) nodes.
Proof.
  intros Hmake. induction lines as [|line lines IH]; intros Hclean w.
  - exists [], w. by repeat split.
  - cbn [children_of_lines List.filter].
    assert (∀ l, l ∈ lines → contains "}" l = true → Spec.well_formed_entry l = true)
      as Hrest by (intros l Hl; apply Hclean; by right).
    destruct (accepted line) eqn:Hacc.
    + rewrite accepted_contains in Hacc.
      assert (Spec.well_formed_entry line = true) as Hwf by (apply Hclean; [by left|done]).
      rewrite Hwf. destruct (child_text_well_formed line Hwf) as [child Hchild].
      unfold mbind, eff_bind, lift. rewrite Hchild.
      destruct (Hmake child w) as (node & w1 & -> & Hmode).
      destruct (IH Hrest w1) as (nodes & w2 & -> & Hlen & Hall).
      exists (node :: nodes), w2. cbn [length]. rewrite Hlen.
      split; [done|]. split; [done|]. by constructor.
    + destruct (Spec.well_formed_entry line) eqn:Hwf.
      { apply well_formed_entry_accepted in Hwf. congruence. }
      by apply IH.
Qed.

(** *** The bound on the nesting of constructions *)

Section FuelFacts.

Context {R : Type} `{!Retriever R}.
Variable retriever : R.
Variable config_file : string → option (result string).
Variable Anthropic : string → GenerationClient.

Lemma children_of_lines_ext (make1 make2 : string → Eff scienceTreeNode) lines :
  (∀ child w, make1 child w = make2 child w) →
  ∀ w, children_of_lines make1 lines w = children_of_lines make2 lines w.
Proof.
  intros Hext. induction lines as [|line lines IH]; intros w; [done|].
  cbn [children_of_lines]. destruct (accepted line); [|apply IH].
  unfold mbind, eff_bind. destruct (lift (child_text line) w) as [[e|child] w1]; [done|].
  rewrite Hext. destruct (make2 child w1) as [[e|node] w2]; [done|].
  by rewrite IH.
Qed.

Lemma generate_ext (make1 make2 : string → Eff scienceTreeNode) text year mode
    generation_model background generation_client self_temperature temperature n :
  (∀ child w, make1 child w = make2 child w) →
  ∀ w, generate retriever make1 text year mode generation_model background
         generation_client self_temperature temperature n w
     = generate retriever make2 text year mode generation_model background
         generation_client self_temperature temperature n w.
Proof.
  intros Hext w. unfold generate, mbind, eff_bind.
  destruct (gather retriever text year mode w) as [[e|[self_docs input_text]] w1]; [done|].
  destruct generation_client as [c|]; [|done].
  unfold mret at 1 3. unfold eff_ret.
  destruct (lift _ w1) as [[e|req] w3]; [done|].
  destruct (messages_create c req w3) as [[e|message] w4]; [done|].
  destruct (lift (split newline message) w4) as [[e|lines] w5]; [done|].
  by rewrite (children_of_lines_ext make1 make2 lines Hext).
Qed.

(** The construction does not depend on the bound once it covers the modes
    up to 3: the bound is never what ends a construction. *)
Lemma init_fuel_enough fuel1 :
  ∀ fuel2 text year n temperature background experiment mode generation_model api_key
    generation_client config_path w,
    (Z.to_nat (3 - mode) ≤ fuel1)%nat → (Z.to_nat (3 - mode) ≤ fuel2)%nat →
    init_fuel retriever config_file Anthropic fuel1 text year n temperature background
      experiment mode generation_model api_key generation_client config_path w
    = init_fuel retriever config_file Anthropic fuel2 text year n temperature background
        experiment mode generation_model api_key generation_client config_path w.
Proof.
  induction fuel1 as [|fuel1 IH];
    intros fuel2 text year n temperature background experiment mode generation_model
      api_key generation_client config_path w H1 H2.
  - destruct fuel2; cbn [init_fuel]; [done|].
    unfold mbind, eff_bind.
    destruct (lift _ w) as [[e|client] w1]; [done|].
    by destruct (Z.ltb_spec mode 3); [lia|].
  - destruct fuel2 as [|fuel2]; cbn [init_fuel]; unfold mbind at 1 3; unfold eff_bind at 1 3.
    + destruct (lift _ w) as [[e|client] w1]; [done|].
      by destruct (Z.ltb_spec mode 3); [lia|].
    + destruct (lift _ w) as [[e|client] w1]; [done|].
      destruct (Z.ltb_spec mode 3); [|done].
      unfold mbind, eff_bind.
      rewrite (generate_ext
                 (λ child, init_fuel retriever config_file Anthropic fuel1 child year n
                    default_temperature
                    (Some (resolve_background background experiment)) None (mode + 1)
                    default_model None client default_config_path)
                 (λ child, init_fuel retriever config_file Anthropic fuel2 child year n
                    default_temperature
                    (Some (resolve_background background experiment)) None (mode + 1)
                    default_model None client default_config_path)); [done|].
      intros child w0. apply IH; lia.
Qed.

End FuelFacts.

(** *** The expansion of a node *)

Section TreeFacts.

Context {R : Type} `{!Retriever R}.
Variable retriever : R.
Variable config_file : string → option (result string).
Variable Anthropic : string → GenerationClient.
Variable client : GenerationClient.

Hypothesis retrieve_total :
  ∀ query yearstr top_k w, ∃ ids w', retrieve retriever query yearstr top_k w = (inr ids, w').
Hypothesis texts_total :
  ∀ ids w, ∃ texts w', get_document_texts retriever ids w = (inr texts, w').
Hypothesis client_clean :
  ∀ hist req, ∃ message, client hist req = inr message ∧ Spec.no_stray_brace message.

Lemma gather_total text year mode w :
  0 ≤ mode ≤ 3 →
  ∃ self_docs input_text w1,
    gather retriever text year mode w = (inr (self_docs, input_text), w1).
Proof.
  intros Hmode. unfold gather, call_retrieve, call_get_document_texts.
  unfold mbind, eff_bind, mret, eff_ret, lift.
  destruct (retrieve_total text (str (year `div` 100) +:+ "01.0001") 10
              (log (EvRetrieve text) w)) as (ids & w1 & ->).
  destruct (texts_total ids (log (EvTexts ids) w1)) as (texts & w2 & ->).
  destruct (getitem_in_range modes mode) as [label ->]; [cbn; lia|].
  eauto.
Qed.

Lemma request_total generation_model background mode n temperature input_text :
  0 ≤ mode < 3 →
  ∃ req, request generation_model background mode n temperature input_text = inr req.
Proof.
  intros Hmode. unfold request, mbind, result_bind, mret, result_ret.
  destruct (getitem_in_range (systems n) mode) as [instruction ->]; [cbn; lia|].
  eauto.
Qed.

Lemma init_fuel_total fuel :
  ∀ text year n temperature background experiment mode generation_model api_key
    config_path w,
    0 ≤ mode ≤ 3 → (Z.to_nat (3 - mode) ≤ fuel)%nat →
    ∃ node w',
      init_fuel retriever config_file Anthropic fuel text year n temperature background
        experiment mode generation_model api_key (Some client) config_path w
        = (inr node, w') ∧
      ScienceTree.mode node = mode ∧
      (mode < 3 →
       Spec.expanded retriever client text year mode n generation_model
         (resolve_background background experiment) temperature w node).
Proof.
  induction fuel as [|fuel IH];
    intros text year n temperature background experiment mode generation_model api_key
      config_path w Hmode Hfuel.
  - assert (mode = 3) as -> by lia. eexists _, _. cbn. split; [reflexivity|].
    split; [done|lia].
  - cbn [init_fuel]. unfold mbind at 1. unfold eff_bind at 1. cbn [lift resolve_client].
    unfold mret at 1. unfold result_ret.
    destruct (Z.ltb_spec mode 3) as [Hlt|Hge].
    + set (bg := resolve_background background experiment).
      unfold generate.
      destruct (gather_total text year mode w Hmode) as (self_docs & input_text & w1 & Hg).
      set (temp := match temperature with None => temperature | Some t => Some t end).
      assert (temp = temperature) as Htemp by (subst temp; by destruct temperature).
      destruct (request_total generation_model bg mode n temp input_text)
        as [req Hreq]; [lia|].
      destruct (client_clean (calls w1) req) as (message & Hmsg & Hclean).
      destruct (children_of_lines_count
                  (λ child, init_fuel retriever config_file Anthropic fuel child year n
                     default_temperature (Some bg) None (mode + 1) default_model None
                     (Some client) default_config_path)
                  (mode + 1) (split_go newline 0 message))
        with (w := log (EvGenerate req) w1) as (nodes & w2 & Hnodes & Hlen & Hall).
      { intros child w0.
        destruct (IH child year n default_temperature (Some bg) None (mode + 1)
                    default_model None default_config_path w0)
          as (node & w' & Hnode & Hm & _); [lia|lia|].
        by exists node, w'. }
      { exact Hclean. }
      eexists _, w2. split; [|split].
      * unfold mbind, eff_bind, mret, eff_ret, lift, messages_create.
        rewrite Hg. cbn beta iota. rewrite Hreq, Hmsg. cbn [split newline].
        unfold mret, result_ret. cbn beta iota.
        fold newline. rewrite Hnodes. reflexivity.
      * done.
      * intros _. exists self_docs, input_text, w1, req, message.
        rewrite <- Htemp at 1. repeat split; done.
    + assert (mode = 3) as -> by lia. eexists _, _. split; [reflexivity|].
      split; [done|lia].
Qed.

End TreeFacts.

Lemma no_stray_brace_check message :
  forallb (λ line, implb (contains "}" line) (Spec.well_formed_entry line))
    (split_go newline 0 message) = true →
  Spec.no_stray_brace message.
Proof.
  intros Hall line Hline Hc. rewrite forallb_forall in Hall.
  specialize (Hall line (proj1 (list_elem_of_In _ _) Hline)).
  by rewrite Hc in Hall.
Qed.

(** C2, as amended: when the retriever and the client answer and no line of
    a response has a closing brace without forming a complete delimited
    segment, the construction of a node at a mode from 0 to 2 returns a node
    that has exactly one child for every well-formed entry of the response to
    its request, each child at the mode of the node plus one.  The count is
    that of the entries, whatever the branching factor n. *)
Theorem expansion_counts_well_formed_entries :
  ∀ (R : Type) (H : Retriever R) (retriever : R)
    (config_file : string → option (result string)) (Anthropic : string → GenerationClient)
    (client : GenerationClient),
    (∀ query yearstr top_k w,
       ∃ ids w', retrieve retriever query yearstr top_k w = (inr ids, w')) →
    (∀ ids w, ∃ texts w', get_document_texts retriever ids w = (inr texts, w')) →
    (∀ hist req, ∃ message, client hist req = inr message ∧ Spec.no_stray_brace message) →
    ∀ text year n temperature background experiment mode generation_model api_key
      config_path w,
      0 ≤ mode < 3 →
      ∃ node w',
        init retriever config_file Anthropic text year n temperature background experiment
          mode generation_model api_key (Some client) config_path w = (inr node, w') ∧
        ScienceTree.mode node = mode ∧
        Spec.expanded retriever client text year mode n generation_model
          (resolve_background background experiment) temperature w node.
Proof.
  intros R H retriever config_file Anthropic client Hretrieve Htexts Hclient
    text year n temperature background experiment mode generation_model api_key
    config_path w Hmode.
  destruct (init_fuel_total retriever config_file Anthropic client Hretrieve Htexts Hclient
              (Z.to_nat (3 - mode)) text year n temperature background experiment mode
              generation_model api_key config_path w)
    as (node & w' & Hnode & Hm & Hexp); [lia|lia|].
  exists node, w'. split; [exact Hnode|]. split; [done|]. apply Hexp. lia.
Qed.

Lemma corpus_retrieve_total query yearstr top_k w :
  ∃ ids w',
    retrieve (Retriever := App.embedding_retriever Fixtures.dot Fixtures.parse_date)
      (Fixtures.corpus false None) query yearstr top_k w = (inr ids, w').
Proof. eexists _, _. vm_compute. reflexivity. Qed.

Lemma corpus_texts_total ids w :
  ∃ texts w',
    get_document_texts (Retriever := App.embedding_retriever Fixtures.dot Fixtures.parse_date)
      (Fixtures.corpus false None) ids w = (inr texts, w').
Proof. eexists _, _. reflexivity. Qed.

Lemma scripted_three_entries_clean hist req :
  ∃ message,
    Fixtures.scripted [Fixtures.three_entries] hist req = inr message ∧
    Spec.no_stray_brace message.
Proof.
  unfold Fixtures.scripted. destruct (generation_calls hist) as [|[|k]]; cbn [nth].
  - eexists. split; [reflexivity|]. apply no_stray_brace_check. vm_compute. reflexivity.
  - eexists. split; [reflexivity|]. apply no_stray_brace_check. vm_compute. reflexivity.
  - eexists. split; [reflexivity|]. apply no_stray_brace_check. vm_compute. reflexivity.
Qed.

Lemma expansion_counts_well_formed_entries_witness :
  ∃ node w',
    Fixtures.tree Fixtures.goal 2 (Fixtures.scripted [Fixtures.three_entries]) Fixtures.world0
      = (inr node, w') ∧
    ScienceTree.mode node = 0 ∧
    Spec.expanded (H := App.embedding_retriever Fixtures.dot Fixtures.parse_date)
      (Fixtures.corpus false None) (Fixtures.scripted [Fixtures.three_entries])
      Fixtures.goal 2024 0 2 default_model (resolve_background None None)
      default_temperature Fixtures.world0 node.
Proof.
  apply (expansion_counts_well_formed_entries _
           (App.embedding_retriever Fixtures.dot Fixtures.parse_date)
           (Fixtures.corpus false None) Fixtures.no_config Fixtures.silent
           (Fixtures.scripted [Fixtures.three_entries])
           corpus_retrieve_total corpus_texts_total scripted_three_entries_clean
           Fixtures.goal 2024 2 default_temperature None None 0 default_model None
           default_config_path Fixtures.world0).
  lia.
Defined.

(** * Further properties of the code *)

(** ** semantic_search.py: [get_document_texts] *)

Section DocumentTexts.

Context {Vec Mat : Type}.
Implicit Types (self : EmbeddingRetrievalSystem Vec Mat).

Lemma get_document_texts_spec self (doc_ids : list string) :
  text_id <$> SemanticSearch.get_document_texts self doc_ids
    = filter (λ doc_id, doc_id ∈ document_id <$> documents self) doc_ids ∧
  Forall (λ entry, ∃ doc, doc ∈ documents self ∧
            entry = mkDocText (document_id doc) (document_abstract doc)
                      (document_conclusions doc))
    (SemanticSearch.get_document_texts self doc_ids).
Proof.
  induction doc_ids as [|doc_id rest [IHids IHall]]; [by split|].
  cbn [SemanticSearch.get_document_texts]. rewrite filter_cons.
  destruct (List.find _ (documents self)) as [doc|] eqn:Hfind.
  - apply find_some in Hfind as [Hin Heq]. apply String.eqb_eq in Heq.
    apply list_elem_of_In in Hin.
    rewrite decide_True by (rewrite <- Heq; by apply list_elem_of_fmap_2).
    split.
    + cbn. by rewrite Heq, IHids.
    + constructor; [by exists doc|done].
  - rewrite decide_False; [by split|].
    intros (doc & Hid & Hin)%list_elem_of_fmap.
    apply list_elem_of_In in Hin.
    pose proof (find_none _ _ Hfind doc Hin) as Hne. cbn in Hne.
    apply String.eqb_neq in Hne. congruence.
Qed.

(** X1: [get_document_texts] answers for exactly the requested ids that some
    document carries, in the order of the request and as often as they are
    requested; the other ids are dropped.  Every entry holds the id, the
    abstract and the conclusions of one document of the system. *)
Theorem get_document_texts_found self (doc_ids : list string) :
  text_id <$> SemanticSearch.get_document_texts self doc_ids
    = filter (λ doc_id, doc_id ∈ document_id <$> documents self) doc_ids ∧
  Forall (λ entry, ∃ doc, doc ∈ documents self ∧
            entry = mkDocText (document_id doc) (document_abstract doc)
                      (document_conclusions doc))
    (SemanticSearch.get_document_texts self doc_ids).
Proof. apply get_document_texts_spec. Qed.

End DocumentTexts.

(** ** semantic_search.py: what [rank_and_filter] returns *)

Lemma getitem_out_of_range {A} (l : list A) (i : Z) :
  ¬ (- Z.of_nat (length l) ≤ i < Z.of_nat (length l)) → getitem l i = inl IndexError.
Proof.
  intros Hi. unfold getitem. cbn zeta.
  destruct (Z.ltb_spec i 0).
  - destruct (Z.ltb_spec (i + Z.of_nat (length l)) 0); [done|lia].
  - destruct (Z.ltb_spec i 0); [lia|].
    destruct (Z.leb_spec (Z.of_nat (length l)) i); [done|lia].
Qed.

Lemma score_documents_ids similarities items results :
  score_documents similarities items = inr results → c_id <$> results = items.*1.
Proof.
  intros Hres%score_documents_inv.
  induction Hres as [|item c items results Hc _ IH]; [done|].
  apply score_document_inv in Hc as (a & b & _ & _ & ->).
  cbn [fmap list_fmap]. rewrite <- IH. by destruct (sim_gt a b).
Qed.

Lemma score_documents_length similarities items results :
  score_documents similarities items = inr results → length results = length items.
Proof.
  intros Hres%score_documents_ids. apply (f_equal length) in Hres.
  by rewrite !length_fmap in Hres.
Qed.

Lemma getitem_error {A} (l : list A) (i : Z) e : getitem l i = inl e → e = IndexError.
Proof.
  unfold getitem. cbn zeta. destruct (_ || _); [by intros [= <-]|].
  destruct (l !! _); [done|by intros [= <-]].
Qed.

Lemma section_sim_error similarities (mappings : gmap string Z) section e :
  section_sim similarities mappings section = inl e → e = IndexError.
Proof.
  unfold section_sim, mbind, result_bind. destruct (mappings !! section) as [row|]; [|done].
  destruct (getitem similarities row) as [e'|z] eqn:Hg; [|done].
  intros [= <-]. by apply getitem_error in Hg.
Qed.

Lemma score_document_error similarities item e :
  score_document similarities item = inl e → e = IndexError.
Proof.
  destruct item as [doc_id mappings]. unfold score_document, mbind, result_bind.
  destruct (section_sim similarities mappings "abstract") as [e'|a] eqn:Ha.
  { intros [= <-]. by apply section_sim_error in Ha. }
  destruct (section_sim similarities mappings "conclusions") as [e'|b] eqn:Hb.
  { intros [= <-]. by apply section_sim_error in Hb. }
  by destruct (sim_gt a b).
Qed.

(** Every failure of the scoring loop is an [IndexError]. *)
Lemma score_documents_error similarities items e :
  score_documents similarities items = inl e → e = IndexError.
Proof.
  induction items as [|item items IH]; [done|].
  cbn [score_documents]. unfold mbind, result_bind.
  destruct (score_document similarities item) as [e'|c] eqn:Hc.
  { intros [= <-]. by apply score_document_error in Hc. }
  destruct (score_documents similarities items) as [e'|rest]; [|done].
  intros [= <-]. by apply IH.
Qed.

Lemma score_documents_out_of_range similarities items item section row :
  item ∈ items → section = "abstract" ∨ section = "conclusions" →
  item.2 !! section = Some row → ¬ Spec.row_in_range similarities row →
  score_documents similarities items = inl IndexError.
Proof.
  intros Hin Hsec Hrow Hrange.
  destruct (score_documents similarities items) as [e|results] eqn:Hres.
  { by apply score_documents_error in Hres as ->. }
  apply score_documents_inv in Hres.
  apply list_elem_of_lookup in Hin as [k Hk].
  destruct (Forall2_lookup_l _ _ _ _ _ Hres Hk) as (c & _ & Hc).
  apply score_document_inv in Hc as (a & b & Ha & Hb & _).
  unfold section_sim, mbind, result_bind in Ha, Hb.
  destruct Hsec as [-> | ->].
  - rewrite Hrow, getitem_out_of_range in Ha by done. done.
  - rewrite Hrow, getitem_out_of_range in Hb by done. done.
Qed.

Lemma dict_set_fresh {V} (k : string) (v : V) (d : list (string * V)) :
  k ∉ d.*1 → dict_set k v d = d ++ [(k, v)].
Proof.
  induction d as [|[k' v'] d IH]; intros Hk; [done|].
  cbn [dict_set]. apply not_elem_of_cons in Hk as [Hne Hk].
  destruct (String.eqb_spec k k') as [->|_]; [done|].
  by rewrite IH.
Qed.

(** A comprehension over pairs with distinct keys keeps the pairs as they
    come. *)
Lemma dict_comp_nodup {V} (pairs : list (string * V)) :
  NoDup pairs.*1 → dict_comp pairs = pairs.
Proof.
  unfold dict_comp.
  assert (∀ acc, NoDup (acc ++ pairs).*1 →
            fold_left (λ d kv, dict_set kv.1 kv.2 d) pairs acc = acc ++ pairs) as Hgo.
  { induction pairs as [|[k v] pairs IH]; intros acc Hnd; cbn [fold_left].
    - by rewrite List.app_nil_r.
    - rewrite dict_set_fresh.
      + rewrite IH; rewrite <- List.app_assoc; [done|]. exact Hnd.
      + rewrite fmap_app in Hnd. apply NoDup_app in Hnd as (_ & Hdisj & _).
        intros Hk. apply (Hdisj k Hk). cbn. by left. }
  intros Hnd. by apply (Hgo []).
Qed.

Section RankingMore.

Context {Vec Mat Date : Type}.
Variable np_dot : Mat → Vec → result (list Z).

Implicit Types (self : EmbeddingRetrievalSystem Vec Mat) (date : Date) (embedding : Vec).

Lemma top_results_ids results top_k :
  c_id <$> top_results results top_k
  = slice_to (c_id <$> sorted_reverse c_score sim_lt results) top_k.
Proof.
  unfold top_results, slice_to. rewrite length_fmap.
  by destruct (top_k <? 0); rewrite fmap_take.
Qed.

(** X2: the number of ids [rank_and_filter] returns.  With N documents in
    the index mapping it is min(k, N) for top_k = k >= 0; a negative top_k
    does not give an empty answer but drops the last -k documents of the
    ranking, leaving N + k ids (none when that is negative). *)
Theorem rank_and_filter_count self query embedding date top_k time_result ids :
  rank_and_filter np_dot self query embedding date top_k false time_result
    = inr (Ids ids) →
  Z.of_nat (length ids)
  = Z.max 0 (Z.min (Z.of_nat (length (index_mapping self)))
               (if top_k <? 0 then Z.of_nat (length (index_mapping self)) + top_k
                else top_k)).
Proof.
  intros (similarities & results & _ & Hres & [= ->])%rank_and_filter_inv.
  apply score_documents_length in Hres. rewrite <- Hres.
  rewrite length_fmap. unfold top_results, slice_to.
  rewrite (Permutation_length (sorted_reverse_perm c_score sim_lt results)).
  destruct (Z.ltb_spec top_k 0); rewrite length_take, (Permutation_length
    (sorted_reverse_perm c_score sim_lt results)); lia.
Qed.

(** X3: asking for more results only extends the answer: for 0 <= k <= k'
    the ids returned for top_k = k are the first k of those returned for
    top_k = k'. *)
Theorem rank_and_filter_prefix self query embedding date k k' time_result ids ids' :
  0 ≤ k ≤ k' →
  rank_and_filter np_dot self query embedding date k false time_result = inr (Ids ids) →
  rank_and_filter np_dot self query embedding date k' false time_result = inr (Ids ids') →
  ids = take (Z.to_nat k) ids'.
Proof.
  intros Hk (similarities & results & Hdot & Hres & [= ->])%rank_and_filter_inv
    (similarities' & results' & Hdot' & Hres' & [= ->])%rank_and_filter_inv.
  rewrite Hdot in Hdot'. injection Hdot' as <-.
  rewrite Hres in Hres'. injection Hres' as <-.
  unfold top_results. rewrite !slice_to_take by lia.
  rewrite <- fmap_take, take_take. f_equal. f_equal. lia.
Qed.

Lemma rank_and_filter_ids_spec self query embedding date top_k time_result ids :
  rank_and_filter np_dot self query embedding date top_k false time_result
    = inr (Ids ids) →
  ids ⊆ (index_mapping self).*1 ∧
  (NoDup (index_mapping self).*1 → NoDup ids) ∧
  (Z.of_nat (length (index_mapping self)) ≤ top_k → ids ≡ₚ (index_mapping self).*1).
Proof.
  intros (similarities & results & _ & Hres & [= ->])%rank_and_filter_inv.
  pose proof (score_documents_length _ _ _ Hres) as Hlen.
  apply score_documents_ids in Hres. rewrite <- Hres, top_results_ids.
  assert (c_id <$> sorted_reverse c_score sim_lt results ≡ₚ c_id <$> results) as Hperm
    by (by rewrite sorted_reverse_perm).
  assert (slice_to (c_id <$> sorted_reverse c_score sim_lt results) top_k
            `sublist_of` c_id <$> sorted_reverse c_score sim_lt results) as Hsub.
  { unfold slice_to. destruct (top_k <? 0); apply sublist_take. }
  split; [|split].
  - intros id Hid. rewrite <- Hperm. by eapply elem_of_sublist.
  - intros Hnd. eapply sublist_NoDup; [|exact Hsub]. by rewrite Hperm.
  - intros Hk. rewrite <- Hperm. unfold slice_to.
    destruct (Z.ltb_spec top_k 0); [lia|].
    rewrite take_ge; [done|]. rewrite length_fmap.
    rewrite (Permutation_length (sorted_reverse_perm c_score sim_lt results)). lia.
Qed.

(** X4: every id [rank_and_filter] returns is a document of the index
    mapping; when the ids of the mapping are distinct no id is returned
    twice; and with top_k at least the number of documents every document is
    returned. *)
Theorem rank_and_filter_ids self query embedding date top_k time_result ids :
  rank_and_filter np_dot self query embedding date top_k false time_result
    = inr (Ids ids) →
  ids ⊆ (index_mapping self).*1 ∧
  (NoDup (index_mapping self).*1 → NoDup ids) ∧
  (Z.of_nat (length (index_mapping self)) ≤ top_k → ids ≡ₚ (index_mapping self).*1).
Proof. apply rank_and_filter_ids_spec. Qed.

(** X5: one row index out of the range of the embedding matrix, under
    "abstract" or "conclusions" of any document, makes the whole ranking fail
    with IndexError: no partial result is returned. *)
Theorem rank_and_filter_row_out_of_range self query embedding date top_k return_scores
    time_result similarities item section row :
  weight_keywords self = false →
  np_dot (embeddings self) embedding = inr similarities →
  item ∈ index_mapping self → section = "abstract" ∨ section = "conclusions" →
  item.2 !! section = Some row → ¬ Spec.row_in_range similarities row →
  rank_and_filter np_dot self query embedding date top_k return_scores time_result
    = inl IndexError.
Proof.
  intros Hkw Hdot Hin Hsec Hrow Hrange.
  unfold rank_and_filter, mbind, result_bind. rewrite Hdot, Hkw.
  by rewrite (score_documents_out_of_range _ _ _ _ _ Hin Hsec Hrow Hrange).
Qed.

(** X6: keyword weighting.  When it is switched on and no keyword filter was
    set (the constructor sets none), every ranking whose similarities could be
    computed fails with AttributeError, before any document is scored.  When a
    filter is set and succeeds, its matches are not used: the ranking is the
    one of a system that differs only in having keyword weighting off. *)
Theorem rank_and_filter_keywords self query embedding date top_k return_scores
    time_result similarities :
  weight_keywords self = true →
  np_dot (embeddings self) embedding = inr similarities →
  (keyword_filter self = None →
   rank_and_filter np_dot self query embedding date top_k return_scores time_result
     = inl (AttributeError "keyword_filter")) ∧
  (∀ filter matches self',
     keyword_filter self = Some filter → filter query = inr matches →
     weight_keywords self' = false →
     embeddings self' = embeddings self → index_mapping self' = index_mapping self →
     rank_and_filter np_dot self query embedding date top_k return_scores time_result
     = rank_and_filter np_dot self' query embedding date top_k return_scores time_result).
Proof.
  intros Hkw Hdot. split.
  - intros Hnone. unfold rank_and_filter, mbind, result_bind.
    by rewrite Hdot, Hkw, Hnone.
  - intros filter matches self' Hf Hm Hkw' Hemb Hmap.
    unfold rank_and_filter, mbind, result_bind.
    by rewrite Hemb, Hmap, Hdot, Hkw, Hkw', Hf, Hm.
Qed.

(** X7: with distinct ids in the index mapping, [return_scores] changes the
    form of the answer and nothing else: the dictionary lists the ids that
    the plain call returns, in the same order, each with the score of its
    document, and the scores never increase along it. *)
Theorem rank_and_filter_scores self query embedding date top_k time_result ids :
  NoDup (index_mapping self).*1 → 0 ≤ top_k →
  rank_and_filter np_dot self query embedding date top_k false time_result
    = inr (Ids ids) →
  ∃ scores,
    rank_and_filter np_dot self query embedding date top_k true time_result
      = inr (Scores scores) ∧
    scores.*1 = ids ∧
    StronglySorted (λ s s', sim_lt s s' = false) scores.*2.
Proof.
  intros Hnd Hk Hids.
  pose proof (rank_and_filter_ids_spec _ _ _ _ _ _ _ Hids) as (_ & Hnd' & _).
  specialize (Hnd' Hnd). revert Hids Hnd'. unfold rank_and_filter, mbind, result_bind.
  destruct (np_dot (embeddings self) embedding) as [e|similarities]; [done|].
  destruct (if weight_keywords self then _ else _) as [e|matches]; [discriminate|].
  destruct (score_documents similarities (index_mapping self)) as [e|results]; [done|].
  intros [= <-] Hnd'. eexists. split; [reflexivity|].
  rewrite dict_comp_nodup.
  - split; [by rewrite <- list_fmap_compose|].
    rewrite <- list_fmap_compose.
    destruct (top_results_ranked results top_k Hk) as (ranked & _ & Hsorted & _ & -> & _).
    apply (StronglySorted_fmap _ (Spec.not_below c_score sim_lt)); [done|].
    assert (∀ n (l : list Candidate),
              StronglySorted (Spec.not_below c_score sim_lt) l →
              StronglySorted (Spec.not_below c_score sim_lt) (take n l)) as Htake.
    { intros n l Hl. revert n. induction Hl as [|x l Hl IH Hall]; intros [|n]; cbn;
        try constructor; [apply IH|]. by apply Forall_take. }
    eapply Htake in Hsorted. exact Hsorted.
  - by rewrite <- list_fmap_compose.
Qed.

End RankingMore.

(** ** temporal.py: the calls and the failures of [analyze_temporal_query] *)



(** ** semantic_search.py: the calls of [retrieve] *)

Section RetrieveMore.

Context {Vec Mat Date : Type}.
Variable np_dot : Mat → Vec → result (list Z).
Variable parse_date : option string → result Date.

Implicit Types (self : EmbeddingRetrievalSystem Vec Mat).

Lemma retrieve_footprint self query arxiv_id top_k return_scores time_result w outcome w' :
  weight_date self = false ∨ is_Some time_result →
  SemanticSearch.retrieve np_dot parse_date self query arxiv_id top_k return_scores
    time_result w = (outcome, w') →
  ticks w' = ticks w ∧ clock w' = clock w ∧
  (calls w' = calls w ∨ calls w' = EvEmbed query :: calls w) ∧
  (∀ r, outcome = inr r → calls w' = EvEmbed query :: calls w) ∧
  (∀ e, parse_date arxiv_id = inl e → outcome = inl e ∧ calls w' = calls w) ∧
  (∀ date, parse_date arxiv_id = inr date → client self = None →
   outcome = inl (AttributeError "embed") ∧ calls w' = calls w).
Proof.
  intros Hoff. unfold SemanticSearch.retrieve, get_query_embedding.
  assert (is_Some time_result ∨ time_result = None ∧ weight_date self = false)
    as [[given ->]|[-> ->]].
  { destruct time_result; [left; eauto|]. destruct Hoff as [?|[? [=]]]. by right. }
  all: monad_unfold.
  all: destruct (parse_date arxiv_id) as [e|date];
    [intros [= <- <-]; split_and!; try done; [by left|by intros e' [= ->]]|].
  all: destruct (client self) as [c|];
    [|intros [= <- <-]; split_and!; try done; by left].
  all: destruct (c (calls w) query) as [e|embedding];
    [intros [= <- <-]; split_and!; try done; by right|].
  all: unfold log; cbn [calls ticks clock].
  all: destruct (rank_and_filter _ _ _ _ _ _ _ _); intros [= <- <-];
    split_and!; try done; by right.
Qed.

(** X10: with date weighting off, or with a temporal intent passed in,
    [retrieve] never calls the generation client and never reads the clock.
    It calls the embedding client at most once, and exactly once when it
    returns a result; when [parse_date] rejects the argument or no embedding
    client is set, it fails before any call. *)
Theorem retrieve_calls self query arxiv_id top_k return_scores time_result w outcome w' :
  weight_date self = false ∨ is_Some time_result →
  SemanticSearch.retrieve np_dot parse_date self query arxiv_id top_k return_scores
    time_result w = (outcome, w') →
  ticks w' = ticks w ∧ clock w' = clock w ∧
  (calls w' = calls w ∨ calls w' = EvEmbed query :: calls w) ∧
  (∀ r, outcome = inr r → calls w' = EvEmbed query :: calls w) ∧
  (∀ e, parse_date arxiv_id = inl e → outcome = inl e ∧ calls w' = calls w) ∧
  (∀ date, parse_date arxiv_id = inr date → client self = None →
   outcome = inl (AttributeError "embed") ∧ calls w' = calls w).
Proof. apply retrieve_footprint. Qed.


End RetrieveMore.

(** ** temporal.py: what [is_temporal_query] looks at *)

Lemma found_extend r u q v : Spec.found r q → Spec.found r (u +:+ q +:+ v).
Proof.
  intros (u' & m & v' & -> & Hm). exists (u +:+ u'), m, (v' +:+ v).
  split; [|done]. by rewrite !app_assoc.
Qed.

(** X12: the pattern is searched for anywhere in the query and knows no
    word boundary: a query that contains a temporal query, in the middle of a
    word or not, is a temporal query. *)
Theorem is_temporal_query_substring u q v :
  is_temporal_query q = true → is_temporal_query (u +:+ q +:+ v) = true.
Proof. rewrite !is_temporal_query_found. apply found_extend. Qed.

Lemma lower_idem c : lower (lower c) = lower c.
Proof. destruct c as [[] [] [] [] [] [] [] []]; reflexivity. Qed.

Lemma is_digit_lower c : is_digit (lower c) = is_digit c.
Proof. destruct c as [[] [] [] [] [] [] [] []]; reflexivity. Qed.

Lemma is_space_lower c : is_space (lower c) = is_space c.
Proof. destruct c as [[] [] [] [] [] [] [] []]; reflexivity. Qed.

Lemma deriv_lower c r : deriv (lower c) r = deriv c r.
Proof.
  induction r as [| |a| | |r1 IH1 r2 IH2|r1 IH1 r2 IH2|r IH]; cbn [deriv];
    rewrite ?lower_idem, ?is_digit_lower, ?is_space_lower, ?IH1, ?IH2, ?IH; reflexivity.
Qed.

Lemma match_prefix_lower r s : match_prefix r (Variants.lower_case s) = match_prefix r s.
Proof.
  revert r. induction s as [|c s IH]; intros r; cbn [Variants.lower_case match_prefix]; [done|].
  by rewrite deriv_lower, IH.
Qed.

(** X13: the case of the letters of a query is ignored: a query and its
    lower-case form get the same answer, and so do any two queries that
    differ in the case of their letters only. *)
Theorem is_temporal_query_ignores_case q :
  is_temporal_query (Variants.lower_case q) = is_temporal_query q ∧
  ∀ q', Variants.lower_case q' = Variants.lower_case q →
        is_temporal_query q' = is_temporal_query q.
Proof.
  assert (∀ s, is_temporal_query (Variants.lower_case s) = is_temporal_query s) as Hlower.
  { intros s. unfold is_temporal_query. generalize temporal_pattern as r. intros r.
    induction s as [|c s IH]; cbn [Variants.lower_case search]; [done|].
    rewrite <- IH. f_equal.
    change (String (lower c) (Variants.lower_case s)) with (Variants.lower_case (String c s)).
    apply match_prefix_lower. }
  split; [apply Hlower|].
  intros q' Heq. by rewrite <- (Hlower q'), Heq.
Qed.

(** ** sciencetree.py: the text of a child *)

Section ChildText.

Implicit Types (s t before body after : string) (c a : ascii).

Lemma contains_char_cons c a s :
  contains (String c "") (String a s) = Ascii.eqb c a || contains (String c "") s.
Proof. cbn [contains startswith]. by destruct (Ascii.eqb c a), s. Qed.

Lemma contains_char_app c s t :
  contains (String c "") (s +:+ t) = contains (String c "") s || contains (String c "") t.
Proof.
  induction s as [|a s IH].
  - change ("" +:+ t) with t. by destruct t.
  - rewrite app_cons, !contains_char_cons, IH. by rewrite orb_assoc.
Qed.

Lemma startswith_char a s c : startswith (String a s) (String c "") = Ascii.eqb c a.
Proof. cbn [startswith]. by destruct (Ascii.eqb c a), s. Qed.

(** Removing a character that does not occur changes nothing. *)
Lemma replace_go_absent c s :
  contains (String c "") s = false → replace_go (String c "") "" 0 s = s.
Proof.
  induction s as [|a s IH]; [done|].
  rewrite contains_char_cons. intros [Ha Hs]%orb_false_iff.
  cbn [replace_go]. rewrite startswith_char, Ha. by rewrite IH.
Qed.

Lemma replace_go_char_app c s t :
  replace_go (String c "") "" 0 (s +:+ t)
  = replace_go (String c "") "" 0 s +:+ replace_go (String c "") "" 0 t.
Proof.
  induction s as [|a s IH]; [done|].
  rewrite app_cons. cbn [replace_go]. rewrite !startswith_char.
  destruct (Ascii.eqb c a).
  - cbn [String.length Nat.sub]. exact IH.
  - by rewrite IH.
Qed.

Lemma replace_go_removes c s : contains (String c "") (replace_go (String c "") "" 0 s) = false.
Proof.
  induction s as [|a s IH]; [done|].
  cbn [replace_go]. rewrite startswith_char. destruct (Ascii.eqb c a) eqn:Ha.
  - exact IH.
  - by rewrite contains_char_cons, Ha, IH.
Qed.

Lemma replace_go_keeps_absent c x s :
  contains (String x "") s = false →
  contains (String x "") (replace_go (String c "") "" 0 s) = false.
Proof.
  induction s as [|a s IH]; [done|].
  rewrite contains_char_cons. intros [Ha Hs]%orb_false_iff.
  cbn [replace_go]. rewrite startswith_char. destruct (Ascii.eqb c a).
  - by apply IH.
  - by rewrite contains_char_cons, Ha, IH.
Qed.

(** No piece of a split at a character contains the character. *)
Lemma split_go_pieces c s :
  Forall (λ piece, contains (String c "") piece = false) (split_go (String c "") 0 s).
Proof.
  induction s as [|a s IH]; [by repeat constructor|].
  cbn [split_go]. rewrite startswith_char. destruct (Ascii.eqb c a) eqn:Ha.
  - cbn [String.length Nat.sub]. by constructor.
  - destruct (split_go (String c "") 0 s) as [|p ps]; [by repeat constructor; rewrite contains_char_cons, Ha|].
    cbn [cons_head]. inversion IH as [|?? Hp Hps]; subst. constructor; [|done].
    by rewrite contains_char_cons, Ha, Hp.
Qed.

Lemma getitem_elem_of {A} (l : list A) (i : Z) (x : A) : getitem l i = inr x → x ∈ l.
Proof.
  unfold getitem.
  destruct (_ || _); [done|].
  destruct (l !! _) as [y|] eqn:Hy; [|done].
  intros [= <-]. by eapply list_elem_of_lookup_2.
Qed.

End ChildText.

(** X14: the text of a child on a line with one pair of braces.  What
    stands before the opening brace is dropped; the closing brace is removed
    and what follows it is kept, up to a second opening brace if there is
    one. *)
Theorem child_text_keeps_tail before body after :
  contains "{" before = false →
  contains "{" body = false → contains "}" body = false →
  contains "{" after = false → contains "}" after = false →
  child_text (before +:+ "{" +:+ body +:+ "}" +:+ after) = inr (body +:+ after) ∧
  ∀ more,
    child_text (before +:+ "{" +:+ body +:+ "}" +:+ after +:+ "{" +:+ more)
    = inr (body +:+ after).
Proof.
  intros Hbefore Hbo Hbc Hao Hac.
  assert (contains "{" (body +:+ "}" +:+ after) = false) as Hinner.
  { by rewrite !contains_char_app, Hbo, Hao. }
  assert (replace "}" "" (body +:+ "}" +:+ after) = body +:+ after) as Hreplace.
  { cbn [replace]. rewrite !replace_go_char_app.
    rewrite (replace_go_absent _ body), (replace_go_absent _ after) by done.
    reflexivity. }
  split.
  - unfold child_text. cbn [split]. unfold mbind, mret, result_bind, result_ret.
    change ("{" +:+ body +:+ "}" +:+ after) with (String "{" (body +:+ "}" +:+ after)).
    rewrite split_go_char_head by done. rewrite split_go_absent by done.
    rewrite getitem_second. by rewrite Hreplace.
  - intros more.
    unfold child_text. cbn [split]. unfold mbind, mret, result_bind, result_ret.
    change ("{" +:+ body +:+ "}" +:+ after +:+ "{" +:+ more)
      with (String "{" (body +:+ "}" +:+ after +:+ String "{" more)).
    rewrite split_go_char_head by done.
    rewrite <- !app_assoc. rewrite (app_assoc body).
    rewrite split_go_char_head by done.
    rewrite getitem_second. by rewrite Hreplace.
Qed.

(** X15: the text of a child never contains a brace, whatever the line
    was. *)
Theorem child_text_has_no_brace line child :
  child_text line = inr child →
  contains "{" child = false ∧ contains "}" child = false.
Proof.
  unfold child_text. cbn [split]. unfold mbind, mret, result_bind, result_ret.
  destruct (getitem (split_go "{" 0 line) 1) as [e|inner] eqn:Hinner; [done|].
  intros [= <-]. apply getitem_elem_of in Hinner.
  pose proof (split_go_pieces "{" line) as Hpieces.
  rewrite Forall_forall in Hpieces. specialize (Hpieces inner Hinner).
  split.
  - by apply replace_go_keeps_absent.
  - apply replace_go_removes.
Qed.

(** ** sciencetree.py: the tree below a node *)

Section TreeMore.

Context {R : Type} `{!Retriever R}.
Variable retriever : R.
Variable config_file : string → option (result string).
Variable Anthropic : string → GenerationClient.

Lemma Forall2_exists_r {A B} (P : A → B → Prop) (Q : B → Prop) l k :
  (∀ x y, P x y → Q y) → Forall2 P l k → Forall Q k.
Proof. intros HPQ. induction 1; constructor; eauto. Qed.

(** The loop of lines 92-97, when it ends: one node for every accepted line,
    in the order of the lines, made from the text of the child of the
    line. *)
Lemma children_of_lines_inv (make_child : string → Eff scienceTreeNode)
    (P : string → scienceTreeNode → Prop) lines :
  (∀ child w node w', make_child child w = (inr node, w') → P child node) →
  ∀ w nodes w',
    children_of_lines make_child lines w = (inr nodes, w') →
    Forall2 (λ line node, ∃ child, child_text line = inr child ∧ P child node)
      (List.filter accepted lines) nodes.
Proof.
  intros Hmake. induction lines as [|line lines IH]; intros w nodes w'.
  - intros [= <- <-]. constructor.
  - cbn [children_of_lines List.filter]. destruct (accepted line); [|apply IH].
    unfold mbind, eff_bind, lift.
    destruct (child_text line) as [e|child] eqn:Hchild; [done|].
    destruct (make_child child w) as [[e|node] w1] eqn:Hnode; [done|].
    destruct (children_of_lines make_child lines w1) as [[e|others] w2] eqn:Hothers; [done|].
    intros [= <- <-]. constructor; [|by eapply IH].
    exists child. split; [done|]. by eapply Hmake.
Qed.

(** [generate], when it returns. *)
Lemma generate_inv (make_child : string → Eff scienceTreeNode) text year mode
    generation_model background generation_client temperature n w self_docs children w' :
  generate retriever make_child text year mode generation_model background
    generation_client temperature temperature n w = (inr (self_docs, children), w') →
  ∃ input_text w1 c req message,
    generation_client = Some c ∧
    gather retriever text year mode w = (inr (self_docs, input_text), w1) ∧
    request generation_model background mode n temperature input_text = inr req ∧
    c (calls w1) req = inr message ∧
    children_of_lines make_child (split_go newline 0 message) (log (EvGenerate req) w1)
      = (inr children, w').
Proof.
  unfold generate. unfold mbind at 1. unfold eff_bind at 1.
  destruct (gather retriever text year mode w) as [[e|[docs0 input_text]] w1]; [done|].
  destruct generation_client as [c|]; [|done].
  replace (match temperature with None => temperature | Some t => Some t end)
    with temperature by (by destruct temperature).
  unfold mbind, eff_bind, mret, eff_ret, lift, messages_create.
  destruct (request generation_model background mode n temperature input_text)
    as [e|req] eqn:Hreq; [done|].
  destruct (c (calls w1) req) as [e|message] eqn:Hmsg; [done|].
  cbn [split newline]. unfold mret, result_ret. fold newline.
  destruct (children_of_lines make_child (split_go newline 0 message)
              (log (EvGenerate req) w1)) as [[e|nodes] w2] eqn:Hnodes; [done|].
  intros [= <- <- <-]. by exists input_text, w1, c, req, message.
Qed.

Lemma init_fuel_inv fuel :
  ∀ text year n temperature background experiment mode generation_model api_key
    generation_client config_path w node w',
    init_fuel retriever config_file Anthropic fuel text year n temperature background
      experiment mode generation_model api_key generation_client config_path w
    = (inr node, w') →
    ScienceTree.text node = text ∧
    ScienceTree.mode node = mode ∧
    ScienceTree.year node = year ∧
    ScienceTree.n node = n ∧
    ScienceTree.generation_model node = generation_model ∧
    ScienceTree.temperature node = temperature ∧
    ScienceTree.background node = resolve_background background experiment ∧
    resolve_client config_file Anthropic generation_client config_path api_key
      = inr (ScienceTree.generation_client node) ∧
    (3 ≤ mode → children node = [] ∧ docs node = []) ∧
    Forall (Below.inherits year n (resolve_background background experiment)
              (ScienceTree.generation_client node) (mode + 1)) (children node).
Proof.
  induction fuel as [|fuel IH];
    intros text year n temperature background experiment mode generation_model api_key
      generation_client config_path w node w'; cbn [init_fuel];
    unfold mbind at 1; unfold eff_bind at 1; unfold lift;
    destruct (resolve_client config_file Anthropic generation_client config_path api_key)
      as [e|client] eqn:Hclient; try done;
    destruct (Z.ltb_spec mode 3) as [Hlt|Hge]; try done.
  - intros [= <- <-]. cbn. split_and!; try done.
  - unfold mbind, eff_bind.
    match goal with
    | |- context [generate retriever ?make _ _ _ _ _ _ _ _ _ w] =>
        destruct (generate retriever make text year mode generation_model
                    (resolve_background background experiment) client temperature
                    temperature n w) as [[e|[self_docs nodes]] w1] eqn:Hgen; [done|]
    end.
    intros [= <- <-]. cbn [ScienceTree.text ScienceTree.mode ScienceTree.year ScienceTree.n
      ScienceTree.generation_model ScienceTree.temperature ScienceTree.background
      ScienceTree.generation_client children docs].
    split_and!; try done; [lia|].
    apply generate_inv in Hgen as (input_text & w2 & c & req & message & -> & _ & _ & _ & Hnodes).
    eapply Forall2_exists_r; [|eapply children_of_lines_inv, Hnodes].
    + intros line child (t & _ & Hchild). exact Hchild.
    + intros t w0 child w0' Hchild.
      apply IH in Hchild
        as (_ & Hm & Hy & Hn & Hmodel & Htemp & Hbg & Hc & Hleaf & Hbelow).
      cbn [resolve_client mret result_ret] in Hc. injection Hc as Hc.
      cbn [resolve_background] in Hbg, Hbelow. rewrite <- Hc in Hbelow.
      constructor; try done; [lia|]. intros Hm3. apply Hleaf. lia.
  - intros [= <- <-]. cbn. split_and!; try done.
Qed.

(** X16: the tree a construction returns.  The root has the text, the
    mode, the year, the branching factor, the model and the temperature it
    was given.  Every node below it has its year, its branching factor, its
    background and its client, but the default model and the default
    temperature 0.5, whatever the model and the temperature of the root;
    modes grow by one from a node to its children and end at 3, where a node
    has neither children nor documents. *)
Theorem tree_inherits text year n temperature background experiment mode generation_model
    api_key generation_client config_path w node w' :
  init retriever config_file Anthropic text year n temperature background experiment mode
    generation_model api_key generation_client config_path w = (inr node, w') →
  ScienceTree.text node = text ∧
  ScienceTree.mode node = mode ∧
  ScienceTree.year node = year ∧
  ScienceTree.n node = n ∧
  ScienceTree.generation_model node = generation_model ∧
  ScienceTree.temperature node = temperature ∧
  ScienceTree.background node = resolve_background background experiment ∧
  (3 ≤ mode → children node = [] ∧ docs node = []) ∧
  Forall (Below.inherits year n (ScienceTree.background node)
            (ScienceTree.generation_client node) (mode + 1)) (children node).
Proof.
  unfold init. intros Hnode.
  apply init_fuel_inv in Hnode
    as (Ht & Hm & Hy & Hn & Hmodel & Htemp & Hbg & _ & Hleaf & Hbelow).
  rewrite Hbg. by split_and!.
Qed.

(** X17: the children of a node that was expanded.  The client was asked
    once, with the request built from the documents gathered for the node;
    the node keeps the ids of these documents, and its children are, in the
    order of the lines of the response, the texts of the children of the
    lines that pass the test of line 94. *)
Theorem children_follow_response text year n temperature background experiment mode
    generation_model api_key generation_client config_path w node w' :
  mode < 3 →
  init retriever config_file Anthropic text year n temperature background experiment mode
    generation_model api_key generation_client config_path w = (inr node, w') →
  ∃ input_text w1 c req message,
    ScienceTree.generation_client node = Some c ∧
    gather retriever text year mode w = (inr (docs node, input_text), w1) ∧
    request generation_model (resolve_background background experiment) mode n temperature
      input_text = inr req ∧
    c (calls w1) req = inr message ∧
    Forall2 (λ line child, child_text line = inr (ScienceTree.text child))
      (List.filter accepted (split_go newline 0 message)) (children node).
Proof.
  intros Hmode. unfold init.
  destruct (Z.to_nat (3 - mode)) as [|fuel] eqn:Hfuel; [lia|].
  cbn [init_fuel]. unfold mbind at 1. unfold eff_bind at 1. unfold lift.
  destruct (resolve_client config_file Anthropic generation_client config_path api_key)
    as [e|client]; [done|].
  destruct (Z.ltb_spec mode 3) as [_|?]; [|lia].
  unfold mbind, eff_bind.
  match goal with
  | |- context [generate retriever ?make _ _ _ _ _ _ _ _ _ w] =>
      destruct (generate retriever make text year mode generation_model
                  (resolve_background background experiment) client temperature
                  temperature n w) as [[e|[self_docs nodes]] w1] eqn:Hgen; [done|]
  end.
  intros [= <- <-]. cbn [ScienceTree.generation_client children docs].
  apply generate_inv in Hgen
    as (input_text & w2 & c & req & message & -> & Hgather & Hreq & Hmsg & Hnodes).
  exists input_text, w2, c, req, message. split_and!; try done.
  eapply (children_of_lines_inv _ (λ t child, ScienceTree.text child = t)) in Hnodes.
  - eapply Forall2_impl; [exact Hnodes|].
    intros line child (t & Ht & Hchild). by rewrite Hchild.
  - intros t w0 child w0' Hchild. by apply init_fuel_inv in Hchild as (Ht & _).
Qed.

(** X18: a construction with an explicit client never looks at the
    configuration file or at the api key: it yields the same outcome and
    makes the same calls whatever the file system holds, whatever the client
    library and whatever [api_key] and [config_path] are. *)
Theorem explicit_client_ignores_config (config_file' : string → option (result string))
    (Anthropic' : string → GenerationClient) text year n temperature background experiment
    mode generation_model api_key api_key' c config_path config_path' w :
  init retriever config_file Anthropic text year n temperature background experiment mode
    generation_model api_key (Some c) config_path w
  = init retriever config_file' Anthropic' text year n temperature background experiment
      mode generation_model api_key' (Some c) config_path' w.
Proof.
  unfold init. generalize (Z.to_nat (3 - mode)) as fuel. intros fuel.
  revert text temperature background experiment mode generation_model api_key api_key'
    config_path config_path' w.
  induction fuel as [|fuel IH];
    intros text temperature background experiment mode generation_model api_key api_key'
      config_path config_path' w; cbn [init_fuel resolve_client]; [done|].
  unfold mbind at 1 3. unfold eff_bind at 1 3. unfold lift, mret, result_ret.
  destruct (mode <? 3); [|done].
  unfold mbind, eff_bind.
  rewrite (generate_ext retriever
             (λ child, init_fuel retriever config_file Anthropic fuel child year n
                default_temperature
                (Some (resolve_background background experiment)) None (mode + 1)
                default_model None (Some c) default_config_path)
             (λ child, init_fuel retriever config_file' Anthropic' fuel child year n
                default_temperature
                (Some (resolve_background background experiment)) None (mode + 1)
                default_model None (Some c) default_config_path)); [done|].
  intros child w0. apply IH.
Qed.

(** X19: a construction without any client.  When no client is passed, no
    configuration file exists and no api key is given, the construction of a
    node below mode 3 never returns a node: it first queries the retriever,
    and when the retriever has answered it fails with AttributeError on the
    missing [generation_client]. *)
Theorem construction_without_client text year n temperature background experiment mode
    generation_model config_path w :
  config_file config_path = None → mode < 3 →
  (∃ e w',
     init retriever config_file Anthropic text year n temperature background experiment
       mode generation_model None None config_path w = (inl e, w')) ∧
  (∀ ids w1 texts w2,
     -4 ≤ mode →
     retrieve retriever text (str (year `div` 100) +:+ "01.0001") 10
       (log (EvRetrieve text) w) = (inr ids, w1) →
     get_document_texts retriever ids (log (EvTexts ids) w1) = (inr texts, w2) →
     init retriever config_file Anthropic text year n temperature background experiment
       mode generation_model None None config_path w
     = (inl (AttributeError "generation_client"), w2)).
Proof.
  intros Hconfig Hmode. unfold init.
  destruct (Z.to_nat (3 - mode)) as [|fuel] eqn:Hfuel; [lia|].
  cbn [init_fuel resolve_client]. rewrite Hconfig.
  unfold mbind at 1. unfold eff_bind at 1. unfold lift, mret, result_ret.
  destruct (Z.ltb_spec mode 3) as [_|?]; [|lia].
  unfold mbind at 1. unfold eff_bind at 1. unfold generate.
  unfold mbind at 1. unfold eff_bind at 1.
  split.
  - destruct (gather retriever text year mode w) as [[e|[self_docs input_text]] w1];
      [by eexists _, _|].
    unfold mbind, eff_bind, throw. by eexists _, _.
  - intros ids w1 texts w2 Hlow Hids Htexts.
    unfold gather, call_retrieve, call_get_document_texts.
    unfold mbind, eff_bind, mret, eff_ret, lift, throw.
    rewrite Hids, Htexts.
    destruct (getitem_in_range modes mode) as [label Hlabel]; [cbn; lia|].
    by rewrite Hlabel.
Qed.

End TreeMore.

(** ** sciencetree.py: the requests of a construction *)

Section TreeCalls.

Context {R : Type} `{!Retriever R}.
Variable retriever : R.
Variable config_file : string → option (result string).
Variable Anthropic : string → GenerationClient.

(** The retriever makes no generation request of its own. *)
Hypothesis retrieve_quiet :
  ∀ query yearstr top_k w outcome w',
    retrieve retriever query yearstr top_k w = (outcome, w') →
    generation_calls (calls w') = generation_calls (calls w).
Hypothesis texts_quiet :
  ∀ ids w outcome w',
    get_document_texts retriever ids w = (outcome, w') →
    generation_calls (calls w') = generation_calls (calls w).

Lemma expansions_unfold node :
  Below.expansions node
  = ((if (ScienceTree.mode node <? 3)%Z then 1 else 0)
     + Below.expansions_of (children node))%nat.
Proof. by destruct node. Qed.

Lemma log_quiet ev w :
  is_generation ev = false →
  generation_calls (calls (log ev w)) = generation_calls (calls w).
Proof.
  intros Hev. unfold log, generation_calls. cbn [calls List.filter]. by rewrite Hev.
Qed.

Lemma gather_quiet text year mode w outcome w' :
  gather retriever text year mode w = (outcome, w') →
  generation_calls (calls w') = generation_calls (calls w).
Proof.
  unfold gather, call_retrieve, call_get_document_texts.
  unfold mbind, eff_bind, mret, eff_ret, lift.
  destruct (retrieve retriever text _ 10 (log (EvRetrieve text) w))
    as [[e|ids] w1] eqn:Hids; apply retrieve_quiet in Hids;
    rewrite log_quiet in Hids by done.
  { by intros [= <- <-]. }
  destruct (get_document_texts retriever ids (log (EvTexts ids) w1))
    as [[e|texts] w2] eqn:Htexts; apply texts_quiet in Htexts;
    rewrite log_quiet in Htexts by done.
  { intros [= <- <-]. by rewrite Htexts, Hids. }
  destruct (getitem modes mode); intros [= <- <-]; by rewrite Htexts, Hids.
Qed.

Lemma children_of_lines_calls (make_child : string → Eff scienceTreeNode) lines :
  (∀ child w node w',
     make_child child w = (inr node, w') →
     generation_calls (calls w')
     = (generation_calls (calls w) + Below.expansions node)%nat) →
  ∀ w nodes w',
    children_of_lines make_child lines w = (inr nodes, w') →
    generation_calls (calls w')
    = (generation_calls (calls w) + Below.expansions_of nodes)%nat.
Proof.
  intros Hmake. induction lines as [|line lines IH]; intros w nodes w'.
  - intros [= <- <-]. cbn. lia.
  - cbn [children_of_lines]. destruct (accepted line); [|apply IH].
    unfold mbind, eff_bind, lift.
    destruct (child_text line) as [e|child]; [done|].
    destruct (make_child child w) as [[e|node] w1] eqn:Hnode; [done|].
    destruct (children_of_lines make_child lines w1) as [[e|others] w2] eqn:Hothers; [done|].
    intros [= <- <-]. apply Hmake in Hnode. apply IH in Hothers.
    cbn [Below.expansions_of foldr]. fold (Below.expansions_of others). lia.
Qed.

Lemma init_fuel_calls fuel :
  ∀ text year n temperature background experiment mode generation_model api_key
    generation_client config_path w node w',
    init_fuel retriever config_file Anthropic fuel text year n temperature background
      experiment mode generation_model api_key generation_client config_path w
    = (inr node, w') →
    generation_calls (calls w')
    = (generation_calls (calls w) + Below.expansions node)%nat.
Proof.
  induction fuel as [|fuel IH];
    intros text year n temperature background experiment mode generation_model api_key
      generation_client config_path w node w'; cbn [init_fuel];
    unfold mbind at 1; unfold eff_bind at 1; unfold lift;
    destruct (resolve_client config_file Anthropic generation_client config_path api_key)
      as [e|client] eqn:Hclient; try done;
    destruct (Z.ltb_spec mode 3) as [Hlt|Hge]; try done.
  - intros [= <- <-]. rewrite expansions_unfold. cbn [ScienceTree.mode children].
    destruct (Z.ltb_spec mode 3); [lia|]. cbn. lia.
  - unfold mbind, eff_bind.
    match goal with
    | |- context [generate retriever ?make _ _ _ _ _ _ _ _ _ w] =>
        destruct (generate retriever make text year mode generation_model
                    (resolve_background background experiment) client temperature
                    temperature n w) as [[e|[self_docs nodes]] w1] eqn:Hgen; [done|]
    end.
    intros [= <- <-]. rewrite expansions_unfold. cbn [ScienceTree.mode children].
    destruct (Z.ltb_spec mode 3); [|lia].
    apply generate_inv in Hgen
      as (input_text & w2 & c & req & message & -> & Hgather & _ & _ & Hnodes).
    apply gather_quiet in Hgather.
    apply children_of_lines_calls in Hnodes; [|intros t w0 child w0'; apply IH].
    rewrite Hnodes. unfold log. cbn [calls generation_calls List.filter is_generation length].
    fold (generation_calls (calls w2)). rewrite Hgather. lia.
  - intros [= <- <-]. rewrite expansions_unfold. cbn [ScienceTree.mode children].
    destruct (Z.ltb_spec mode 3); [lia|]. cbn. lia.
Qed.

(** X20: the requests a tree costs.  With a retriever that makes no
    generation request of its own, a construction that returns made exactly
    one request to the generation client for every node of the tree that
    stands below mode 3, the root included. *)
Theorem one_request_per_expansion text year n temperature background experiment mode
    generation_model api_key generation_client config_path w node w' :
  init retriever config_file Anthropic text year n temperature background experiment mode
    generation_model api_key generation_client config_path w = (inr node, w') →
  generation_calls (calls w')
  = (generation_calls (calls w) + Below.expansions node)%nat.
Proof. apply init_fuel_calls. Qed.

End TreeCalls.

(** ** semantic_search.py: [retrieve_context] *)

Section ContextFacts.

Context {Vec Mat Date Meta : Type}.
Variable np_dot : Mat → Vec → result (list Z).
Variable parse_date : option string → result Date.

Implicit Types (self : EmbeddingRetrievalSystem Vec Mat)
  (metadata : option (gmap string (gmap string Meta)))
  (doclist : list (Context.ContextDocument Meta)).

Lemma doctext_get_total doctext section :
  section ∈ ["id"; "abstract"; "conclusions"] →
  ∃ body, Context.doctext_get doctext section = inr body.
Proof.
  intros Hs. repeat (apply elem_of_cons in Hs as [->|Hs]); [| | |by apply elem_of_nil in Hs];
    by eexists.
Qed.

Lemma section_lines_total docid doctext sections context_str :
  Forall (λ section, section ∈ ["id"; "abstract"; "conclusions"]) sections →
  ∃ lines, Context.section_lines docid doctext sections context_str = inr lines.
Proof.
  intros Hs. revert context_str.
  induction Hs as [|section rest Hsection _ IH]; intros context_str; [by eexists|].
  cbn [Context.section_lines]. unfold mbind, result_bind.
  destruct (doctext_get_total doctext section Hsection) as [body ->]. apply IH.
Qed.

(** Without metadata the loop ends at its first pair. *)
Lemma context_loop_without_metadata docs sections pairs context_str doclist :
  Forall (λ section, section ∈ ["id"; "abstract"; "conclusions"]) sections →
  Context.context_loop (Meta := Meta) None docs sections pairs context_str doclist
  = match pairs with
    | [] => inr (context_str, doclist)
    | _ :: _ => inl TypeError
    end.
Proof.
  intros Hs. destruct pairs as [|[docid doctext] rest]; [done|].
  cbn [Context.context_loop]. unfold mbind, result_bind.
  by destruct (section_lines_total docid doctext sections context_str Hs) as [lines ->].
Qed.

Lemma context_loop_returns_empty docs sections pairs context_str doclist context' doclist' :
  Context.context_loop (Meta := Meta) None docs sections pairs context_str doclist
    = inr (context', doclist') →
  pairs = [] ∧ context' = context_str ∧ doclist' = doclist.
Proof.
  destruct pairs as [|[docid doctext] rest]; [by intros [= <- <-]|].
  cbn [Context.context_loop]. unfold mbind, result_bind.
  by destruct (Context.section_lines docid doctext sections context_str).
Qed.

(** The loop, when it ends: one document for every pair, with the id of the
    pair, its score, and the texts of the pair. *)
Lemma context_loop_inv metadata docs sections pairs :
  ∀ context_str doclist context' doclist',
    Context.context_loop metadata docs sections pairs context_str doclist
      = inr (context', doclist') →
    ∃ added,
      doclist' = doclist ++ added ∧
      Context.cd_id <$> added = pairs.*1 ∧
      Context.cd_abstract <$> added = text_abstract <$> pairs.*2 ∧
      Context.cd_conclusions <$> added = text_conclusions <$> pairs.*2 ∧
      Forall (λ d, Context.scores_get docs (Context.cd_id d) = inr (Context.cd_score d))
        added.
Proof.
  induction pairs as [|[docid doctext] rest IH]; intros context_str doclist context' doclist'.
  - intros [= <- <-]. exists []. by rewrite List.app_nil_r.
  - cbn [Context.context_loop]. unfold mbind at 1 2. unfold result_bind at 1 2.
    destruct (Context.section_lines docid doctext sections context_str) as [e|lines]; [done|].
    destruct (Context.context_document metadata docs docid doctext) as [e|document] eqn:Hdoc;
      [done|].
    intros (added & -> & Hids & Habs & Hconc & Hscores)%IH.
    exists (document :: added). rewrite <- List.app_assoc. split; [done|].
    unfold Context.context_document, mbind, result_bind, mret, result_ret in Hdoc.
    destruct (match metadata with Some rows => _ | None => _ end) as [e|meta_row]; [done|].
    destruct (Context.dict_get meta_row "title") as [e|title]; [done|].
    destruct (Context.scores_get docs docid) as [e|score] eqn:Hscore; [done|].
    destruct (Context.dict_get meta_row "citation_count") as [e|n_citation]; [done|].
    destruct (Context.dict_get meta_row "keyword_search") as [e|keywords]; [done|].
    injection Hdoc as <-. cbn [fmap list_fmap Context.cd_id Context.cd_abstract
      Context.cd_conclusions Context.cd_score fst snd].
    rewrite <- Hids, <- Habs, <- Hconc. split_and!; try done.
    constructor; [done|done].
Qed.

Lemma retrieve_context_inv self metadata query top_k sections arxiv_id time_result w
    outcome w' :
  Context.retrieve_context np_dot parse_date self metadata query top_k sections arxiv_id
    time_result w = (outcome, w') →
  match SemanticSearch.retrieve np_dot parse_date self query arxiv_id top_k true
          time_result w with
  | (inl e, w1) => outcome = inl e ∧ w' = w1
  | (inr (Ids _), w1) => outcome = inl (AttributeError "keys") ∧ w' = w1
  | (inr (Scores docs), w1) =>
      outcome = Context.context_loop metadata docs sections
                  (zip docs.*1 (SemanticSearch.get_document_texts self docs.*1)) "" [] ∧
      w' = w1
  end.
Proof.
  unfold Context.retrieve_context. unfold mbind, eff_bind, mret, eff_ret, lift, throw.
  destruct (SemanticSearch.retrieve np_dot parse_date self query arxiv_id top_k true
              time_result w) as [[e|[ids|docs]] w1]; by intros [= <- <-].
Qed.

Lemma zip_nil_iff {A B} (l : list A) (k : list B) : zip l k = [] ↔ l = [] ∨ k = [].
Proof. destruct l, k; cbn; split; try done; try (by left); try (by right); by intros [|]. Qed.

Lemma fst_zip_take {A B} (l : list A) (k : list B) : (zip l k).*1 = take (length k) l.
Proof.
  revert k. induction l as [|x l IH]; intros [|y k]; cbn; try done. by rewrite <- IH.
Qed.

Lemma get_document_texts_length self ids :
  (length (SemanticSearch.get_document_texts self ids) ≤ length ids)%nat.
Proof.
  induction ids as [|docid ids IH]; [done|]. cbn [SemanticSearch.get_document_texts].
  destruct (List.find _ _); cbn [length]; lia.
Qed.

(** X21: [retrieve_context] on a system whose metadata was never loaded,
    which is how [__init__] leaves it.  It never returns anything but the
    empty context: for sections among 'id', 'abstract' and 'conclusions' it
    raises TypeError as soon as one retrieved id has a document, and returns
    the empty context and the empty list when none has. *)
Theorem retrieve_context_without_metadata self query top_k sections arxiv_id time_result w :
  (∀ context doclist w',
     Context.retrieve_context (Meta := Meta) np_dot parse_date self None query top_k sections
       arxiv_id time_result w = (inr (context, doclist), w') →
     context = "" ∧ doclist = []) ∧
  (∀ docs w1,
     SemanticSearch.retrieve np_dot parse_date self query arxiv_id top_k true time_result w
       = (inr (Scores docs), w1) →
     Forall (λ section, section ∈ ["id"; "abstract"; "conclusions"]) sections →
     Context.retrieve_context (Meta := Meta) np_dot parse_date self None query top_k sections
       arxiv_id time_result w
     = (match SemanticSearch.get_document_texts self docs.*1 with
        | [] => inr ("", [])
        | _ :: _ => inl TypeError
        end, w1)).
Proof.
  split.
  - intros context doclist w' Hrun. apply retrieve_context_inv in Hrun.
    destruct (SemanticSearch.retrieve _ _ _ _ _ _ _ _ _) as [[e|[ids|docs]] w1];
      [by destruct Hrun|by destruct Hrun|].
    destruct Hrun as [Hloop _]. symmetry in Hloop.
    by apply context_loop_returns_empty in Hloop as (_ & -> & ->).
  - intros docs w1 Hdocs Hsections.
    destruct (Context.retrieve_context (Meta := Meta) np_dot parse_date self None query top_k
                sections arxiv_id time_result w) as [outcome w'] eqn:Hrun.
    apply retrieve_context_inv in Hrun. rewrite Hdocs in Hrun. destruct Hrun as [-> ->].
    f_equal. rewrite context_loop_without_metadata by done.
    pose proof (get_document_texts_length self docs.*1) as Hlen.
    destruct (SemanticSearch.get_document_texts self docs.*1) as [|doctext doctexts].
    + by destruct (docs.*1).
    + destruct (docs.*1); [cbn in Hlen; lia|done].
Qed.

(** X22: the documents [retrieve_context] returns.  There is one for each
    text [get_document_texts] found, and the k-th document has the k-th
    retrieved id and its score but the texts of the k-th text found: when
    every retrieved id has a document the two agree, and when one has none,
    the ids that follow it are paired with the texts of other documents and
    the last ids are dropped. *)
Theorem retrieve_context_pairs self metadata query top_k sections arxiv_id time_result w
    context doclist w' :
  Context.retrieve_context np_dot parse_date self metadata query top_k sections arxiv_id
    time_result w = (inr (context, doclist), w') →
  ∃ docs,
    SemanticSearch.retrieve np_dot parse_date self query arxiv_id top_k true time_result w
      = (inr (Scores docs), w') ∧
    let doctexts := SemanticSearch.get_document_texts self docs.*1 in
    Context.cd_id <$> doclist = take (length doctexts) docs.*1 ∧
    Context.cd_abstract <$> doclist = text_abstract <$> doctexts ∧
    Context.cd_conclusions <$> doclist = text_conclusions <$> doctexts ∧
    Forall (λ d, Context.scores_get docs (Context.cd_id d) = inr (Context.cd_score d))
      doclist ∧
    (Forall (λ docid, docid ∈ document_id <$> documents self) docs.*1 →
     Context.cd_id <$> doclist = docs.*1 ∧ text_id <$> doctexts = docs.*1).
Proof.
  intros Hrun. apply retrieve_context_inv in Hrun.
  destruct (SemanticSearch.retrieve _ _ _ _ _ _ _ _ _) as [[e|[ids|docs]] w1];
    [by destruct Hrun|by destruct Hrun|].
  destruct Hrun as [Hloop ->]. symmetry in Hloop.
  apply context_loop_inv in Hloop as (added & -> & Hids & Habs & Hconc & Hscores).
  exists docs. split; [done|]. cbn zeta. cbn [app].
  pose proof (get_document_texts_length self docs.*1) as Hlen.
  assert ((zip docs.*1 (SemanticSearch.get_document_texts self docs.*1)).*2
          = SemanticSearch.get_document_texts self docs.*1) as Hsnd.
  { apply snd_zip. lia. }
  assert ((zip docs.*1 (SemanticSearch.get_document_texts self docs.*1)).*1
          = take (length (SemanticSearch.get_document_texts self docs.*1)) docs.*1) as Hfst.
  { apply fst_zip_take. }
  rewrite Hsnd in Habs, Hconc. rewrite Hfst in Hids.
  split_and!; try done.
  intros Hall.
  destruct (get_document_texts_spec self docs.*1) as [Hfound _].
  assert (text_id <$> SemanticSearch.get_document_texts self docs.*1 = docs.*1) as Haligned.
  { rewrite Hfound. clear -Hall. induction Hall as [|docid ids Hin _ IH]; [done|].
    rewrite filter_cons, decide_True by done. by rewrite IH. }
  split; [|done]. rewrite Hids.
  apply take_ge. rewrite <- Haligned at 1. by rewrite length_fmap.
Qed.

End ContextFacts.

(** ** app.py: the display of a paper *)

(** X23: the anchor that [create_tree_html] shows for the link of a paper.
    Its label is what follows the last slash of the link.  For an id without
    ".txt" and without a slash the label is the id itself, and the anchor
    leads to the page of that id. *)
Theorem paper_anchor_label paper_id link :
  App.format_paper_link paper_id = inr link →
  ∃ label,
    Spec.after_last "/" link label ∧
    AppTree.paper_anchor link
      = inr ("<a href='" +:+ link +:+ "' target='_blank'>" +:+ label +:+ "</a>") ∧
    (contains ".txt" paper_id = false → contains "/" paper_id = false →
     label = paper_id ∧ link = "https://arxiv.org/abs/" +:+ paper_id).
Proof.
  intros Hlink.
  assert (contains "/" link = true) as Hslash.
  { destruct (contains ".txt" paper_id) eqn:Htxt.
    - destruct (format_paper_link_txt_tail paper_id Htxt) as (tail & _ & Heq).
      rewrite Heq in Hlink. injection Hlink as <-.
      apply (contains_app "/" "https:" ("/arxiv.org/abs/astro-ph/" +:+ tail)).
    - unfold App.format_paper_link in Hlink. rewrite Htxt in Hlink.
      injection Hlink as <-.
      apply (contains_app "/" "https:" ("/arxiv.org/abs/" +:+ paper_id)). }
  apply last_occurrence in Hslash as (u & label & Hu & Hlabel).
  destruct (split_go_last "/" "" label eq_refl Hlabel u) as (pieces & _ & Hpieces).
  exists label. split_and!.
  - split; [done|]. right. by exists u.
  - unfold AppTree.paper_anchor. cbn [split]. unfold mbind, mret, result_bind, result_ret.
    rewrite Hu at 1. rewrite Hpieces, getitem_last. done.
  - intros Htxt Hid. unfold App.format_paper_link in Hlink. rewrite Htxt in Hlink.
    injection Hlink as <-. split; [|done].
    change ("https://arxiv.org/abs/" +:+ paper_id)
      with ("https://arxiv.org/abs" +:+ "/" +:+ paper_id) in Hu.
    apply app_eq_app in Hu as [(z & Hz & Hrest)|(z & Hz & Hrest)].
    + destruct z as [|c z].
      * change ("" +:+ "/" +:+ label) with ("/" +:+ label) in Hrest.
        rewrite !app_cons in Hrest. by injection Hrest.
      * rewrite (app_cons c z), (app_cons "/" "" paper_id) in Hrest.
        injection Hrest as _ Hrest.
        change ("" +:+ paper_id) with paper_id in Hrest.
        rewrite Hrest in Hid. by rewrite (contains_app "/" z label) in Hid.
    + destruct z as [|c z].
      * change ("" +:+ "/" +:+ paper_id) with ("/" +:+ paper_id) in Hrest.
        rewrite !app_cons in Hrest. by injection Hrest.
      * rewrite (app_cons c z), (app_cons "/" "" label) in Hrest.
        injection Hrest as _ Hrest.
        change ("" +:+ label) with label in Hrest.
        rewrite Hrest in Hlabel. by rewrite (contains_app "/" z paper_id) in Hlabel.
Qed.

(** ** app.py: the keys of [generate_science_tree] *)

Section RetrieverExt.

Context {R : Type} `{!Retriever R}.
Variables retriever1 retriever2 : R.
Variable config_file : string → option (result string).
Variable Anthropic : string → GenerationClient.

Hypothesis retrieve_ext :
  ∀ query yearstr top_k w,
    retrieve retriever1 query yearstr top_k w = retrieve retriever2 query yearstr top_k w.
Hypothesis texts_ext :
  ∀ ids w, get_document_texts retriever1 ids w = get_document_texts retriever2 ids w.

Lemma gather_retriever_ext text year mode w :
  gather retriever1 text year mode w = gather retriever2 text year mode w.
Proof.
  unfold gather, call_retrieve, call_get_document_texts, mbind, eff_bind.
  rewrite retrieve_ext.
  destruct (retrieve retriever2 text _ 10 _) as [[e|ids] w1]; [done|].
  by rewrite texts_ext.
Qed.

Lemma generate_retriever_ext (make1 make2 : string → Eff scienceTreeNode) text year mode
    generation_model background generation_client self_temperature temperature n :
  (∀ child w, make1 child w = make2 child w) →
  ∀ w, generate retriever1 make1 text year mode generation_model background
         generation_client self_temperature temperature n w
     = generate retriever2 make2 text year mode generation_model background
         generation_client self_temperature temperature n w.
Proof.
  intros Hext w.
  rewrite (generate_ext retriever1 make1 make2) by done.
  unfold generate. unfold mbind at 1 8. unfold eff_bind at 1 8.
  by rewrite gather_retriever_ext.
Qed.

Lemma init_fuel_retriever_ext fuel :
  ∀ text year n temperature background experiment mode generation_model api_key
    generation_client config_path w,
    init_fuel retriever1 config_file Anthropic fuel text year n temperature background
      experiment mode generation_model api_key generation_client config_path w
    = init_fuel retriever2 config_file Anthropic fuel text year n temperature background
        experiment mode generation_model api_key generation_client config_path w.
Proof.
  induction fuel as [|fuel IH];
    intros text year n temperature background experiment mode generation_model api_key
      generation_client config_path w; cbn [init_fuel]; [done|].
  unfold mbind at 1 3. unfold eff_bind at 1 3.
  destruct (lift _ w) as [[e|client] w1]; [done|].
  destruct (mode <? 3); [|done].
  unfold mbind, eff_bind.
  rewrite (generate_retriever_ext
             (λ child, init_fuel retriever1 config_file Anthropic fuel child year n
                default_temperature
                (Some (resolve_background background experiment)) None (mode + 1)
                default_model None client default_config_path)
             (λ child, init_fuel retriever2 config_file Anthropic fuel child year n
                default_temperature
                (Some (resolve_background background experiment)) None (mode + 1)
                default_model None client default_config_path)); [done|].
  intros child w0. apply IH.
Qed.

End RetrieverExt.

Section AppFacts.

Context {Vec Mat Date : Type}.
Variable np_dot : Mat → Vec → result (list Z).
Variable parse_date : option string → result Date.
Variable config_file : string → option (result string).
Variable Anthropic : string → GenerationClient.
Variable OpenAI : string → result (EmbeddingClient Vec).

Implicit Types (self retriever : EmbeddingRetrievalSystem Vec Mat).

(** Without date weighting the retrieval does not look at the Anthropic
    client of the system. *)
Lemma retrieve_ignores_anthropic_client self self' query arxiv_id top_k return_scores
    time_result w :
  weight_date self = false → weight_date self' = false →
  weight_keywords self' = weight_keywords self → embeddings self' = embeddings self →
  index_mapping self' = index_mapping self → client self' = client self →
  keyword_filter self' = keyword_filter self →
  SemanticSearch.retrieve np_dot parse_date self query arxiv_id top_k return_scores
    time_result w
  = SemanticSearch.retrieve np_dot parse_date self' query arxiv_id top_k return_scores
      time_result w.
Proof.
  destruct self, self'. cbn. intros -> -> -> -> -> -> ->. reflexivity.
Qed.

Lemma get_document_texts_documents self self' ids :
  documents self' = documents self →
  SemanticSearch.get_document_texts self' ids = SemanticSearch.get_document_texts self ids.
Proof.
  intros Hdocs. induction ids as [|docid ids IH]; [done|].
  cbn [SemanticSearch.get_document_texts]. rewrite Hdocs, IH. done.
Qed.

(** X24: the Anthropic key typed into the app.  With the retriever of
    app.py, which does not weight dates, and a configuration file at
    "../config.yaml", the key has no effect on the tree: the file is read
    instead, and two runs that differ in the key only have the same outcome
    and make the same calls. *)
Theorem anthropic_key_unused retriever science_objective openai_api_key anthropic_api_key
    anthropic_api_key' branching_factor year_cutoff temperature w :
  weight_date retriever = false →
  is_Some (config_file default_config_path) →
  (AppTree.generate_science_tree np_dot parse_date config_file Anthropic OpenAI retriever
     science_objective openai_api_key anthropic_api_key branching_factor year_cutoff
     temperature).2 w
  = (AppTree.generate_science_tree np_dot parse_date config_file Anthropic OpenAI retriever
       science_objective openai_api_key anthropic_api_key' branching_factor year_cutoff
       temperature).2 w.
Proof.
  intros Hdate [outcome Hconfig].
  unfold AppTree.generate_science_tree. cbn [snd].
  unfold mbind at 1 2. unfold eff_bind at 1 2.
  set (r1 := match Context.set_clients Anthropic OpenAI retriever openai_api_key
                     anthropic_api_key with inr updated => updated | inl _ => retriever end).
  set (r2 := match Context.set_clients Anthropic OpenAI retriever openai_api_key
                     anthropic_api_key' with inr updated => updated | inl _ => retriever end).
  assert (init (Retriever0 := App.embedding_retriever np_dot parse_date) r1 config_file
            Anthropic science_objective year_cutoff branching_factor (Some temperature) None
            None 0 default_model (Some anthropic_api_key) None default_config_path w
          = init (Retriever0 := App.embedding_retriever np_dot parse_date) r2 config_file
              Anthropic science_objective year_cutoff branching_factor (Some temperature)
              None None 0 default_model (Some anthropic_api_key') None default_config_path w)
    as ->; [|done].
  unfold init.
  rewrite (init_fuel_retriever_ext r1 r2).
  - change (Z.to_nat (3 - 0)) with 3%nat. cbn [init_fuel resolve_client].
    rewrite Hconfig. reflexivity.
  - intros query yearstr top_k w0. cbn [retrieve App.embedding_retriever].
    unfold mbind at 1 2. unfold eff_bind at 1 2.
    rewrite (retrieve_ignores_anthropic_client r1 r2); [done|..];
      subst r1 r2; unfold Context.set_clients, mbind, result_bind;
      by destruct (OpenAI openai_api_key).
  - intros ids w0. cbn [get_document_texts App.embedding_retriever].
    rewrite (get_document_texts_documents r2 r1); [done|].
    subst r1 r2; unfold Context.set_clients, mbind, result_bind.
    by destruct (OpenAI openai_api_key).
Qed.

End AppFacts.

(** ** temporal.py: numbers in a query *)

(** X25: four digits in a row, anywhere in a query, make it a temporal
    query: any number of four or more digits does, whether it is a year or
    not. *)
Theorem is_temporal_query_four_digits u a b c d v :
  is_digit a = true → is_digit b = true → is_digit c = true → is_digit d = true →
  is_temporal_query (u +:+ String a (String b (String c (String d v)))) = true.
Proof.
  intros Ha Hb Hc Hd. apply is_temporal_query_found.
  exists u, (String a (String b (String c (String d "")))), v. split; [done|].
  unfold temporal_pattern. cbn [alts foldr]. apply Spec.MatchAltL.
  cbn [seqs rep replicate foldr opt].
  change (String a (String b (String c (String d ""))))
    with (String a (String b (String c (String d ""))) +:+ "").
  apply Spec.MatchSeq.
  - change (String a (String b (String c (String d ""))))
      with (String a "" +:+ String b "" +:+ String c "" +:+ String d "" +:+ "").
    repeat (apply Spec.MatchSeq; [by constructor|]). constructor.
  - change "" with ("" +:+ ""). apply Spec.MatchSeq; [|constructor].
    apply Spec.MatchAltR. constructor.
Qed.

(** ** sciencetree.py and semantic_search.py: the papers of a node *)

Section TreeEvery.

Context {R : Type} `{!Retriever R}.
Variable retriever : R.
Variable config_file : string → option (result string).
Variable Anthropic : string → GenerationClient.
Variable Q : list string → Prop.

Hypothesis gather_docs :
  ∀ text year mode w self_docs input_text w1,
    gather retriever text year mode w = (inr (self_docs, input_text), w1) → Q self_docs.
Hypothesis no_docs : Q [].

Lemma init_fuel_every fuel :
  ∀ text year n temperature background experiment mode generation_model api_key
    generation_client config_path w node w',
    init_fuel retriever config_file Anthropic fuel text year n temperature background
      experiment mode generation_model api_key generation_client config_path w
    = (inr node, w') →
    Below.every (λ nd, Q (docs nd)) node.
Proof.
  induction fuel as [|fuel IH];
    intros text year n temperature background experiment mode generation_model api_key
      generation_client config_path w node w'; cbn [init_fuel];
    unfold mbind at 1; unfold eff_bind at 1; unfold lift;
    destruct (resolve_client config_file Anthropic generation_client config_path api_key)
      as [e|client] eqn:Hclient; try done;
    destruct (Z.ltb_spec mode 3) as [Hlt|Hge]; try done.
  - intros [= <- <-]. by constructor.
  - unfold mbind, eff_bind.
    match goal with
    | |- context [generate retriever ?make _ _ _ _ _ _ _ _ _ w] =>
        destruct (generate retriever make text year mode generation_model
                    (resolve_background background experiment) client temperature
                    temperature n w) as [[e|[self_docs nodes]] w1] eqn:Hgen; [done|]
    end.
    intros [= <- <-].
    apply generate_inv in Hgen
      as (input_text & w2 & c & req & message & -> & Hgather & _ & _ & Hnodes).
    constructor; cbn [docs children]; [by eapply gather_docs|].
    eapply Forall2_exists_r; [|eapply children_of_lines_inv, Hnodes].
    + intros line child (t & _ & Hchild). exact Hchild.
    + intros t w0 child w0' Hchild. by apply IH in Hchild.
  - intros [= <- <-]. by constructor.
Qed.

End TreeEvery.

Section Papers.

Context {Vec Mat Date : Type}.
Variable np_dot : Mat → Vec → result (list Z).
Variable parse_date : option string → result Date.
Variable config_file : string → option (result string).
Variable Anthropic : string → GenerationClient.

Implicit Types (self : EmbeddingRetrievalSystem Vec Mat).

Lemma rank_and_filter_bounded self query embedding (date : Date) top_k time_result ids :
  0 ≤ top_k →
  rank_and_filter np_dot self query embedding date top_k false time_result = inr (Ids ids) →
  Z.of_nat (length ids) ≤ top_k ∧ ids ⊆ (index_mapping self).*1.
Proof.
  intros Hk (similarities & results & _ & Hres & [= ->])%rank_and_filter_inv.
  split.
  - rewrite length_fmap.
    by destruct (top_results_ranked results top_k Hk) as (_ & _ & _ & _ & _ & Hlen).
  - apply score_documents_ids in Hres. rewrite <- Hres, top_results_ids.
    intros id Hid.
    rewrite <- (sorted_reverse_perm c_score sim_lt results).
    eapply elem_of_sublist; [exact Hid|].
    unfold slice_to. destruct (top_k <? 0); apply sublist_take.
Qed.

Lemma gather_papers self text year mode w self_docs input_text w1 :
  gather (Retriever0 := App.embedding_retriever np_dot parse_date) self text year mode w
    = (inr (self_docs, input_text), w1) →
  (length self_docs ≤ 10)%nat ∧
  Forall (λ id, id ∈ document_id <$> documents self ∧ id ∈ (index_mapping self).*1)
    self_docs.
Proof.
  unfold gather, call_retrieve, call_get_document_texts.
  cbn [retrieve get_document_texts App.embedding_retriever].
  unfold mbind at 1. unfold eff_bind at 1. unfold mbind at 1. unfold eff_bind at 1.
  destruct (SemanticSearch.retrieve np_dot parse_date self text _ 10 false None
              (log (EvRetrieve text) w)) as [[e|found] w2] eqn:Hfound; [done|].
  apply retrieve_inv in Hfound as (date & embedding & w3 & intent & _ & _ & Hrank).
  destruct found as [ids|scores].
  2:{ by apply rank_and_filter_inv in Hrank as (? & ? & _ & _ & [=]). }
  apply rank_and_filter_bounded in Hrank as [Hlen Hkeys]; [|lia].
  unfold mbind, eff_bind, mret, eff_ret, lift.
  destruct (getitem modes mode) as [e|label]; [done|].
  intros [= <- _ _].
  destruct (get_document_texts_spec self ids) as [Hfound _]. rewrite Hfound. split.
  - pose proof (length_filter (λ doc_id, doc_id ∈ document_id <$> documents self) ids). lia.
  - apply Forall_forall. intros id [Hdoc Hid]%list_elem_of_filter. split; [done|].
    by apply Hkeys.
Qed.

(** X26: the papers of a tree built over an [EmbeddingRetrievalSystem].
    Every node of a tree that the constructor returns lists at most ten
    papers, and each of them is the id of a document of the system and a key
    of its index mapping. *)
Theorem tree_papers self text year n temperature background experiment mode generation_model
    api_key generation_client config_path w node w' :
  init (Retriever0 := App.embedding_retriever np_dot parse_date) self config_file Anthropic
    text year n temperature background experiment mode generation_model api_key
    generation_client config_path w = (inr node, w') →
  Below.every
    (λ nd, (length (docs nd) ≤ 10)%nat ∧
           Forall (λ id, id ∈ document_id <$> documents self ∧
                         id ∈ (index_mapping self).*1) (docs nd))
    node.
Proof.
  unfold init. intros Hnode.
  eapply (init_fuel_every self config_file Anthropic
            (λ ids, (length ids ≤ 10)%nat ∧
                    Forall (λ id, id ∈ document_id <$> documents self ∧
                                  id ∈ (index_mapping self).*1) ids)); [| |exact Hnode].
  - intros t y m w0 self_docs input_text w1. apply gather_papers.
  - split; [cbn; lia|constructor].
Qed.

End Papers.

(** ** Instances of the properties above on the small corpus *)

Lemma rank_and_filter_count_witness :
  Z.of_nat (length ["b"; "a"; "d"; "c"])
  = Z.max 0 (Z.min (Z.of_nat (length (index_mapping (Fixtures.corpus false None))))
               (if -1 <? 0
                then Z.of_nat (length (index_mapping (Fixtures.corpus false None))) + -1
                else -1)).
Proof.
  apply (rank_and_filter_count Fixtures.dot (Fixtures.corpus false None)
           Fixtures.stellar_mass_query [1; 0] (None : option string) (-1) None).
  vm_compute. reflexivity.
Defined.

Lemma rank_and_filter_prefix_witness : ["b"; "a"] = take (Z.to_nat 2) ["b"; "a"; "d"; "c"].
Proof.
  apply (rank_and_filter_prefix Fixtures.dot (Fixtures.corpus false None)
           Fixtures.stellar_mass_query [1; 0] (None : option string) 2 4 None).
  - lia.
  - vm_compute. reflexivity.
  - vm_compute. reflexivity.
Defined.

Lemma rank_and_filter_ids_witness :
  ["b"; "a"; "d"; "c"; "e"] ⊆ (index_mapping (Fixtures.corpus false None)).*1 ∧
  (NoDup (index_mapping (Fixtures.corpus false None)).*1 → NoDup ["b"; "a"; "d"; "c"; "e"]) ∧
  (Z.of_nat (length (index_mapping (Fixtures.corpus false None))) ≤ 5 →
   ["b"; "a"; "d"; "c"; "e"] ≡ₚ (index_mapping (Fixtures.corpus false None)).*1).
Proof.
  apply (rank_and_filter_ids Fixtures.dot (Fixtures.corpus false None)
           Fixtures.stellar_mass_query [1; 0] (None : option string) 5 None).
  vm_compute. reflexivity.
Defined.

Lemma rank_and_filter_row_out_of_range_witness :
  rank_and_filter Fixtures.dot Cases.truncated Fixtures.stellar_mass_query [1; 0]
    (None : option string) 10 false None = inl IndexError.
Proof.
  apply (rank_and_filter_row_out_of_range Fixtures.dot Cases.truncated
           Fixtures.stellar_mass_query [1; 0] (None : option string) 10 false None
           [3; 5] ("a", {[ "abstract" := 2 ]}) "abstract" 2).
  - reflexivity.
  - reflexivity.
  - vm_compute. right. left.
  - by left.
  - reflexivity.
  - unfold Spec.row_in_range. cbn. lia.
Defined.
Lemma rank_and_filter_keywords_witness :
  rank_and_filter Fixtures.dot (Cases.keyword_corpus None) Fixtures.stellar_mass_query [1; 0]
    (None : option string) 2 false None = inl (AttributeError "keyword_filter") ∧
  rank_and_filter Fixtures.dot (Cases.keyword_corpus (Some Cases.only_a))
    Fixtures.stellar_mass_query [1; 0] (None : option string) 2 false None
  = rank_and_filter Fixtures.dot (Fixtures.corpus false None)
      Fixtures.stellar_mass_query [1; 0] (None : option string) 2 false None.
Proof.
  split.
  - apply (proj1 (rank_and_filter_keywords Fixtures.dot (Cases.keyword_corpus None)
             Fixtures.stellar_mass_query [1; 0] (None : option string) 2 false None
             [3; 5; 5; -1] eq_refl eq_refl)).
    reflexivity.
  - apply (proj2 (rank_and_filter_keywords Fixtures.dot
             (Cases.keyword_corpus (Some Cases.only_a))
             Fixtures.stellar_mass_query [1; 0] (None : option string) 2 false None
             [3; 5; 5; -1] eq_refl eq_refl) Cases.only_a ["a"]); reflexivity.
Defined.

Lemma rank_and_filter_scores_witness :
  ∃ scores,
    rank_and_filter Fixtures.dot (Fixtures.corpus false None) Fixtures.stellar_mass_query
      [1; 0] (None : option string) 4 true None = inr (Scores scores) ∧
    scores.*1 = ["b"; "a"; "d"; "c"] ∧
    StronglySorted (λ s s', sim_lt s s' = false) scores.*2.
Proof.
  apply (rank_and_filter_scores Fixtures.dot (Fixtures.corpus false None)
           Fixtures.stellar_mass_query [1; 0] (None : option string) 4 None).
  - apply (bool_decide_unpack _). vm_compute. exact I.
  - lia.
  - vm_compute. reflexivity.
Defined.



Lemma retrieve_calls_witness :
  let outcome : result Retrieved := inr (Ids ["b"; "a"; "d"]) in
  let w' := mkWorld [EvEmbed Fixtures.latest_query] 0 (clock Fixtures.world0)
    (interpreter Fixtures.world0) in
  ticks w' = ticks Fixtures.world0 ∧ clock w' = clock Fixtures.world0 ∧
  (calls w' = calls Fixtures.world0 ∨
   calls w' = EvEmbed Fixtures.latest_query :: calls Fixtures.world0) ∧
  (∀ r, outcome = inr r → calls w' = EvEmbed Fixtures.latest_query :: calls Fixtures.world0) ∧
  (∀ e, Fixtures.parse_date (Some "2301.00001") = inl e →
        outcome = inl e ∧ calls w' = calls Fixtures.world0) ∧
  (∀ date, Fixtures.parse_date (Some "2301.00001") = inr date →
           client (Fixtures.corpus false None) = None →
           outcome = inl (AttributeError "embed") ∧ calls w' = calls Fixtures.world0).
Proof.
  apply (retrieve_calls Fixtures.dot Fixtures.parse_date (Fixtures.corpus false None)
           Fixtures.latest_query (Some "2301.00001") 3 false None Fixtures.world0).
  - left. reflexivity.
  - vm_compute. reflexivity.
Defined.


Lemma is_temporal_query_substring_witness :
  is_temporal_query ("gr" +:+ "ad" +:+ "ient descent") = true.
Proof. apply (is_temporal_query_substring "gr" "ad" "ient descent"). vm_compute. reflexivity. Defined.

Lemma is_temporal_query_ignores_case_witness :
  is_temporal_query "The LATEST results" = is_temporal_query "the latest results".
Proof.
  apply (proj2 (is_temporal_query_ignores_case "the latest results") "The LATEST results").
  vm_compute. reflexivity.
Defined.

Lemma child_text_keeps_tail_witness :
  child_text ("1. " +:+ "{" +:+ "objective" +:+ "}" +:+ " (important)")
    = inr ("objective" +:+ " (important)") ∧
  ∀ more,
    child_text ("1. " +:+ "{" +:+ "objective" +:+ "}" +:+ " (important)" +:+ "{" +:+ more)
    = inr ("objective" +:+ " (important)").
Proof. apply (child_text_keeps_tail "1. " "objective" " (important)"); reflexivity. Defined.

Lemma child_text_has_no_brace_witness :
  contains "{" "a b" = false ∧ contains "}" "a b" = false.
Proof. apply (child_text_has_no_brace "x}{a}} b{c}" "a b"). vm_compute. reflexivity. Defined.
Lemma tree_inherits_witness :
  ∃ node w',
    Fixtures.tree Fixtures.goal 2 (Fixtures.scripted [Fixtures.three_entries]) Fixtures.world0
      = (inr node, w') ∧
    ScienceTree.text node = Fixtures.goal ∧
    ScienceTree.mode node = 0 ∧
    ScienceTree.year node = 2024 ∧
    ScienceTree.n node = 2 ∧
    ScienceTree.generation_model node = default_model ∧
    ScienceTree.temperature node = default_temperature ∧
    ScienceTree.background node = resolve_background None None ∧
    (3 ≤ 0 → children node = [] ∧ docs node = []) ∧
    Forall (Below.inherits 2024 2 (ScienceTree.background node)
              (ScienceTree.generation_client node) (0 + 1)) (children node).
Proof.
  eexists _, _. split; [vm_compute; reflexivity|].
  eapply (tree_inherits (Retriever0 := App.embedding_retriever Fixtures.dot Fixtures.parse_date)
           (Fixtures.corpus false None) Fixtures.no_config Fixtures.silent
           Fixtures.goal 2024 2 default_temperature None None 0 default_model None
           (Some (Fixtures.scripted [Fixtures.three_entries])) default_config_path
           Fixtures.world0).
  vm_compute. reflexivity.
Defined.

Lemma children_follow_response_witness :
  ∃ node w',
    Fixtures.tree Fixtures.goal 2 (Fixtures.scripted [Fixtures.three_entries]) Fixtures.world0
      = (inr node, w') ∧
    ∃ input_text w1 c req message,
      ScienceTree.generation_client node = Some c ∧
      gather (Retriever0 := App.embedding_retriever Fixtures.dot Fixtures.parse_date)
        (Fixtures.corpus false None) Fixtures.goal 2024 0 Fixtures.world0
        = (inr (docs node, input_text), w1) ∧
      request default_model (resolve_background None None) 0 2 default_temperature
        input_text = inr req ∧
      c (calls w1) req = inr message ∧
      Forall2 (λ line child, child_text line = inr (ScienceTree.text child))
        (List.filter accepted (split_go newline 0 message)) (children node).
Proof.
  eexists _, _. split; [vm_compute; reflexivity|].
  eapply (children_follow_response
           (Retriever0 := App.embedding_retriever Fixtures.dot Fixtures.parse_date)
           (Fixtures.corpus false None) Fixtures.no_config Fixtures.silent
           Fixtures.goal 2024 2 default_temperature None None 0 default_model None
           (Some (Fixtures.scripted [Fixtures.three_entries])) default_config_path
           Fixtures.world0).
  - lia.
  - vm_compute. reflexivity.
Defined.

Lemma construction_without_client_witness :
  (∃ e w',
     init (Retriever0 := App.embedding_retriever Fixtures.dot Fixtures.parse_date)
       (Fixtures.corpus false None) Fixtures.no_config Fixtures.silent Fixtures.goal 2024 2
       default_temperature None None 0 default_model None None default_config_path
       Fixtures.world0 = (inl e, w')) ∧
  (∀ ids w1 texts w2,
     -4 ≤ 0 →
     ScienceTree.retrieve (Retriever := App.embedding_retriever Fixtures.dot Fixtures.parse_date)
       (Fixtures.corpus false None) Fixtures.goal (str (2024 `div` 100) +:+ "01.0001") 10
       (log (EvRetrieve Fixtures.goal) Fixtures.world0) = (inr ids, w1) →
     ScienceTree.get_document_texts
       (Retriever := App.embedding_retriever Fixtures.dot Fixtures.parse_date)
       (Fixtures.corpus false None) ids (log (EvTexts ids) w1) = (inr texts, w2) →
     init (Retriever0 := App.embedding_retriever Fixtures.dot Fixtures.parse_date)
       (Fixtures.corpus false None) Fixtures.no_config Fixtures.silent Fixtures.goal 2024 2
       default_temperature None None 0 default_model None None default_config_path
       Fixtures.world0 = (inl (AttributeError "generation_client"), w2)).
Proof.
  apply (construction_without_client
           (Retriever0 := App.embedding_retriever Fixtures.dot Fixtures.parse_date)
           (Fixtures.corpus false None) Fixtures.no_config Fixtures.silent
           Fixtures.goal 2024 2 default_temperature None None 0 default_model
           default_config_path Fixtures.world0).
  - reflexivity.
  - lia.
Defined.

Lemma embedding_retriever_quiet {Vec Mat Date : Type} (np_dot : Mat → Vec → result (list Z))
    (parse_date : option string → result Date) (self : EmbeddingRetrievalSystem Vec Mat) :
  weight_date self = false →
  ∀ query yearstr top_k w outcome w',
    ScienceTree.retrieve (Retriever := App.embedding_retriever np_dot parse_date) self query
      yearstr top_k w = (outcome, w') →
    generation_calls (calls w') = generation_calls (calls w).
Proof.
  intros Hdate query yearstr top_k w outcome w'.
  cbn [ScienceTree.retrieve App.embedding_retriever]. unfold mbind, eff_bind.
  destruct (SemanticSearch.retrieve np_dot parse_date self query (Some yearstr) top_k false
              None w) as [found w1] eqn:Hfound.
  apply retrieve_footprint in Hfound as (_ & _ & Hcalls & _); [|by left].
  assert (generation_calls (calls w1) = generation_calls (calls w)) as Hquiet.
  { destruct Hcalls as [->| ->]; done. }
  destruct found as [e|[ids|scores]]; by intros [= <- <-].
Qed.

Lemma embedding_texts_quiet {Vec Mat Date : Type} (np_dot : Mat → Vec → result (list Z))
    (parse_date : option string → result Date) (self : EmbeddingRetrievalSystem Vec Mat) :
  ∀ ids w outcome w',
    ScienceTree.get_document_texts (Retriever := App.embedding_retriever np_dot parse_date)
      self ids w = (outcome, w') →
    generation_calls (calls w') = generation_calls (calls w).
Proof. intros ids w outcome w'. by intros [= <- <-]. Qed.

Lemma one_request_per_expansion_witness :
  ∃ node w',
    Fixtures.tree Fixtures.goal 2 (Fixtures.scripted [Fixtures.three_entries]) Fixtures.world0
      = (inr node, w') ∧
    Below.expansions node = 4%nat ∧
    generation_calls (calls w')
    = (generation_calls (calls Fixtures.world0) + Below.expansions node)%nat.
Proof.
  eexists _, _. split; [vm_compute; reflexivity|]. split; [vm_compute; reflexivity|].
  eapply (one_request_per_expansion
            (Retriever0 := App.embedding_retriever Fixtures.dot Fixtures.parse_date)
            (Fixtures.corpus false None) Fixtures.no_config Fixtures.silent
            (embedding_retriever_quiet Fixtures.dot Fixtures.parse_date
               (Fixtures.corpus false None) eq_refl)
            (embedding_texts_quiet Fixtures.dot Fixtures.parse_date
               (Fixtures.corpus false None))
            Fixtures.goal 2024 2 default_temperature None None 0 default_model None
            (Some (Fixtures.scripted [Fixtures.three_entries])) default_config_path
            Fixtures.world0).
  vm_compute. reflexivity.
Defined.

Lemma retrieve_context_without_metadata_witness :
  Context.retrieve_context (Meta := string) Fixtures.dot Fixtures.parse_date
    (Fixtures.corpus false None) None Fixtures.stellar_mass_query 3
    ["abstract"; "conclusions"] None None Fixtures.world0
  = (match SemanticSearch.get_document_texts (Fixtures.corpus false None)
             [("b", Fin 5); ("a", Fin 5); ("d", Fin 5)].*1 with
     | [] => inr ("", [])
     | _ :: _ => inl TypeError
     end, mkWorld [EvEmbed Fixtures.stellar_mass_query] 0 (clock Fixtures.world0)
       (interpreter Fixtures.world0)).
Proof.
  apply (proj2 (retrieve_context_without_metadata (Meta := string) Fixtures.dot
                  Fixtures.parse_date (Fixtures.corpus false None)
                  Fixtures.stellar_mass_query 3 ["abstract"; "conclusions"] None None
                  Fixtures.world0)).
  - vm_compute. reflexivity.
  - repeat constructor.
Defined.

Lemma retrieve_context_pairs_witness :
  ∃ docs,
    SemanticSearch.retrieve Fixtures.dot Fixtures.parse_date Cases.ghost_first
      Fixtures.stellar_mass_query None 2 true None Fixtures.world0
      = (inr (Scores docs),
         mkWorld [EvEmbed Fixtures.stellar_mass_query] 0 (clock Fixtures.world0)
           (interpreter Fixtures.world0)) ∧
    let doctexts := SemanticSearch.get_document_texts Cases.ghost_first docs.*1 in
    let doclist :=
      [Context.mkContextDocument "ghost" "abstract of a" "conclusions of a" "ghost"
         "A title" (Fin 9) "3" "keywords"] in
    Context.cd_id <$> doclist = take (length doctexts) docs.*1 ∧
    Context.cd_abstract <$> doclist = text_abstract <$> doctexts ∧
    Context.cd_conclusions <$> doclist = text_conclusions <$> doctexts ∧
    Forall (λ d, Context.scores_get docs (Context.cd_id d) = inr (Context.cd_score d))
      doclist ∧
    (Forall (λ docid, docid ∈ document_id <$> documents Cases.ghost_first) docs.*1 →
     Context.cd_id <$> doclist = docs.*1 ∧ text_id <$> doctexts = docs.*1).
Proof.
  apply (retrieve_context_pairs Fixtures.dot Fixtures.parse_date Cases.ghost_first
           Cases.ghost_metadata Fixtures.stellar_mass_query 2 ["abstract"; "conclusions"]
           None None Fixtures.world0
           ("ghost: abstract of a" +:+ newline +:+ "ghost: conclusions of a" +:+ newline)).
  vm_compute. reflexivity.
Defined.

Lemma paper_anchor_label_witness :
  ∃ label,
    Spec.after_last "/" "https://arxiv.org/abs/2301.00001" label ∧
    AppTree.paper_anchor "https://arxiv.org/abs/2301.00001"
      = inr ("<a href='" +:+ "https://arxiv.org/abs/2301.00001" +:+ "' target='_blank'>"
             +:+ label +:+ "</a>") ∧
    (contains ".txt" "2301.00001" = false → contains "/" "2301.00001" = false →
     label = "2301.00001" ∧
     "https://arxiv.org/abs/2301.00001" = "https://arxiv.org/abs/" +:+ "2301.00001").
Proof. apply (paper_anchor_label "2301.00001"). reflexivity. Defined.

Lemma anthropic_key_unused_witness :
  (AppTree.generate_science_tree Fixtures.dot Fixtures.parse_date Cases.with_config
     Fixtures.silent Cases.openai (Fixtures.corpus false None) Fixtures.goal "openai key"
     "a key" 2 2024 (QArith_base.Qmake 5 10)).2 Fixtures.world0
  = (AppTree.generate_science_tree Fixtures.dot Fixtures.parse_date Cases.with_config
       Fixtures.silent Cases.openai (Fixtures.corpus false None) Fixtures.goal "openai key"
       "another key" 2 2024 (QArith_base.Qmake 5 10)).2 Fixtures.world0.
Proof.
  apply (anthropic_key_unused Fixtures.dot Fixtures.parse_date Cases.with_config
           Fixtures.silent Cases.openai (Fixtures.corpus false None) Fixtures.goal
           "openai key" "a key" "another key" 2 2024 (QArith_base.Qmake 5 10)
           Fixtures.world0).
  - reflexivity.
  - vm_compute. eauto.
Defined.

Lemma is_temporal_query_four_digits_witness :
  is_temporal_query ("NGC " +:+ String "1" (String "2" (String "3" (String "4" " spectra"))))
    = true.
Proof. apply (is_temporal_query_four_digits "NGC " "1" "2" "3" "4" " spectra"); reflexivity. Defined.

Lemma tree_papers_witness :
  ∃ node w',
    Fixtures.tree Fixtures.goal 2 (Fixtures.scripted [Fixtures.three_entries]) Fixtures.world0
      = (inr node, w') ∧
    Below.every
      (λ nd, (length (docs nd) ≤ 10)%nat ∧
             Forall (λ id, id ∈ document_id <$> documents (Fixtures.corpus false None) ∧
                           id ∈ (index_mapping (Fixtures.corpus false None)).*1) (docs nd))
      node.
Proof.
  eexists _, _. split; [vm_compute; reflexivity|].
  eapply (tree_papers Fixtures.dot Fixtures.parse_date Fixtures.no_config Fixtures.silent
            (Fixtures.corpus false None) Fixtures.goal 2024 2 default_temperature None None 0
            default_model None (Some (Fixtures.scripted [Fixtures.three_entries]))
            default_config_path Fixtures.world0).
  vm_compute. reflexivity.
Defined.
